(** * Resilient JSON-RPC invocation layer: model and properties

    A shallow embedding of the TypeScript sources
      - utils/api-utils.ts   (handleError, apiRequestWithTimeout,
                              validateApiResponse, retryApiRequest),
      - utils/rpc-factory.ts (RpcFactory.createRequest, callRpcMethod),
      - clients/rpc-api-client.ts (RpcAPIClient),
      - builders/rpc-test-scenario-builder.ts (RpcTestScenarioBuilder),
    followed by the properties of the specification that concern them.

    Conventions of the model.
      - JavaScript values are the inductive type [JsVal]; numbers are
        restricted to integers (the sources only compare a length with 0).
      - An asynchronous computation [() => Promise<T>] is a function
        [W -> Outcome T * W]: it is run from a world [W] and yields either a
        value or a thrown value, together with the world it leaves behind.
        All awaits of the sources are sequential, so state passing is exact
        except under [Promise.race], whose treatment is described at
        [apiRequestWithTimeout].
      - Time is counted in milliseconds; every action of the model
        settles (an action that never settles is not represented).
      - Output to the console is not modelled. *)

From Stdlib Require Import ZArith NArith List String Ascii Bool Arith Lia.
From Stdlib Require Import Numbers.DecimalString.
Import ListNotations.

Set Warnings "-register-all".

Open Scope string_scope.
Open Scope list_scope.

(* ================================================================== *)
(** * JavaScript values                                                 *)
(* ================================================================== *)

Inductive JsVal : Type :=
| JUndefined
| JNull
| JBool (b : bool)
| JNum (n : Z)
| JStr (s : string)
| JArr (items : list JsVal)
| JObj (props : list (string * JsVal)).

(** [ToBoolean]: the values for which [if (v)] takes the else branch are
    undefined, null, false, 0 and the empty string. *)
Definition truthy (v : JsVal) : bool :=
  match v with
  | JUndefined | JNull => false
  | JBool b => b
  | JNum n => negb (n =? 0)%Z
  | JStr s => negb (s =? EmptyString)
  | JArr _ | JObj _ => true
  end.

Definition nullish (v : JsVal) : bool :=
  match v with
  | JUndefined | JNull => true
  | _ => false
  end.

(** [v === null] *)
Definition is_null (v : JsVal) : bool :=
  match v with
  | JNull => true
  | _ => false
  end.

Definition string_of_Z (n : Z) : string :=
  NilZero.string_of_int (Z.to_int n).

(** [ToString], as applied by template literals and by [RegExp.test].
    An integer is written in decimal; an array is joined with commas,
    undefined and null elements giving the empty string; a plain object
    gives "[object Object]".  This is the conversion of JavaScript on the
    [printable] values below.  Outside of them it is not: a number beyond
    2^53 prints rounded, or with an exponent from 10^21 on, and an object
    that has a property [toString] of its own (which in a decoded JSON
    body is never a function) makes the conversion throw a [TypeError].
    Statements about the message or the class of a failure on a path that
    converts a value are therefore made for [printable] values. *)
Fixpoint ToString (v : JsVal) : string :=
  match v with
  | JUndefined => "undefined"
  | JNull => "null"
  | JBool true => "true"
  | JBool false => "false"
  | JNum n => string_of_Z n
  | JStr s => s
  | JArr items =>
      String.concat ","
        (map (fun e => match e with
                       | JUndefined | JNull => EmptyString
                       | _ => ToString e
                       end) items)
  | JObj _ => "[object Object]"
  end.

(** The primitive values that [ToString] converts as JavaScript does:
    [undefined], [null], the booleans, the strings, and the integers that a
    number holds exactly (up to 2^53 in absolute value). *)
Definition printable (v : JsVal) : bool :=
  match v with
  | JUndefined | JNull | JBool _ | JStr _ => true
  | JNum n => (Z.abs n <=? 9007199254740992)%Z
  | JArr _ | JObj _ => false
  end.

Fixpoint lookup (key : string) (props : list (string * JsVal)) : JsVal :=
  match props with
  | [] => JUndefined
  | (k, v) :: rest => if (key =? k) then v else lookup key rest
  end.

(** Property read [v.key] on a receiver that is neither undefined nor null
    (every use below is guarded, or goes through [getPropChecked]).  Only
    the own properties of objects and the [length] of arrays and strings are
    read by the sources. *)
Definition getProp (v : JsVal) (key : string) : JsVal :=
  match v with
  | JObj props => lookup key props
  | JArr items =>
      if (key =? "length") then JNum (Z.of_nat (List.length items))
      else JUndefined
  | JStr s =>
      if (key =? "length") then JNum (Z.of_nat (String.length s))
      else JUndefined
  | _ => JUndefined
  end.

(** Indexed read [v[i]]. *)
Definition getIndex (v : JsVal) (i : nat) : JsVal :=
  match v with
  | JArr items => nth i items JUndefined
  | JStr s =>
      match String.get i s with
      | Some c => JStr (String c EmptyString)
      | None => JUndefined
      end
  | JObj props => lookup (string_of_Z (Z.of_nat i)) props
  | _ => JUndefined
  end.

(* ================================================================== *)
(** * Errors (utils/api-errors.ts) and thrown values                     *)
(* ================================================================== *)

(** The classes of error objects that occur: the built-in [Error] and
    [TypeError], and the four subclasses of [Error] of api-errors.ts. *)
Inductive ErrorClass : Type :=
| Error
| TypeError
| RPCError
| WalletAPIError
| UserAPIError
| GenericAPIError.

Record JsError : Type := mkError {
  name : ErrorClass;
  message : string
}.

(** [throw] accepts any value; [instanceof Error] holds of the first form
    only. *)
Inductive Thrown : Type :=
| Err (e : JsError)
| NotAnError (v : JsVal).

(** The string enumeration [ErrorType]. *)
Module ErrorType.
Definition RPC : string := "RPC".
Definition WALLET_API : string := "WALLET_API".
Definition USER_API : string := "USER_API".
Definition GENERIC_API : string := "GENERIC_API".
End ErrorType.

Inductive Outcome (A : Type) : Type :=
| Ok (a : A)
| Throw (t : Thrown).

Arguments Ok {A} a.
Arguments Throw {A} t.

Definition is_ok {A} (o : Outcome A) : bool :=
  match o with
  | Ok _ => true
  | Throw _ => false
  end.

(** Sequencing of statements that may throw. *)
Definition obind {A B} (o : Outcome A) (k : A -> Outcome B) : Outcome B :=
  match o with
  | Ok a => k a
  | Throw t => Throw t
  end.

Notation "s1 ;;; s2" := (obind s1 (fun _ => s2))
  (at level 61, right associativity).

(** [handleError]: the message of the caught value when it is an [Error],
    "Unknown error" otherwise, rethrown in the class named by [errorType].
    [contextMessage] only feeds the console.  The function never returns;
    its result here is the error object it throws. *)
Definition handleError (error : Thrown) (contextMessage errorType : string)
  : JsError :=
  let errorMessage :=
    match error with
    | Err e => message e
    | NotAnError _ => "Unknown error"
    end in
  if (errorType =? "RPC") then mkError RPCError errorMessage
  else if (errorType =? "WALLET_API") then mkError WalletAPIError errorMessage
  else if (errorType =? "USER_API") then mkError UserAPIError errorMessage
  else mkError GenericAPIError errorMessage.

(** The double quote character, for messages that contain it. *)
Definition dquote : string := String (ascii_of_nat 34) EmptyString.

(** [new Error(msg)] *)
Definition new_Error (msg : string) : Thrown := Err (mkError Error msg).

(** A call [handleError(...)] in statement position. *)
Definition raise {A} (error : Thrown) (contextMessage errorType : string)
  : Outcome A :=
  Throw (Err (handleError error contextMessage errorType)).

(* ================================================================== *)
(** * The regular expressions of validateApiResponse                    *)
(* ================================================================== *)

(** The character class [[a-fA-F0-9]]. *)
Definition isHexDigit (c : ascii) : bool :=
  let n := nat_of_ascii c in
  ((97 <=? n)%nat && (n <=? 102)%nat) || ((65 <=? n)%nat && (n <=? 70)%nat)
  || ((48 <=? n)%nat && (n <=? 57)%nat).

Fixpoint allHex (s : string) : bool :=
  match s with
  | EmptyString => true
  | String c rest => isHexDigit c && allHex rest
  end.

(** [/^0x[a-fA-F0-9]+$/] on a string.  Without the [m] flag, [$] matches
    at the very end of the input only. *)
Definition matchesHex (s : string) : bool :=
  match s with
  | String "0" (String "x" digits) =>
      (1 <=? String.length digits)%nat && allHex digits
  | _ => false
  end.

(** [/^0x[a-fA-F0-9]{n}$/] on a string. *)
Definition matchesHexN (n : nat) (s : string) : bool :=
  match s with
  | String "0" (String "x" digits) =>
      (String.length digits =? n)%nat && allHex digits
  | _ => false
  end.

(** [re.test(v)] converts its argument with [ToString]. *)
Definition test (re : string -> bool) (v : JsVal) : bool := re (ToString v).

(* ================================================================== *)
(** * validateApiResponse (utils/api-utils.ts)                          *)
(* ================================================================== *)

Definition validateApiResponse (response : JsVal)
    (errorMessage errorType : string) : Outcome unit :=
  (if negb (truthy response) then
     raise (new_Error "Response is null or undefined") errorMessage errorType
   else Ok tt) ;;;
  (if truthy (getProp response "error") then
     raise (new_Error ("RPC Error: "
              ++ ToString (getProp (getProp response "error") "message")))
           errorMessage errorType
   else Ok tt) ;;;
  (if truthy (getProp response "number") && truthy (getProp response "hash")
   then
     (if negb (test matchesHex (getProp response "number")) then
        raise (new_Error "Invalid block number format") errorMessage errorType
      else Ok tt) ;;;
     (if negb (test (matchesHexN 64) (getProp response "hash")) then
        raise (new_Error "Invalid block hash format") errorMessage errorType
      else Ok tt)
   else Ok tt) ;;;
  (if truthy (getProp response "transactionIndex")
      && truthy (getProp response "from")
      && truthy (getProp response "to")
   then
     (if negb (test (matchesHexN 40) (getProp response "from")) then
        raise (new_Error ("Invalid " ++ dquote ++ "from" ++ dquote
                         ++ " address format"))
              errorMessage errorType
      else Ok tt) ;;;
     (if negb (is_null (getProp response "to"))
         && negb (test (matchesHexN 40) (getProp response "to")) then
        raise (new_Error ("Invalid " ++ dquote ++ "to" ++ dquote
                         ++ " address format"))
              errorMessage errorType
      else Ok tt) ;;;
     (if negb (test matchesHex (getProp response "transactionIndex")) then
        raise (new_Error "Invalid transaction index format")
              errorMessage errorType
      else Ok tt)
   else Ok tt) ;;;
  (if negb (truthy (getProp response "number"))
      && negb (truthy (getProp response "hash"))
      && negb (truthy (getProp response "transactionIndex"))
   then
     raise (new_Error "Block or transaction response are invalid")
           errorMessage errorType
   else Ok tt).


(** The block rule (rule 3) lets [response] through. *)
Definition blockRulePasses (response : JsVal) : bool :=
  negb (truthy (getProp response "number")
        && truthy (getProp response "hash"))
  || (test matchesHex (getProp response "number")
      && test (matchesHexN 64) (getProp response "hash")).

(* ================================================================== *)
(** * Asynchronous computations                                         *)
(* ================================================================== *)

(** An [async] function body, run from a world [W]. *)
Definition Async (W A : Type) : Type := W -> Outcome A * W.

Definition ret {W A} (a : A) : Async W A := fun w => (Ok a, w).

Definition throw {W A} (t : Thrown) : Async W A := fun w => (Throw t, w).

(** A synchronous statement inside an [async] body. *)
Definition lift {W A} (o : Outcome A) : Async W A := fun w => (o, w).

(** [const x = await m; k x] *)
Definition bind {W A B} (m : Async W A) (k : A -> Async W B) : Async W B :=
  fun w =>
    match m w with
    | (Ok a, w') => k a w'
    | (Throw t, w') => (Throw t, w')
    end.

Notation "'let*' x ':=' m 'in' k" := (bind m (fun x => k))
  (at level 10, x name, m at level 100, k at level 200).

(** [try { return await m; } catch (error) { handler error }] *)
Definition try_catch {W A} (m : Async W A) (handler : Thrown -> Async W A)
  : Async W A :=
  fun w =>
    match m w with
    | (Ok a, w') => (Ok a, w')
    | (Throw t, w') => handler t w'
    end.

(** Worlds that carry a clock, in milliseconds. *)
Class Clock (W : Type) : Type := {
  clock : W -> N;
  set_clock : N -> W -> W
}.

(** [await new Promise(resolve => setTimeout(resolve, ms))] *)
Definition sleep {W} `{Clock W} (ms : N) : Async W unit :=
  fun w => (Ok tt, set_clock (clock w + ms)%N w).

(* ================================================================== *)
(** * apiRequestWithTimeout and retryApiRequest (utils/api-utils.ts)    *)
(* ================================================================== *)

(** Whether an action that takes [elapsed] ms settles before a timer of
    [timeout] ms.  An action that takes no time settles without ever
    yielding to the event loop (such as [async () => x]) and so precedes
    every timer.  Otherwise the two settlements are ordered by their due
    times, and on equal due times the action comes first: in
    [Promise.race([action(), new Promise(... setTimeout ...)])] the action
    is started before the timer is set, and timers that are due together
    fire in the order in which they were set.  So the timer wins only when
    the action is strictly later than the deadline. *)
Definition settlesFirst (elapsed timeout : N) : bool :=
  (elapsed =? 0)%N || (elapsed <=? timeout)%N.

(** [Promise.race([action(), timer])].  The action is started at [clock w]
    and settles at [clock w'].  When the timer wins, the race rejects at the
    deadline with the timer's error; the action is not cancelled, so what it
    did to the world stays (recorded at once), and its own outcome is
    dropped. *)
Definition race {W A} `{Clock W} (action : Async W A) (timeout : N)
  : Async W A :=
  fun w =>
    let '(r, w') := action w in
    if settlesFirst (clock w' - clock w)%N timeout then (r, w')
    else (Throw (new_Error "API request timed out"),
          set_clock (clock w + timeout)%N w').

Definition apiRequestWithTimeout {W A} `{Clock W} (action : Async W A)
    (timeout : N) (errorMessage errorType : string) : Async W A :=
  try_catch (race action timeout)
    (fun error => throw (Err (handleError error errorMessage errorType))).

(** The [while (attempts < retries)] loop of [retryApiRequest], entered
    with the current value of [attempts].  [remaining] is the variant
    [retries - attempts] of the loop: it is what the recursion descends on,
    and when it is 0 the loop condition is false. *)
Fixpoint retry_loop {W A} (action : Async W A) (retries : nat)
    (errorMessage errorType : string) (attempts remaining : nat)
  : Async W A :=
  let afterLoop :=
    throw (Err (handleError (new_Error "All retries failed")
                            errorMessage errorType)) in
  match remaining with
  | 0 => afterLoop
  | S remaining' =>
      if (attempts <? retries)%nat then
        try_catch action
          (fun error =>
             let attempts := S attempts in
             if (retries <=? attempts)%nat then
               throw (Err (handleError error errorMessage errorType))
             else
               retry_loop action retries errorMessage errorType
                          attempts remaining')
      else afterLoop
  end.

Definition retryApiRequest {W A} (action : Async W A) (retries : nat)
    (errorMessage errorType : string) : Async W A :=
  retry_loop action retries errorMessage errorType 0 (retries - 0).

(** ** Observing the invocations of an action *)

(** The world after [i] invocations of [action] in a row from [w]. *)
Fixpoint world_after {W A} (action : Async W A) (w : W) (i : nat) : W :=
  match i with
  | 0 => w
  | S j => world_after action (snd (action w)) j
  end.

(** The outcome of invocation number [i + 1] of [action] from [w]. *)
Definition outcome_of {W A} (action : Async W A) (w : W) (i : nat)
  : Outcome A :=
  fst (action (world_after action w i)).

(** [action] with a counter of its invocations added to the world. *)
Definition counted {W A} (action : Async W A) : Async (nat * W) A :=
  fun cw =>
    let '(r, w') := action (snd cw) in
    (r, (S (fst cw), w')).

(* ================================================================== *)
(** * The node endpoint and RpcFactory (utils/rpc-factory.ts)           *)
(* ================================================================== *)

Record RpcRequest : Type := mkRequest {
  jsonrpc : string;
  method : string;
  params : list JsVal;
  id : Z
}.

(** What [axios.post] settles with: a response whose [data] is the decoded
    body, or a rejection with an [Error] (connection failure, status outside
    2xx). *)
Inductive HttpReply : Type :=
| HttpOk (data : JsVal)
| HttpFail (errorMessage : string).

(** The endpoints: the reply to the request number [k] (counting from 0
    all requests posted so far), sent to [url] with body [body], and the
    time in ms it takes to arrive. *)
Definition Network : Type := nat -> string -> RpcRequest -> N * HttpReply.

Record World : Type := mkWorld {
  now : N;
  posted : list (string * RpcRequest)
}.

#[export] Instance Clock_World : Clock World := {
  clock := now;
  set_clock t w := mkWorld t (posted w)
}.

(** [await axios.post(nodeUrl, requestBody, ...)] *)
Definition axios_post (net : Network) (nodeUrl : string)
    (requestBody : RpcRequest) : Async World JsVal :=
  fun w =>
    let '(latency, reply) := net (List.length (posted w)) nodeUrl requestBody in
    let w' :=
      mkWorld (now w + latency)%N (posted w ++ [(nodeUrl, requestBody)]) in
    match reply with
    | HttpOk data => (Ok (JObj [("data", data)]), w')
    | HttpFail msg => (Throw (new_Error msg), w')
    end.

(** Property read [v.key] on an arbitrary receiver: reading a property of
    undefined or null throws a [TypeError] (message as V8 words it). *)
Definition getPropChecked (v : JsVal) (key : string) : Outcome JsVal :=
  if nullish v then
    Throw (Err (mkError TypeError
                  ("Cannot read properties of " ++ ToString v
                   ++ " (reading '" ++ key ++ "')")))
  else Ok (getProp v key).

Module RpcFactory.

(** [createRequest]: the [catch] clause logs and rethrows the caught value
    as it is. *)
Definition createRequest (net : Network) (method : string)
    (params : list JsVal) (id : Z) (nodeUrl : string) : Async World JsVal :=
  let requestBody := mkRequest "2.0" method params id in
  try_catch
    (let* response := axios_post net nodeUrl requestBody in
     let* error := lift (getPropChecked (getProp response "data") "error") in
     if truthy error then
       throw (new_Error ("RPC Error: " ++ ToString (getProp error "message")))
     else ret (getProp response "data"))
    (fun error => throw error).

Definition callRpcMethod (net : Network) (nodeUrl method : string)
    (params : list JsVal) : Async World JsVal :=
  let* response := createRequest net method params 1 nodeUrl in
  ret (getProp response "result").

End RpcFactory.

(* ================================================================== *)
(** * RpcAPIClient (clients/rpc-api-client.ts)                          *)
(* ================================================================== *)

(** [x === 0] *)
Definition is_zero (x : JsVal) : bool :=
  match x with
  | JNum 0 => true
  | _ => false
  end.

Module RpcAPIClient.
Section Client.

(** [DEFAULT_TIMEOUT] is imported from the configuration module, which is
    not part of the sources at hand: it is a parameter. *)
Variable net : Network.
Variable DEFAULT_TIMEOUT : N.

(** The field [nodeUrl] is the whole state of a client. *)
Variable nodeUrl : string.

Definition fetchBlockNumber : Async World JsVal :=
  let* blockNumber :=
    retryApiRequest
      (apiRequestWithTimeout
         (RpcFactory.callRpcMethod net nodeUrl "eth_blockNumber" [])
         DEFAULT_TIMEOUT
         ("Failed to fetch block number for - " ++ nodeUrl)
         ErrorType.RPC)
      2
      "Failed to fetch block number after retries"
      ErrorType.RPC in
  let* _ :=
    lift (validateApiResponse (JObj [("number", blockNumber)])
            "Failed to validate block number response" ErrorType.RPC) in
  ret blockNumber.

Definition fetchBlockDetails (blockNumber : JsVal) : Async World JsVal :=
  let* blockDetails :=
    retryApiRequest
      (apiRequestWithTimeout
         (RpcFactory.callRpcMethod net nodeUrl "eth_getBlockByNumber"
            [blockNumber; JBool false])
         DEFAULT_TIMEOUT
         ("Failed to fetch block details for block number - "
          ++ ToString blockNumber)
         ErrorType.RPC)
      2
      ("Failed to fetch block details for block number - "
       ++ ToString blockNumber ++ " after retries")
      ErrorType.RPC in
  let* _ :=
    lift (validateApiResponse blockDetails
            "Failed to validate block details response" ErrorType.RPC) in
  ret blockDetails.

(** The guard of [fetchTransactionHash]. *)
Definition noTransactions (blockDetails : JsVal) : bool :=
  negb (truthy blockDetails)
  || negb (truthy (getProp blockDetails "transactions"))
  || is_zero (getProp (getProp blockDetails "transactions") "length").

Definition fetchTransactionHash (blockDetails : JsVal)
  : Async World JsVal :=
  if noTransactions blockDetails then
    throw (new_Error "Block details or transactions are not available")
  else
    let* transactionHash :=
      retryApiRequest
        (apiRequestWithTimeout
           (ret (getIndex (getProp blockDetails "transactions") 0))
           DEFAULT_TIMEOUT
           "Failed to fetch transaction hash"
           ErrorType.RPC)
        2
        "Failed to fetch transaction hash after retries"
        ErrorType.RPC in
    let* _ :=
      lift (validateApiResponse (JObj [("hash", transactionHash)])
              "Failed to validate transaction hash" ErrorType.RPC) in
    ret transactionHash.

Definition fetchTransactionDetails (transactionHash : JsVal)
  : Async World JsVal :=
  let* transactionDetails :=
    retryApiRequest
      (apiRequestWithTimeout
         (RpcFactory.callRpcMethod net nodeUrl "eth_getTransactionByHash"
            [transactionHash])
         DEFAULT_TIMEOUT
         ("Failed to fetch transaction details for transaction hash - "
          ++ ToString transactionHash)
         ErrorType.RPC)
      2
      ("Failed to fetch transaction details for transaction hash after retries "
       ++ ToString transactionHash)
      ErrorType.RPC in
  let* _ :=
    lift (validateApiResponse transactionDetails
            "Failed to validate transaction details response"
            ErrorType.RPC) in
  ret transactionDetails.

End Client.
End RpcAPIClient.

(* ================================================================== *)
(** * RpcTestScenarioBuilder (builders/rpc-test-scenario-builder.ts)    *)
(* ================================================================== *)

Module RpcTestScenarioBuilder.

(** The fields of a builder; [apiClient] is a client, that is, its node
    URL.  The three others start as [null]. *)
Record t : Type := mk {
  apiClient : string;
  blockNumber : JsVal;
  blockDetails : JsVal;
  transactionHash : JsVal
}.

Definition new (nodeUrl : string) : t := mk nodeUrl JNull JNull JNull.

Definition MAX_RETRIES : nat := 3.
Definition RETRY_DELAY : N := 2000.

(** The condition of the polling loop,
    [!this.blockDetails || !this.blockDetails.transactions.length]. *)
Definition stillWaiting (this : t) : Outcome bool :=
  if negb (truthy (blockDetails this)) then Ok true
  else
    obind (getPropChecked (getProp (blockDetails this) "transactions")
                          "length")
          (fun len => Ok (negb (truthy len))).

(** The polling loop of [fetchTransactionHash], entered with the current
    value of [retries].  [remaining] is the variant [MAX_RETRIES - retries];
    when it is 0, [retries >= MAX_RETRIES] holds.  No statement of the loop
    assigns a field of [this] or calls the client, and the fields are
    private to the builder, whose calls the scenario awaits one after the
    other: [this] is the same at every evaluation of the condition. *)
Fixpoint poll_loop (this : t) (retries remaining : nat) : Async World unit :=
  let giveUp :=
    throw (new_Error
      "Block details or transactions are not available after maximum retries")
  in
  let* waiting := lift (stillWaiting this) in
  if (waiting : bool) then
    match remaining with
    | 0 => giveUp
    | S remaining' =>
        if (MAX_RETRIES <=? retries)%nat then giveUp
        else
          let* _ := sleep RETRY_DELAY in
          poll_loop this (S retries) remaining'
    end
  else ret tt.

Section Builder.

Variable net : Network.
Variable DEFAULT_TIMEOUT : N.

Definition fetchBlockNumber (this : t) : Async World t :=
  let* result :=
    RpcAPIClient.fetchBlockNumber net DEFAULT_TIMEOUT (apiClient this) in
  ret (mk (apiClient this) result (blockDetails this)
          (transactionHash this)).

Definition fetchBlockDetails (this : t) : Async World t :=
  if negb (truthy (blockNumber this)) then
    throw (new_Error "Block number is not available")
  else
    let* result :=
      RpcAPIClient.fetchBlockDetails net DEFAULT_TIMEOUT (apiClient this)
        (blockNumber this) in
    ret (mk (apiClient this) (blockNumber this) result
            (transactionHash this)).

Definition fetchTransactionHash (this : t) : Async World t :=
  let* _ := poll_loop this 0 (MAX_RETRIES - 0) in
  let* result :=
    RpcAPIClient.fetchTransactionHash DEFAULT_TIMEOUT (blockDetails this) in
  ret (mk (apiClient this) (blockNumber this) (blockDetails this) result).

Definition fetchTransactionDetails (this : t) : Async World JsVal :=
  if negb (truthy (transactionHash this)) then
    throw (new_Error "Transaction hash is not available")
  else
    RpcAPIClient.fetchTransactionDetails net DEFAULT_TIMEOUT
      (apiClient this) (transactionHash this).

End Builder.
End RpcTestScenarioBuilder.

(* ================================================================== *)
(** * The two orders of composing the executors                         *)
(* ================================================================== *)

(** The retry executor applied around the timeout executor: every attempt
    is a race of its own. *)
Definition retryAroundTimeout {A} (action : Async World A) (timeout : N)
    (attemptMessage retryMessage : string) : Async World A :=
  retryApiRequest
    (apiRequestWithTimeout action timeout attemptMessage ErrorType.RPC)
    2 retryMessage ErrorType.RPC.

(** The composition in the words of the specification,
    [TimeoutExecutor(RetryExecutor(Transport.send), retries=2)]: the timeout
    executor applied around the retry executor, one race for the whole
    loop. *)
Definition spec_timeoutAroundRetry {A} (action : Async World A) (timeout : N)
    (timeoutMessage retryMessage : string) : Async World A :=
  apiRequestWithTimeout
    (retryApiRequest action 2 retryMessage ErrorType.RPC)
    timeout timeoutMessage ErrorType.RPC.

(** [m], then the validation of [payload r] for its result [r], which is
    returned. *)
Definition thenValidate {A} (m : Async World A) (payload : A -> JsVal)
    (errorMessage : string) : Async World A :=
  let* r := m in
  let* _ := lift (validateApiResponse (payload r) errorMessage ErrorType.RPC) in
  ret r.

(** [fetchBlockNumber] as the specification composes it. *)
Definition spec_fetchBlockNumber (net : Network) (DEFAULT_TIMEOUT : N)
    (nodeUrl : string) : Async World JsVal :=
  thenValidate
    (spec_timeoutAroundRetry
       (RpcFactory.callRpcMethod net nodeUrl "eth_blockNumber" [])
       DEFAULT_TIMEOUT
       ("Failed to fetch block number for - " ++ nodeUrl)
       "Failed to fetch block number after retries")
    (fun blockNumber => JObj [("number", blockNumber)])
    "Failed to validate block number response".

(** [w'] is [w] later on, with at most [requests] more requests posted. *)
Definition advances (w w' : World) (requests : nat) : Prop :=
  (now w <= now w')%N
  /\ exists sent, posted w' = posted w ++ sent
                  /\ List.length sent <= requests.

(** [w'] is [w] at most [budget] ms later, with at most [requests] more
    requests posted. *)
Definition within (w w' : World) (budget : N) (requests : nat) : Prop :=
  advances w w' requests /\ (now w' <= now w + budget)%N.

(* ================================================================== *)
(** * Inputs used by the examples                                       *)
(* ================================================================== *)

Definition hash64 : string :=
  "0xaaaaaaaaaaaaaaaaaaaaaaaaaaaaaaaaaaaaaaaaaaaaaaaaaaaaaaaaaaaaaaaa".

Definition addr40 : string := "0x00000000000000000000000000000000000000a1".

(** {number: number, hash: hash} *)
Definition blockPayload (number hash : JsVal) : JsVal :=
  JObj [("number", number); ("hash", hash)].

(** {transactionIndex, from, to} *)
Definition txPayload (transactionIndex from to : JsVal) : JsVal :=
  JObj [("transactionIndex", transactionIndex); ("from", from); ("to", to)].


(** A mock action over the world of its own call count: its first [k]
    invocations fail, each with its own message, the later ones return
    [v]. *)
Definition failingFirst (k : nat) (v : JsVal) : Async nat JsVal :=
  fun calls =>
    (if (calls <? k)%nat then
       Throw (new_Error ("attempt " ++ string_of_Z (Z.of_nat (S calls))
                         ++ " failed"))
     else Ok v,
     S calls).

Definition w0 : World := mkWorld 0 [].

(** An action that rejects at once with [new Error("boom")]. *)
Definition boom : Async World JsVal := throw (new_Error "boom").

(** An action that rejects at once with a value that is not an [Error]. *)
Definition boomString : Async World JsVal := throw (NotAnError (JStr "boom")).

(** A success response carrying [result]. *)
Definition successBody (result : JsVal) : JsVal :=
  JObj [("jsonrpc", JStr "2.0"); ("id", JNum 1); ("result", result)].

(** An error response. *)
Definition errorBody (code : Z) (msg : string) : JsVal :=
  JObj [("jsonrpc", JStr "2.0"); ("id", JNum 1);
        ("error", JObj [("code", JNum code); ("message", JStr msg)])].

(** An endpoint that answers every request after [latency] ms with
    [body]. *)
Definition always (latency : N) (body : JsVal) : Network :=
  fun _ _ _ => (latency, HttpOk body).

(** A block whose transactions have not arrived, and the same block once
    they have. *)
Definition emptyBlock : JsVal :=
  JObj [("number", JStr "0x10"); ("hash", JStr hash64);
        ("transactions", JArr [])].

Definition fullBlock : JsVal :=
  JObj [("number", JStr "0x10"); ("hash", JStr hash64);
        ("transactions", JArr [JStr hash64])].

(** A builder that has stored block number 0x10 and the block without
    transactions. *)
Definition waitingBuilder : RpcTestScenarioBuilder.t :=
  RpcTestScenarioBuilder.mk "http://node" (JStr "0x10") emptyBlock JNull.

(** The calls of the end-to-end test on a new builder, in its order. *)
Definition scenario (net : Network) (DEFAULT_TIMEOUT : N) (nodeUrl : string)
  : Async World JsVal :=
  let* b1 :=
    RpcTestScenarioBuilder.fetchBlockNumber net DEFAULT_TIMEOUT
      (RpcTestScenarioBuilder.new nodeUrl) in
  let* b2 := RpcTestScenarioBuilder.fetchBlockDetails net DEFAULT_TIMEOUT b1 in
  let* b3 := RpcTestScenarioBuilder.fetchTransactionHash DEFAULT_TIMEOUT b2 in
  RpcTestScenarioBuilder.fetchTransactionDetails net DEFAULT_TIMEOUT b3.

(** An endpoint whose block 0x10 has no transactions the first two times
    it is asked for (requests number 1 and 2, request number 0 being the one
    for the block number) and has one from the third time on. *)
Definition transactionsArriveLate : Network :=
  fun k _ request =>
    (20%N,
     HttpOk (successBody
       (if (method request =? "eth_blockNumber") then JStr "0x10"
        else if (k <? 3)%nat then emptyBlock
        else fullBlock))).

(** An endpoint whose first reply is a connection failure after 60 ms and
    whose later replies bring block number 0x10 after 60 ms. *)
Definition failsThenAnswers : Network :=
  fun k _ _ =>
    if (k =? 0)%nat then (60%N, HttpFail "connect ECONNREFUSED")
    else (60%N, HttpOk (successBody (JStr "0x10"))).

(** An endpoint whose first reply takes 150 ms and whose later replies
    take 10 ms, all bringing block number 0x10. *)
Definition slowThenFast : Network :=
  fun k _ _ =>
    if (k =? 0)%nat then (150%N, HttpOk (successBody (JStr "0x10")))
    else (10%N, HttpOk (successBody (JStr "0x10"))).

(** A transaction of block 0x10, and an endpoint that serves the block
    number, the block and the transaction, each after 20 ms. *)
Definition txDetails : JsVal :=
  JObj [("hash", JStr hash64); ("blockNumber", JStr "0x10");
        ("transactionIndex", JStr "0x0");
        ("from", JStr addr40); ("to", JStr addr40)].

Definition healthyNode : Network :=
  fun _ _ request =>
    (20%N,
     HttpOk (successBody
       (if (method request =? "eth_blockNumber") then JStr "0x10"
        else if (method request =? "eth_getBlockByNumber") then fullBlock
        else txDetails))).


(* ================================================================== *)
(** * Further notions used by the properties                            *)
(* ================================================================== *)

(** The transaction rule (rule 4) lets [response] through. *)
Definition txRulePasses (response : JsVal) : bool :=
  negb (truthy (getProp response "transactionIndex")
        && truthy (getProp response "from")
        && truthy (getProp response "to"))
  || (test (matchesHexN 40) (getProp response "from")
      && negb (negb (is_null (getProp response "to"))
               && negb (test (matchesHexN 40) (getProp response "to")))
      && test matchesHex (getProp response "transactionIndex")).

(** One of the three marker fields is truthy. *)
Definition hasMarker (response : JsVal) : bool :=
  truthy (getProp response "number")
  || truthy (getProp response "hash")
  || truthy (getProp response "transactionIndex").

(** The values that [validateApiResponse] converts to strings when it is
    given [response]: the message interpolated into "RPC Error: ..." and
    the fields handed to [RegExp.test]. *)
Definition convertedFields (response : JsVal) : list JsVal :=
  [ getProp (getProp response "error") "message";
    getProp response "number";
    getProp response "hash";
    getProp response "from";
    getProp response "to";
    getProp response "transactionIndex" ].

Definition printableFields (response : JsVal) : bool :=
  forallb printable (convertedFields response).

(** Every reply of the endpoint at [nodeUrl] carries a [result] whose
    converted fields are printable. *)
Definition printableReplies (net : Network) (nodeUrl : string) : Prop :=
  forall (k : nat) (request : RpcRequest) (latency : N) (data : JsVal),
    net k nodeUrl request = (latency, HttpOk data) ->
    printableFields (getProp data "result") = true.

(** An endpoint that takes an hour to answer anything. *)
Definition stalledNode : Network :=
  fun _ _ _ => (3600000%N, HttpOk (successBody (JStr "0x10"))).

(** A block as an endpoint may return it, without a [transactions]
    field, and a builder that has stored it. *)
Definition bareBlock : JsVal :=
  JObj [("number", JStr "0x10"); ("hash", JStr hash64)].

Definition bareBuilder : RpcTestScenarioBuilder.t :=
  RpcTestScenarioBuilder.mk "http://node" (JStr "0x10") bareBlock JNull.

(** A builder that has stored the block with its transaction. *)
Definition readyBuilder : RpcTestScenarioBuilder.t :=
  RpcTestScenarioBuilder.mk "http://node" (JStr "0x10") fullBlock JNull.

(* ================================================================== *)
(** * The browser side: errors, Playwright and utils/ui-utils.ts         *)
(* ================================================================== *)

(** The page objects and flows of the test drive a browser through
    Playwright.  They have their own error classes (utils/ui-errors.ts) and
    their own [handleError], so they are modelled in a name space of their
    own, over the same kind of state-passing computations. *)
Module Ui.

(** [Error] stands for the built-in class and for the errors of Playwright,
    which all are instances of it. *)
Inductive ErrorClass : Type :=
| Error
| LoginError
| MenuError
| NodeError.

Record JsError : Type := mkError {
  name : ErrorClass;
  message : string
}.

Inductive Thrown : Type :=
| Err (e : JsError)
| NotAnError (v : JsVal).

(** The string enumeration [ErrorType] of ui-errors.ts. *)
Module ErrorType.
Definition LOGIN : string := "LOGIN".
Definition MENU : string := "MENU".
Definition NODE : string := "NODE".
End ErrorType.

Inductive Outcome (A : Type) : Type :=
| Ok (a : A)
| Throw (t : Thrown).

Arguments Ok {A} a.
Arguments Throw {A} t.

Definition Async (W A : Type) : Type := W -> Outcome A * W.

Definition ret {W A} (a : A) : Async W A := fun w => (Ok a, w).

Definition throw {W A} (t : Thrown) : Async W A := fun w => (Throw t, w).

Definition bind {W A B} (m : Async W A) (k : A -> Async W B) : Async W B :=
  fun w =>
    match m w with
    | (Ok a, w') => k a w'
    | (Throw t, w') => (Throw t, w')
    end.

Declare Scope ui_scope.
Notation "'let*' x ':=' m 'in' k" := (bind m (fun x => k))
  (at level 10, x name, m at level 100, k at level 200) : ui_scope.
Notation "m ';;' k" := (bind m (fun _ => k))
  (at level 61, right associativity) : ui_scope.
Local Open Scope ui_scope.

Definition try_catch {W A} (m : Async W A) (handler : Thrown -> Async W A)
  : Async W A :=
  fun w =>
    match m w with
    | (Ok a, w') => (Ok a, w')
    | (Throw t, w') => handler t w'
    end.

Definition new_Error (msg : string) : Thrown := Err (mkError Error msg).

(** [handleError] of ui-utils.ts. *)
Definition handleError (error : Thrown) (contextMessage errorType : string)
  : JsError :=
  let errorMessage :=
    match error with
    | Err e => message e
    | NotAnError _ => "Unknown error"
    end in
  if (errorType =? "LOGIN") then mkError LoginError errorMessage
  else if (errorType =? "MENU") then mkError MenuError errorMessage
  else if (errorType =? "NODE") then mkError NodeError errorMessage
  else mkError Error errorMessage.

(** A call [handleError(...)] in a [catch] clause. *)
Definition rethrowAs {W A} (contextMessage errorType : string)
    (error : Thrown) : Async W A :=
  throw (Err (handleError error contextMessage errorType)).

(** ** Playwright *)

(** A locator is a description of how to find elements, resolved when an
    operation is applied to it. *)
Inductive Locator : Type :=
| locator (selector : string)
| sub (parent : Locator) (selector : string)
| first (l : Locator)
| nth (l : Locator) (index : Z).

Inductive WaitState : Type :=
| visible
| hidden.

(** The operations of Playwright that the page objects use, over a world
    [W].  [click] takes the [timeout] option when one is passed;
    [isExpanded] is the evaluation of
    [button.getAttribute('aria-expanded') === 'true'] on the element. *)
Class Browser (W : Type) : Type := {
  click : Locator -> option N -> Async W unit;
  fill : Locator -> string -> N -> Async W unit;
  selectOption : Locator -> string -> N -> Async W unit;
  waitFor : Locator -> WaitState -> N -> Async W unit;
  isVisible : Locator -> Async W bool;
  isEnabled : Locator -> Async W bool;
  count : Locator -> Async W Z;
  textContent : Locator -> Async W (option string);
  inputValue : Locator -> Async W string;
  isExpanded : Locator -> Async W bool;
  scrollIntoViewIfNeeded : Locator -> Async W unit;
  goto : string -> N -> Async W unit;
  pause : Async W unit;
  clearCookies : Async W unit;
  closePage : Async W unit
}.

(** ** utils/ui-utils.ts *)

Section UiUtils.

Context {W : Type} `{Browser W}.

Definition clickWithTimeout (l : Locator) (timeout : N)
    (errorType : string) : Async W unit :=
  try_catch (click l (Some timeout))
    (rethrowAs "Failed to click the element" errorType).

Definition fillWithTimeout (l : Locator) (value : string) (timeout : N)
    (errorType : string) : Async W unit :=
  try_catch (fill l value timeout)
    (rethrowAs ("Failed to fill input with value: " ++ value) errorType).

Definition selectWithTimeout (l : Locator) (value : string) (timeout : N)
    (errorType : string) : Async W unit :=
  try_catch (selectOption l value timeout)
    (rethrowAs ("Failed to select option: " ++ value) errorType).

Definition waitForInvisibility (l : Locator) (timeout : N)
    (errorType : string) : Async W unit :=
  try_catch (waitFor l hidden timeout)
    (rethrowAs "Failed to wait for the element to become hidden" errorType).

Definition checkVisibilityAndEnabled (l : Locator) (wait : bool)
    (timeout : N) (errorType : string) : Async W bool :=
  try_catch
    ((if wait then waitFor l visible timeout else ret tt) ;;
     let* visibleNow := isVisible l in
     if negb visibleNow then ret false
     else
       let* enabledNow := isEnabled l in
       if negb enabledNow then ret false
       else ret (visibleNow && enabledNow))
    (rethrowAs
       "Failed to check or wait for the element to become visible and enabled"
       errorType).

End UiUtils.

(** ** The interfaces (interfaces/) *)

(** [isLoggedIn] is declared without a parameter, but implemented and
    called with [waitFor]. *)
Record ILoginPage (W : Type) : Type := {
  navigate : Async W unit;
  acceptCookies : Async W unit;
  fillEmail : string -> Async W unit;
  fillPassword : string -> Async W unit;
  clickSubmitButton : Async W unit;
  isCaptchaPresent : Async W bool;
  pauseForCaptcha : Async W unit;
  isLoggedIn : bool -> Async W bool
}.

Record IMainMenu (W : Type) : Type := {
  goToHome : Async W unit;
  goToNodes : Async W unit;
  getHomeButtonLocator : Locator
}.

(** An optional parameter is [None] when the argument is left out or
    [undefined]. *)
Record INodePage (W : Type) : Type := {
  getGeneralAccordionButtonLocator : Locator;
  clickCreateNewNodeButton : Async W unit;
  selectProtocol : string -> Async W unit;
  selectNetwork : string -> Async W unit;
  clickFinalSubmitButton : Async W unit;
  waitForLoadingToComplete : Async W unit;
  verifyNodeLoaded : string -> Async W unit;
  clickCopyButton : Z -> Async W unit;
  getCopiedUrl : Z -> Async W string;
  openAccordion : option string -> option Z -> Async W unit;
  isAccordionOpen : string -> Async W bool;
  clickDeleteNodeButton : option string -> option Z -> Async W unit;
  confirmDeleteNodeOperationButton :
    option string -> option Z -> Async W unit;
  anyNodeAvailable : Async W bool
}.

Arguments navigate {W} _.
Arguments acceptCookies {W} _.
Arguments fillEmail {W} _ _.
Arguments fillPassword {W} _ _.
Arguments clickSubmitButton {W} _.
Arguments isCaptchaPresent {W} _.
Arguments pauseForCaptcha {W} _.
Arguments isLoggedIn {W} _ _.
Arguments goToHome {W} _.
Arguments goToNodes {W} _.
Arguments getHomeButtonLocator {W} _.
Arguments getGeneralAccordionButtonLocator {W} _.
Arguments clickCreateNewNodeButton {W} _.
Arguments selectProtocol {W} _ _.
Arguments selectNetwork {W} _ _.
Arguments clickFinalSubmitButton {W} _.
Arguments waitForLoadingToComplete {W} _.
Arguments verifyNodeLoaded {W} _ _.
Arguments clickCopyButton {W} _ _.
Arguments getCopiedUrl {W} _ _.
Arguments openAccordion {W} _ _ _.
Arguments isAccordionOpen {W} _ _.
Arguments clickDeleteNodeButton {W} _ _ _.
Arguments confirmDeleteNodeOperationButton {W} _ _ _.
Arguments anyNodeAvailable {W} _.

(** [s] between double quotes, for selectors. *)
Definition quoted (s : string) : string := dquote ++ s ++ dquote.

(** The test [if (protocol)] on an optional string. *)
Definition truthyString (s : option string) : bool :=
  match s with
  | Some v => negb (v =? EmptyString)
  | None => false
  end.

(** ** MainMenu (pages/main-menu.ts) *)

Module MainMenu.
Section MainMenu.

Context {W : Type} `{Browser W}.
Variable DEFAULT_TIMEOUT : N.

Definition homeButtonLocator : Locator :=
  locator ("button[title=" ++ quoted "Home" ++ "]").

Definition nodesButtonLocator : Locator :=
  locator ("button[title=" ++ quoted "Nodes" ++ "]").

Definition getHomeButtonLocator : Locator := homeButtonLocator.

Definition goToHome : Async W unit :=
  try_catch
    (checkVisibilityAndEnabled homeButtonLocator true DEFAULT_TIMEOUT
       ErrorType.MENU ;;
     clickWithTimeout homeButtonLocator DEFAULT_TIMEOUT ErrorType.MENU)
    (rethrowAs "Unknown error during navigation to home" ErrorType.MENU).

Definition goToNodes : Async W unit :=
  try_catch
    (checkVisibilityAndEnabled nodesButtonLocator true DEFAULT_TIMEOUT
       ErrorType.MENU ;;
     clickWithTimeout nodesButtonLocator DEFAULT_TIMEOUT ErrorType.MENU)
    (rethrowAs "Unknown error during navigation to node" ErrorType.MENU).

(** [class MainMenu implements IMainMenu] *)
Definition implementation : IMainMenu W := {|
  Ui.goToHome := goToHome;
  Ui.goToNodes := goToNodes;
  Ui.getHomeButtonLocator := getHomeButtonLocator
|}.

End MainMenu.
End MainMenu.

(** ** LoginPage (pages/login-page.ts) *)

Module LoginPage.
Section LoginPage.

Context {W : Type} `{Browser W}.

(** [LOGIN_URL] and [DEFAULT_TIMEOUT] come from the configuration module,
    which is not among the sources: they are parameters.  The [mainMenu] of
    a login page is the [MainMenu] of the same browser page. *)
Variable LOGIN_URL : string.
Variable DEFAULT_TIMEOUT : N.

Definition emailInputLocator : Locator :=
  locator "div.sc-jmnVvD input#admin-login-email".

Definition passwordInputLocator : Locator :=
  locator "div.sc-jmnVvD input#admin-login-password".

Definition submitButtonLocator : Locator :=
  locator ("div#login-form-footer button[data-testid="
           ++ quoted "test-button" ++ "]").

Definition acceptCookiesButtonLocator : Locator :=
  locator ("div#cookiescript_accept[role=" ++ quoted "button" ++ "]").

Definition captchaLocator : Locator :=
  locator ("iframe[title=" ++ quoted "reCAPTCHA" ++ "]").

Definition navigate : Async W unit :=
  try_catch (goto LOGIN_URL DEFAULT_TIMEOUT)
    (rethrowAs "Unknown error during navigation" ErrorType.LOGIN).

Definition acceptCookies : Async W unit :=
  try_catch
    (checkVisibilityAndEnabled acceptCookiesButtonLocator true
       DEFAULT_TIMEOUT ErrorType.LOGIN ;;
     clickWithTimeout acceptCookiesButtonLocator DEFAULT_TIMEOUT
       ErrorType.LOGIN)
    (rethrowAs "Unknown error during cookie acceptance" ErrorType.LOGIN).

Definition fillEmail (email : string) : Async W unit :=
  try_catch
    (checkVisibilityAndEnabled emailInputLocator true DEFAULT_TIMEOUT
       ErrorType.LOGIN ;;
     fillWithTimeout emailInputLocator email DEFAULT_TIMEOUT ErrorType.LOGIN)
    (rethrowAs "Unknown error during email fill" ErrorType.LOGIN).

Definition fillPassword (password : string) : Async W unit :=
  try_catch
    (checkVisibilityAndEnabled passwordInputLocator true DEFAULT_TIMEOUT
       ErrorType.LOGIN ;;
     fillWithTimeout passwordInputLocator password DEFAULT_TIMEOUT
       ErrorType.LOGIN)
    (rethrowAs "Unknown error during password fill" ErrorType.LOGIN).

Definition clickSubmitButton : Async W unit :=
  try_catch
    (checkVisibilityAndEnabled submitButtonLocator true DEFAULT_TIMEOUT
       ErrorType.LOGIN ;;
     clickWithTimeout submitButtonLocator DEFAULT_TIMEOUT ErrorType.LOGIN)
    (rethrowAs "Unknown error during submit button click" ErrorType.LOGIN).

Definition pauseForCaptcha : Async W unit :=
  try_catch pause
    (rethrowAs "Unknown error during captcha pause" ErrorType.LOGIN).

Definition isCaptchaPresent : Async W bool :=
  try_catch
    (let* iframeCount := count captchaLocator in
     if (0 <? iframeCount)%Z then ret true else ret false)
    (rethrowAs "Unknown error during CAPTCHA detection" ErrorType.LOGIN).

(** The [catch] clause of [isLoggedIn] logs and returns [false]. *)
Definition isLoggedIn (wait : bool) : Async W bool :=
  try_catch
    (checkVisibilityAndEnabled MainMenu.homeButtonLocator wait
       DEFAULT_TIMEOUT ErrorType.LOGIN)
    (fun _ => ret false).

(** [class LoginPage implements ILoginPage] *)
Definition implementation : ILoginPage W := {|
  Ui.navigate := navigate;
  Ui.acceptCookies := acceptCookies;
  Ui.fillEmail := fillEmail;
  Ui.fillPassword := fillPassword;
  Ui.clickSubmitButton := clickSubmitButton;
  Ui.isCaptchaPresent := isCaptchaPresent;
  Ui.pauseForCaptcha := pauseForCaptcha;
  Ui.isLoggedIn := isLoggedIn
|}.

End LoginPage.
End LoginPage.

(** ** NodePage (pages/node-page.ts) *)

Record NodeUrls : Type := mkUrls {
  site1 : string;
  site2 : string
}.

Module NodePage.
Section NodePage.

Context {W : Type} `{Browser W}.
Variable DEFAULT_TIMEOUT : N.

Definition testid (tag value : string) : string :=
  tag ++ "[data-testid=" ++ quoted value ++ "]".

Definition createNewNodeButtonLocator : Locator :=
  locator (testid "button" "mui-button-primary").

Definition protocolDropdownLocator : Locator :=
  locator (testid "select" "test-CardCountrySelect").

Definition networkDropdownLocator : Locator :=
  locator (testid "select" "mui-select").

Definition finalSubmitButtonLocator : Locator :=
  locator (testid "div" "mui-modal" ++ " "
           ++ testid "button" "mui-button-primary"
           ++ ":has-text(" ++ quoted "Create Node" ++ ")").

Definition copyButtonLocator : Locator :=
  locator (testid "button" "mui-button").

Definition urlInputFieldLocator : Locator :=
  locator (testid "input" "mui-input" ++ "[readonly]").

Definition loadingSpinnerLocator : Locator := locator "div.loading-spinner".

Definition deleteNodeButtonLocator : Locator :=
  locator (testid "button" "mui-button-outline"
           ++ " svg[data-icon=" ++ quoted "trash" ++ "]").

Definition confirmDeleteNodeOperationButtonLocator : Locator :=
  locator (testid "button" "mui-button-destructive").

Definition deleteModalLocator : Locator := locator "div.mui-modal".

Definition generalAccordionButtonLocator : Locator :=
  locator ("button[aria-controls=" ++ quoted "control-string"
           ++ "][data-style=" ++ quoted "accordion-button" ++ "]").

Definition getGeneralAccordionButtonLocator : Locator :=
  generalAccordionButtonLocator.

(** The title of the accordion of [protocol]. *)
Definition accordionTitle (protocol : string) : Locator :=
  locator ("button[aria-controls=" ++ quoted "control-string"
           ++ "] span._title_1xepc_427:has-text(" ++ quoted protocol ++ ")").

(** The context message of [openAccordion] and of the two deletion
    methods, by the arguments given. *)
Definition contextOf (forProtocol atIndex general : string)
    (protocol : option string) (index : option Z) : string :=
  match protocol with
  | Some p =>
      if negb (p =? EmptyString) then forProtocol ++ p
      else match index with
           | Some i => atIndex ++ string_of_Z i
           | None => general
           end
  | None =>
      match index with
      | Some i => atIndex ++ string_of_Z i
      | None => general
      end
  end.

Definition openAccordion (protocol : option string) (index : option Z)
  : Async W unit :=
  try_catch
    (let accordionButton :=
       if truthyString protocol then
         first (accordionTitle
                  (match protocol with Some p => p | None => EmptyString end))
       else
         match index with
         | Some i => nth generalAccordionButtonLocator i
         | None => first generalAccordionButtonLocator
         end in
     let* expanded := isExpanded accordionButton in
     if negb expanded then
       scrollIntoViewIfNeeded accordionButton ;;
       click accordionButton None
     else ret tt)
    (rethrowAs
       (contextOf "Error opening accordion for "
          "Error opening accordion at index "
          "Error opening the general accordion" protocol index)
       ErrorType.NODE).

Definition isAccordionOpen (protocol : string) : Async W bool :=
  try_catch
    (isExpanded (first (accordionTitle protocol)))
    (rethrowAs ("Error checking accordion state for " ++ protocol)
       ErrorType.NODE).

Definition clickDeleteNodeButton (protocol : option string)
    (index : option Z) : Async W unit :=
  try_catch
    (let deleteButtonLocator :=
       if truthyString protocol then deleteNodeButtonLocator
       else
         match index with
         | Some i => nth deleteNodeButtonLocator i
         | None => deleteNodeButtonLocator
         end in
     checkVisibilityAndEnabled deleteButtonLocator true DEFAULT_TIMEOUT
       ErrorType.NODE ;;
     click deleteButtonLocator None)
    (rethrowAs
       (contextOf "Error clicking Delete Node button for "
          "Error clicking Delete Node button at index "
          "Error clicking general Delete Node button" protocol index)
       ErrorType.NODE).

Definition confirmDeleteNodeOperationButton (protocol : option string)
    (index : option Z) : Async W unit :=
  try_catch
    (let confirmDeleteButtonLocator :=
       if truthyString protocol then
         sub (accordionTitle
                (match protocol with Some p => p | None => EmptyString end))
             (testid "button" "mui-button-destructive")
       else
         match index with
         | Some i => nth confirmDeleteNodeOperationButtonLocator i
         | None => confirmDeleteNodeOperationButtonLocator
         end in
     checkVisibilityAndEnabled deleteModalLocator true DEFAULT_TIMEOUT
       ErrorType.NODE ;;
     checkVisibilityAndEnabled confirmDeleteButtonLocator true
       DEFAULT_TIMEOUT ErrorType.NODE ;;
     clickWithTimeout confirmDeleteButtonLocator DEFAULT_TIMEOUT
       ErrorType.NODE ;;
     waitForInvisibility deleteModalLocator DEFAULT_TIMEOUT ErrorType.NODE)
    (rethrowAs
       (contextOf "Error clicking Confirm Delete Node button for "
          "Error clicking Confirm Delete Node button at index "
          "Error clicking general Confirm Delete Node button" protocol index)
       ErrorType.NODE).

Definition clickCreateNewNodeButton : Async W unit :=
  try_catch
    (checkVisibilityAndEnabled createNewNodeButtonLocator true
       DEFAULT_TIMEOUT ErrorType.NODE ;;
     clickWithTimeout createNewNodeButtonLocator DEFAULT_TIMEOUT
       ErrorType.NODE)
    (rethrowAs "Error clicking Create New Node button" ErrorType.NODE).

Definition selectProtocol (protocol : string) : Async W unit :=
  try_catch
    (checkVisibilityAndEnabled protocolDropdownLocator true DEFAULT_TIMEOUT
       ErrorType.NODE ;;
     selectWithTimeout protocolDropdownLocator protocol DEFAULT_TIMEOUT
       ErrorType.NODE)
    (rethrowAs ("Failed to select protocol: " ++ protocol) ErrorType.NODE).

Definition selectNetwork (network : string) : Async W unit :=
  try_catch
    (checkVisibilityAndEnabled networkDropdownLocator true DEFAULT_TIMEOUT
       ErrorType.NODE ;;
     selectWithTimeout networkDropdownLocator network DEFAULT_TIMEOUT
       ErrorType.NODE)
    (rethrowAs ("Failed to select network: " ++ network) ErrorType.NODE).

Definition clickFinalSubmitButton : Async W unit :=
  try_catch
    (checkVisibilityAndEnabled finalSubmitButtonLocator true DEFAULT_TIMEOUT
       ErrorType.NODE ;;
     clickWithTimeout finalSubmitButtonLocator DEFAULT_TIMEOUT
       ErrorType.NODE)
    (rethrowAs "Failed to click the button" ErrorType.NODE).

Definition waitForLoadingToComplete : Async W unit :=
  waitFor loadingSpinnerLocator hidden 10000.

(** [`${nodeTitleText}`] of a text that may be [null]. *)
Definition textOrNull (text : option string) : string :=
  match text with
  | Some t => t
  | None => "null"
  end.

Definition verifyNodeLoaded (protocol : string) : Async W unit :=
  let nodeTitle :=
    locator ("button[aria-controls=" ++ quoted "control-string"
             ++ "] span#control-string:has-text(" ++ quoted protocol ++ ")")
  in
  checkVisibilityAndEnabled nodeTitle true DEFAULT_TIMEOUT ErrorType.NODE ;;
  let* nodeTitleText := textContent nodeTitle in
  if match nodeTitleText with
     | Some t => negb (t =? protocol)
     | None => true
     end
  then
    throw (new_Error ("Node with protocol " ++ protocol
                      ++ " not found. Actual text: "
                      ++ textOrNull nodeTitleText))
  else ret tt.

Definition clickCopyButton (index : Z) : Async W unit :=
  checkVisibilityAndEnabled (nth copyButtonLocator index) true
    DEFAULT_TIMEOUT ErrorType.NODE ;;
  click (nth copyButtonLocator index) None.

Definition getCopiedUrl (index : Z) : Async W string :=
  let* copiedUrl := inputValue (nth urlInputFieldLocator index) in
  ret copiedUrl.

Definition copyNodeUrls : Async W NodeUrls :=
  clickCopyButton 0 ;;
  let* site1Url := getCopiedUrl 0 in
  clickCopyButton 1 ;;
  let* site2Url := getCopiedUrl 1 in
  ret (mkUrls site1Url site2Url).

(** The [for (let i = 0; i < accordionCount; i++)] loop of
    [anyNodeAvailable], entered with the current value of [i];
    [remaining] is the variant [accordionCount - i]. *)
Fixpoint availability_loop (accordionCount i : Z) (remaining : nat)
  : Async W bool :=
  match remaining with
  | 0 => ret false
  | S remaining' =>
      if (i <? accordionCount)%Z then
        let* isAccordionVisibleAndEnabled :=
          checkVisibilityAndEnabled (nth generalAccordionButtonLocator i)
            false DEFAULT_TIMEOUT ErrorType.NODE in
        if (isAccordionVisibleAndEnabled : bool) then ret true
        else availability_loop accordionCount (i + 1) remaining'
      else ret false
  end.

Definition anyNodeAvailable : Async W bool :=
  try_catch
    (let* accordionCount := count generalAccordionButtonLocator in
     if (accordionCount =? 0)%Z then ret false
     else availability_loop accordionCount 0 (Z.to_nat (accordionCount - 0)))
    (rethrowAs "Error checking if accordion sections are available"
       ErrorType.NODE).

(** [class NodePage implements INodePage] *)
Definition implementation : INodePage W := {|
  Ui.getGeneralAccordionButtonLocator := getGeneralAccordionButtonLocator;
  Ui.clickCreateNewNodeButton := clickCreateNewNodeButton;
  Ui.selectProtocol := selectProtocol;
  Ui.selectNetwork := selectNetwork;
  Ui.clickFinalSubmitButton := clickFinalSubmitButton;
  Ui.waitForLoadingToComplete := waitForLoadingToComplete;
  Ui.verifyNodeLoaded := verifyNodeLoaded;
  Ui.clickCopyButton := clickCopyButton;
  Ui.getCopiedUrl := getCopiedUrl;
  Ui.openAccordion := openAccordion;
  Ui.isAccordionOpen := isAccordionOpen;
  Ui.clickDeleteNodeButton := clickDeleteNodeButton;
  Ui.confirmDeleteNodeOperationButton := confirmDeleteNodeOperationButton;
  Ui.anyNodeAvailable := anyNodeAvailable
|}.

End NodePage.
End NodePage.

(** ** LoginFlow (flows/login-flow.ts) *)

Module LoginFlow.
Section LoginFlow.

Context {W : Type}.
Variable loginPage : ILoginPage W.

Definition performLogin (email password : string) : Async W unit :=
  if (email =? EmptyString) || (password =? EmptyString) then
    throw (new_Error "Email or password is empty")
  else
    navigate loginPage ;;
    acceptCookies loginPage ;;
    fillEmail loginPage email ;;
    fillPassword loginPage password ;;
    clickSubmitButton loginPage ;;
    let* loggedIn := isLoggedIn loginPage false in
    let* loggedIn :=
      if negb loggedIn then
        let* isCaptchaVisible := isCaptchaPresent loginPage in
        if (isCaptchaVisible : bool) then
          pauseForCaptcha loginPage ;;
          let* loggedIn := isLoggedIn loginPage false in
          if negb loggedIn then
            clickSubmitButton loginPage ;;
            let* loggedIn := isLoggedIn loginPage true in
            if negb loggedIn then
              throw (new_Error
                       "Login failed after CAPTCHA resolution and retry.")
            else ret loggedIn
          else ret loggedIn
        else ret loggedIn
      else ret loggedIn in
    if (loggedIn : bool) then ret tt
    else
      throw (new_Error
        "Login failed after CAPTCHA. Browser will remain open for debugging.").

End LoginFlow.
End LoginFlow.

(** ** NodeFlow (flows/node-flow.ts) *)

Module NodeFlow.

(** The state of a [NodeFlow]: the field [nodeUrl], [null] at first. *)
Record t : Type := mk {
  nodeUrl : option string
}.

Definition new : t := mk None.

Section NodeFlow.

Context {W : Type} `{Browser W}.
Variable nodePage : INodePage W.

(** The [catch] clauses of the flow log and rethrow what they caught. *)
Definition createNode (protocol network : string) : Async W unit :=
  try_catch
    (clickCreateNewNodeButton nodePage ;;
     selectProtocol nodePage protocol ;;
     selectNetwork nodePage network ;;
     waitForLoadingToComplete nodePage ;;
     clickFinalSubmitButton nodePage)
    (fun error => throw error).

(** [copyNodeUrls] returns the URLs and leaves the flow in a new state. *)
Definition copyNodeUrls (this : t) (protocol : string)
  : Async W (NodeUrls * t) :=
  try_catch
    (if truthyString (nodeUrl this) then
       let url := match nodeUrl this with
                  | Some u => u
                  | None => EmptyString
                  end in
       ret (mkUrls url url, this)
     else
       let* isOpen := isAccordionOpen nodePage protocol in
       (if negb isOpen then openAccordion nodePage (Some protocol) None
        else ret tt) ;;
       verifyNodeLoaded nodePage protocol ;;
       waitForLoadingToComplete nodePage ;;
       clickCopyButton nodePage 0 ;;
       let* site1Url := getCopiedUrl nodePage 0 in
       clickCopyButton nodePage 1 ;;
       let* site2Url := getCopiedUrl nodePage 1 in
       ret (mkUrls site1Url site2Url, mk (Some site1Url)))
    (fun error => throw error).

Definition deleteNode (protocol : string) : Async W unit :=
  try_catch
    (openAccordion nodePage (Some protocol) None ;;
     clickDeleteNodeButton nodePage None None ;;
     confirmDeleteNodeOperationButton nodePage None None)
    (fun error => throw error).

(** The [for (let i = accordionCount - 1; i >= 0; i--)] loop of
    [ifNodesDetectedDeleteAllNodes], entered with the current value of [i];
    [remaining] is the variant [i + 1].  The [catch] clause inside the loop
    logs and goes on. *)
Fixpoint delete_loop (i : Z) (remaining : nat) : Async W unit :=
  match remaining with
  | 0 => ret tt
  | S remaining' =>
      if (0 <=? i)%Z then
        try_catch
          (openAccordion nodePage None (Some i) ;;
           clickDeleteNodeButton nodePage None (Some i) ;;
           confirmDeleteNodeOperationButton nodePage None (Some i))
          (fun _ => ret tt) ;;
        delete_loop (i - 1) remaining'
      else ret tt
  end.

Definition ifNodesDetectedDeleteAllNodes : Async W unit :=
  try_catch
    (let* nodesAvailable := anyNodeAvailable nodePage in
     if negb nodesAvailable then ret tt
     else
       let accordions := getGeneralAccordionButtonLocator nodePage in
       let* accordionCount := count accordions in
       delete_loop (accordionCount - 1)
                   (Z.to_nat (accordionCount - 1 + 1)))
    (fun error => throw error).

End NodeFlow.
End NodeFlow.

(** ** SystemFlow (flows/system-flow.ts) *)

Module SystemFlow.
Section SystemFlow.

Context {W : Type} `{Browser W}.
Variable loginPage : ILoginPage W.
Variable nodePage : INodePage W.
Variable mainMenu : IMainMenu W.

(** The flow holds a [LoginFlow], a [NodeFlow] (whose state is passed
    along) and a main menu. *)
Definition loginAndCreateNode (nodeFlow : NodeFlow.t)
    (protocol network email password : string)
  : Async W (NodeUrls * NodeFlow.t) :=
  LoginFlow.performLogin loginPage email password ;;
  goToNodes mainMenu ;;
  NodeFlow.createNode nodePage protocol network ;;
  let* nodeUrls := NodeFlow.copyNodeUrls nodePage nodeFlow protocol in
  ret nodeUrls.

(** [page] is the Playwright page of the browser. *)
Definition cleanupNodeAndSession (protocol network : string)
    (shouldDeleteNode : bool) : Async W unit :=
  (if shouldDeleteNode then NodeFlow.deleteNode nodePage protocol
   else ret tt) ;;
  clearCookies ;;
  closePage.

End SystemFlow.
End SystemFlow.

(** ** Browsers and pages used to state and to instantiate properties *)

(** A page that does not change: what can be observed of each locator,
    and the locators that cannot be resolved ([broken]), on which every
    operation is rejected with the error of Playwright. *)
Record Dom : Type := mkDom {
  shown : Locator -> bool;
  enabledAt : Locator -> bool;
  matches : Locator -> Z;
  textAt : Locator -> option string;
  valueAt : Locator -> string;
  expandedAt : Locator -> bool;
  broken : Locator -> bool
}.

Definition onLocator {A} (dom : Dom) (l : Locator) (result : A)
  : Async unit A :=
  if broken dom l then throw (new_Error "Timeout exceeded.")
  else ret result.

#[export] Instance staticBrowser (dom : Dom) : Browser unit := {
  click l _ := onLocator dom l tt;
  fill l _ _ := onLocator dom l tt;
  selectOption l _ _ := onLocator dom l tt;
  waitFor l _ _ := onLocator dom l tt;
  isVisible l := onLocator dom l (shown dom l);
  isEnabled l := onLocator dom l (enabledAt dom l);
  count l := onLocator dom l (matches dom l);
  textContent l := onLocator dom l (textAt dom l);
  inputValue l := onLocator dom l (valueAt dom l);
  isExpanded l := onLocator dom l (expandedAt dom l);
  scrollIntoViewIfNeeded l := onLocator dom l tt;
  goto _ _ := ret tt;
  pause := ret tt;
  clearCookies := ret tt;
  closePage := ret tt
}.

(** A computation run beside a log that it does not touch. *)
Definition beside {L W A} (m : Async W A) : Async (L * W) A :=
  fun lw =>
    let '(r, w') := m (snd lw) in
    (r, (fst lw, w')).

#[export] Instance browserBeside {L W : Type} `{Browser W}
  : Browser (L * W) := {
  click l t := beside (click l t);
  fill l v t := beside (fill l v t);
  selectOption l v t := beside (selectOption l v t);
  waitFor l s t := beside (waitFor l s t);
  isVisible l := beside (isVisible l);
  isEnabled l := beside (isEnabled l);
  count l := beside (count l);
  textContent l := beside (textContent l);
  inputValue l := beside (inputValue l);
  isExpanded l := beside (isExpanded l);
  scrollIntoViewIfNeeded l := beside (scrollIntoViewIfNeeded l);
  goto u t := beside (goto u t);
  pause := beside pause;
  clearCookies := beside clearCookies;
  closePage := beside closePage
}.

(** [nodePage] with a log of the arguments of its calls of
    [openAccordion], in the order of the calls. *)
Definition recordingOpens {W} (nodePage : INodePage W)
  : INodePage (list (option string * option Z) * W) := {|
  getGeneralAccordionButtonLocator :=
    getGeneralAccordionButtonLocator nodePage;
  clickCreateNewNodeButton := beside (clickCreateNewNodeButton nodePage);
  selectProtocol p := beside (selectProtocol nodePage p);
  selectNetwork n := beside (selectNetwork nodePage n);
  clickFinalSubmitButton := beside (clickFinalSubmitButton nodePage);
  waitForLoadingToComplete := beside (waitForLoadingToComplete nodePage);
  verifyNodeLoaded p := beside (verifyNodeLoaded nodePage p);
  clickCopyButton i := beside (clickCopyButton nodePage i);
  getCopiedUrl i := beside (getCopiedUrl nodePage i);
  openAccordion p i :=
    fun lw =>
      let '(r, w') := openAccordion nodePage p i (snd lw) in
      (r, (fst lw ++ [(p, i)], w'));
  isAccordionOpen p := beside (isAccordionOpen nodePage p);
  clickDeleteNodeButton p i := beside (clickDeleteNodeButton nodePage p i);
  confirmDeleteNodeOperationButton p i :=
    beside (confirmDeleteNodeOperationButton nodePage p i);
  anyNodeAvailable := beside (anyNodeAvailable nodePage)
|}.

(** The indices [n - 1], ..., [0]. *)
Definition descending (n : Z) : list Z :=
  map (fun k => (n - 1 - Z.of_nat k)%Z) (seq 0 (Z.to_nat n)).

(** A page on which everything is shown and enabled, with [n] nodes, whose
    URL fields hold one URL per index. *)
Definition pageWithNodes (n : Z) : Dom := {|
  shown := fun _ => true;
  enabledAt := fun _ => true;
  matches := fun _ => n;
  textAt := fun _ => Some "Ethereum";
  valueAt := fun l =>
    match l with
    | nth _ 0 => "https://site1.example/abc"
    | _ => "https://site2.example/abc"
    end;
  expandedAt := fun _ => false;
  broken := fun _ => false
|}.

(** The login page before the user is logged in (no Home button) and no
    CAPTCHA. *)
Definition loggedOutPage : Dom := {|
  shown := fun l => negb (match l with
                          | locator s =>
                              (s =? "button[title=" ++ quoted "Home" ++ "]")
                          | _ => false
                          end);
  enabledAt := fun _ => true;
  matches := fun _ => 0%Z;
  textAt := fun _ => None;
  valueAt := fun _ => EmptyString;
  expandedAt := fun _ => false;
  broken := fun _ => false
|}.

(** A page none of whose locators can be resolved. *)
Definition unresponsivePage : Dom := {|
  shown := fun _ => false;
  enabledAt := fun _ => false;
  matches := fun _ => 0%Z;
  textAt := fun _ => None;
  valueAt := fun _ => EmptyString;
  expandedAt := fun _ => false;
  broken := fun _ => true
|}.

(** A page with three nodes of which only the last is shown. *)
Definition thirdNodeShown : Dom := {|
  shown := fun l => match l with
                    | nth _ 2 => true
                    | _ => false
                    end;
  enabledAt := fun _ => true;
  matches := fun _ => 3%Z;
  textAt := fun _ => None;
  valueAt := fun _ => EmptyString;
  expandedAt := fun _ => false;
  broken := fun _ => false
|}.

End Ui.
(* ================================================================== *)
(** * Properties of validateApiResponse                                 *)
(* ================================================================== *)

Lemma matchesHex_nonempty (s : string) :
  matchesHex s = true -> (s =? EmptyString) = false.
Proof. destruct s; [discriminate | reflexivity]. Qed.

Lemma matchesHexN_nonempty (n : nat) (s : string) :
  matchesHexN n s = true -> (s =? EmptyString) = false.
Proof. destruct s; [discriminate | reflexivity]. Qed.

(** What the two patterns accept: the prefix 0x followed by hexadecimal
    digits, at least one for the first pattern, exactly [n] for the
    second (so a hash has 66 characters and an address 42). *)
Lemma matchesHex_inv (s : string) :
  matchesHex s = true ->
  exists digits,
    s = ("0x" ++ digits)%string
    /\ 1 <= String.length digits /\ allHex digits = true.
Proof.
  destruct s as [|c0 [|c1 digits]]; try discriminate;
    [destruct c0 as [[|] [|] [|] [|] [|] [|] [|] [|]]; discriminate|].
  intros Hm. exists digits.
  destruct c0 as [[|] [|] [|] [|] [|] [|] [|] [|]]; try discriminate;
    destruct c1 as [[|] [|] [|] [|] [|] [|] [|] [|]]; try discriminate.
  simpl in Hm. apply andb_prop in Hm. destruct Hm as [Hlen Hall].
  repeat split; [ | exact Hall].
  destruct digits; [discriminate | simpl; lia].
Qed.

Lemma matchesHexN_inv (n : nat) (s : string) :
  matchesHexN n s = true ->
  exists digits,
    s = ("0x" ++ digits)%string
    /\ String.length digits = n /\ allHex digits = true.
Proof.
  destruct s as [|c0 [|c1 digits]]; try discriminate;
    [destruct c0 as [[|] [|] [|] [|] [|] [|] [|] [|]]; discriminate|].
  intros Hm. exists digits.
  destruct c0 as [[|] [|] [|] [|] [|] [|] [|] [|]]; try discriminate;
    destruct c1 as [[|] [|] [|] [|] [|] [|] [|] [|]]; try discriminate.
  simpl in Hm. apply andb_prop in Hm. destruct Hm as [Hlen Hall].
  repeat split; [ | exact Hall].
  apply Nat.eqb_eq. exact Hlen.
Qed.

Example isHexDigit_samples :
  map isHexDigit ["0"; "9"; "a"; "f"; "A"; "F"; "g"; "G"; "x"; "/"; ":"]%char
  = [true; true; true; true; true; true; false; false; false; false; false].
Proof. reflexivity. Qed.

Lemma eqb_empty_false (s : string) :
  s <> EmptyString -> (s =? EmptyString) = false.
Proof. intros Hs. apply String.eqb_neq. exact Hs. Qed.

(** A value with a truthy [transactionIndex] property is an object. *)
Lemma truthy_transactionIndex_object (response : JsVal) :
  truthy (getProp response "transactionIndex") = true ->
  truthy response = true.
Proof. destruct response; simpl; try discriminate; reflexivity. Qed.

(** C5, as the specification words it, fails: the empty string does not
    match the pattern of block numbers, yet a payload whose [number] is the
    empty string passes, because the format rules are guarded by the
    truthiness of [number]. *)
Lemma C5_empty_number_passes :
  matchesHex EmptyString = false
  /\ matchesHexN 64 hash64 = true
  /\ validateApiResponse (blockPayload (JStr EmptyString) (JStr hash64))
       "Invalid API response" ErrorType.GENERIC_API = Ok tt.
Proof. repeat split. Qed.

(** C5 (amended): for every non-empty string [s] that does not match
    [^0x[a-fA-F0-9]+$] and every valid hash, validating
    [{number: s, hash: validHash}] fails (with "Invalid block number
    format"); and for every [number] matching that pattern and [hash]
    matching [^0x[a-fA-F0-9]{64}$], validating [{number, hash}] succeeds. *)
Theorem C5_block_format_rule :
  (forall (s validHash errorMessage errorType : string),
      s <> EmptyString ->
      matchesHex s = false ->
      matchesHexN 64 validHash = true ->
      validateApiResponse (blockPayload (JStr s) (JStr validHash))
        errorMessage errorType
      = Throw (Err (handleError (new_Error "Invalid block number format")
                                errorMessage errorType)))
  /\ (forall (number hash errorMessage errorType : string),
      matchesHex number = true ->
      matchesHexN 64 hash = true ->
      validateApiResponse (blockPayload (JStr number) (JStr hash))
        errorMessage errorType = Ok tt).
Proof.
  split.
  - intros s validHash errorMessage errorType Hs Hbad Hhash.
    unfold validateApiResponse, blockPayload, test; simpl.
    rewrite (eqb_empty_false _ Hs), (matchesHexN_nonempty _ _ Hhash); simpl.
    rewrite Hbad; reflexivity.
  - intros number hash errorMessage errorType Hnum Hhash.
    unfold validateApiResponse, blockPayload, test; simpl.
    rewrite (matchesHex_nonempty _ Hnum), (matchesHexN_nonempty _ _ Hhash).
    simpl. rewrite Hnum, Hhash; reflexivity.
Qed.

Lemma C5_block_format_rule_witness :
  validateApiResponse (blockPayload (JStr "16") (JStr hash64))
    "Invalid API response" ErrorType.GENERIC_API
  = Throw (Err (mkError GenericAPIError "Invalid block number format"))
  /\ validateApiResponse (blockPayload (JStr "0x10") (JStr hash64))
       "Invalid API response" ErrorType.GENERIC_API = Ok tt.
Proof.
  split.
  - apply (proj1 C5_block_format_rule "16" hash64);
      [discriminate | reflexivity | reflexivity].
  - apply (proj2 C5_block_format_rule "0x10" hash64); reflexivity.
Defined.

(** C4, as the specification words it, fails in two ways that follow from
    the design of the validator.  A [from] that is present but empty does
    not match the address pattern, yet the payload passes: the transaction
    rules are guarded by the truthiness of the three fields.  And a payload
    whose three fields are well formed still fails when an earlier rule
    rejects it, here a populated [error]. *)
Lemma C4_present_is_truthy_and_rules_are_ordered :
  (test (matchesHexN 40) (JStr EmptyString) = false
   /\ validateApiResponse
        (txPayload (JStr "0x1") (JStr EmptyString) (JStr addr40))
        "Invalid API response" ErrorType.GENERIC_API = Ok tt)
  /\ (test matchesHex (JStr "0x1") = true
      /\ test (matchesHexN 40) (JStr addr40) = true
      /\ validateApiResponse
           (JObj [("error", JObj [("message", JStr "boom")]);
                  ("transactionIndex", JStr "0x1");
                  ("from", JStr addr40); ("to", JStr addr40)])
           "Invalid API response" ErrorType.GENERIC_API
         = Throw (Err (mkError GenericAPIError "RPC Error: boom"))).
Proof. repeat split. Qed.

(** Where [to] is exactly [null] the guard of the transaction rules is
    false as well, so that neither [from] nor [transactionIndex] is checked,
    although the rule on [to] inside the guarded block makes room for
    [null]. *)
Lemma validateApiResponse_null_to_unchecked :
  validateApiResponse (txPayload (JStr "zz") (JStr "bad") JNull)
    "Invalid API response" ErrorType.GENERIC_API = Ok tt.
Proof. reflexivity. Qed.

(** C4 (amended): for every payload whose [transactionIndex], [from] and
    [to] are all truthy, validation fails when [from] does not match
    [^0x[a-fA-F0-9]{40}$], fails when [to] does not match that pattern, and
    fails when [transactionIndex] does not match [^0x[a-fA-F0-9]+$]; it
    succeeds when all three match, provided the earlier rules let the
    payload through (no truthy [error], and the block rule passes). *)
Theorem C4_transaction_format_rule
    (response : JsVal) (errorMessage errorType : string) :
  truthy (getProp response "transactionIndex") = true ->
  truthy (getProp response "from") = true ->
  truthy (getProp response "to") = true ->
  (test (matchesHexN 40) (getProp response "from") = false ->
   is_ok (validateApiResponse response errorMessage errorType) = false)
  /\ (test (matchesHexN 40) (getProp response "to") = false ->
      is_ok (validateApiResponse response errorMessage errorType) = false)
  /\ (test matchesHex (getProp response "transactionIndex") = false ->
      is_ok (validateApiResponse response errorMessage errorType) = false)
  /\ (test (matchesHexN 40) (getProp response "from") = true ->
      test (matchesHexN 40) (getProp response "to") = true ->
      test matchesHex (getProp response "transactionIndex") = true ->
      truthy (getProp response "error") = false ->
      blockRulePasses response = true ->
      validateApiResponse response errorMessage errorType = Ok tt).
Proof.
  intros Hti Hfrom Hto.
  pose proof (truthy_transactionIndex_object _ Hti) as Hresp.
  assert (Hnull : is_null (getProp response "to") = false)
    by (destruct (getProp response "to"); try reflexivity; discriminate).
  unfold validateApiResponse, blockRulePasses.
  rewrite Hresp, Hti, Hfrom, Hto, Hnull.
  destruct (truthy (getProp response "error"));
    destruct (truthy (getProp response "number"));
    destruct (truthy (getProp response "hash"));
    destruct (test matchesHex (getProp response "number"));
    destruct (test (matchesHexN 64) (getProp response "hash"));
    destruct (test (matchesHexN 40) (getProp response "from"));
    destruct (test (matchesHexN 40) (getProp response "to"));
    destruct (test matchesHex (getProp response "transactionIndex"));
    simpl; repeat split; intros; try reflexivity; discriminate.
Qed.

Lemma C4_transaction_format_rule_witness :
  is_ok (validateApiResponse
           (txPayload (JStr "0x1") (JStr "0x12") (JStr addr40))
           "Invalid API response" ErrorType.GENERIC_API) = false
  /\ validateApiResponse
       (txPayload (JStr "0x1") (JStr addr40) (JStr addr40))
       "Invalid API response" ErrorType.GENERIC_API = Ok tt.
Proof.
  split.
  - exact (proj1 (C4_transaction_format_rule
                    (txPayload (JStr "0x1") (JStr "0x12") (JStr addr40))
                    "Invalid API response" ErrorType.GENERIC_API
                    eq_refl eq_refl eq_refl) eq_refl).
  - exact (proj2 (proj2 (proj2 (C4_transaction_format_rule
                    (txPayload (JStr "0x1") (JStr addr40) (JStr addr40))
                    "Invalid API response" ErrorType.GENERIC_API
                    eq_refl eq_refl eq_refl)))
             eq_refl eq_refl eq_refl eq_refl eq_refl).
Defined.

(* ================================================================== *)
(** * Properties of retryApiRequest                                     *)
(* ================================================================== *)

Section Retry.

Context {W A : Type}.
Variable action : Async W A.
Variables errorMessage errorType : string.

(** The recursion on the variant computes the loop of the source: with the
    variant at [retries - attempts], [retry_loop] satisfies the equation of
    [while (attempts < retries) { try ... catch ... }] followed by the
    statement after the loop. *)
Lemma retry_loop_equation (retries attempts : nat) :
  retry_loop action retries errorMessage errorType attempts
             (retries - attempts)
  = if (attempts <? retries)%nat then
      try_catch action
        (fun error =>
           if (retries <=? S attempts)%nat then
             throw (Err (handleError error errorMessage errorType))
           else
             retry_loop action retries errorMessage errorType (S attempts)
                        (retries - S attempts))
    else
      throw (Err (handleError (new_Error "All retries failed")
                              errorMessage errorType)).
Proof.
  destruct (retries - attempts) as [|remaining'] eqn:Hvar; simpl.
  - assert (Hlt : (attempts <? retries)%nat = false)
      by (apply Nat.ltb_ge; lia).
    rewrite Hlt; reflexivity.
  - replace (retries - S attempts) with remaining' by lia.
    reflexivity.
Qed.

Lemma outcome_of_succ (w : W) (i : nat) :
  outcome_of action w (S i) = outcome_of action (snd (action w)) i.
Proof. reflexivity. Qed.

(** One pass of the loop over a failing invocation that is not the last
    one allowed. *)
Lemma retry_loop_step (retries attempts remaining c : nat) (w : W) :
  attempts + S (S remaining) = retries ->
  is_ok (outcome_of action w 0) = false ->
  retry_loop (counted action) retries errorMessage errorType attempts
             (S (S remaining)) (c, w)
  = retry_loop (counted action) retries errorMessage errorType (S attempts)
               (S remaining) (S c, snd (action w)).
Proof.
  intros Hvar Hfail.
  unfold outcome_of in Hfail; simpl in Hfail.
  cbn [retry_loop].
  assert (Hlt : (attempts <? retries)%nat = true)
    by (apply Nat.ltb_lt; lia).
  assert (Hle : (retries <=? S attempts)%nat = false)
    by (apply Nat.leb_gt; lia).
  rewrite Hlt. unfold try_catch at 1, counted at 1. cbn [fst snd].
  destruct (action w) as [[v | e] w1]; [discriminate|].
  cbn [snd]. rewrite Hle. reflexivity.
Qed.

Lemma retry_loop_succeeds (retries k : nat) :
  forall (attempts remaining c : nat) (w : W) (v : A),
    attempts + remaining = retries ->
    k < remaining ->
    (forall i, i < k -> is_ok (outcome_of action w i) = false) ->
    outcome_of action w k = Ok v ->
    retry_loop (counted action) retries errorMessage errorType attempts
               remaining (c, w)
    = (Ok v, (c + S k, world_after action w (S k))).
Proof.
  induction k as [|k IH]; intros attempts remaining c w v Hvar Hk Hfail Hok.
  - destruct remaining as [|remaining']; [lia|].
    cbn [retry_loop].
    assert (Hlt : (attempts <? retries)%nat = true)
      by (apply Nat.ltb_lt; lia).
    rewrite Hlt. unfold try_catch, counted. cbn [fst snd].
    unfold outcome_of in Hok; simpl in Hok. simpl.
    destruct (action w) as [r w1]; simpl in *; subst r.
    replace (c + 1) with (S c) by lia. reflexivity.
  - destruct remaining as [|[|remaining']]; [lia | lia |].
    rewrite retry_loop_step by (auto; apply Hfail; lia).
    rewrite (IH (S attempts) (S remaining') (S c) (snd (action w)) v);
      [ | lia | lia | | ].
    + replace (S c + S k) with (c + S (S k)) by lia. reflexivity.
    + intros i Hi. rewrite <- outcome_of_succ. apply Hfail; lia.
    + rewrite <- outcome_of_succ. exact Hok.
Qed.

Lemma retry_loop_exhausts (retries : nat) :
  forall (remaining attempts c : nat) (w : W),
    attempts + S remaining = retries ->
    (forall i, i < S remaining ->
               is_ok (outcome_of action w i) = false) ->
    exists e : Thrown,
      outcome_of action w remaining = Throw e
      /\ retry_loop (counted action) retries errorMessage errorType attempts
                    (S remaining) (c, w)
         = (Throw (Err (handleError e errorMessage errorType)),
            (c + S remaining, world_after action w (S remaining))).
Proof.
  induction remaining as [|remaining IH]; intros attempts c w Hvar Hfail.
  - cbn [retry_loop].
    assert (Hlt : (attempts <? retries)%nat = true)
      by (apply Nat.ltb_lt; lia).
    assert (Hle : (retries <=? S attempts)%nat = true)
      by (apply Nat.leb_le; lia).
    rewrite Hlt. unfold try_catch, counted. cbn [fst snd].
    pose proof (Hfail 0 (Nat.lt_0_succ 0)) as H0.
    unfold outcome_of in *; simpl in *.
    destruct (action w) as [[v | e] w1]; [discriminate|].
    exists e. rewrite Hle. split; [reflexivity|].
    unfold throw. simpl. replace (c + 1) with (S c) by lia. reflexivity.
  - rewrite retry_loop_step by (auto; apply Hfail; lia).
    destruct (IH (S attempts) (S c) (snd (action w))) as [e [He Hrun]];
      [lia | | ].
    + intros i Hi. rewrite <- outcome_of_succ. apply Hfail; lia.
    + exists e. split.
      * rewrite outcome_of_succ. exact He.
      * rewrite Hrun.
        replace (S c + S remaining) with (c + S (S remaining)) by lia.
        reflexivity.
Qed.

(** The counter only observes: without it the loop yields the same outcome
    and leaves the same world. *)
Lemma counted_retry_loop_erasure (retries : nat) :
  forall (remaining attempts c : nat) (w : W),
    retry_loop action retries errorMessage errorType attempts remaining w
    = (fst (retry_loop (counted action) retries errorMessage errorType
                       attempts remaining (c, w)),
       snd (snd (retry_loop (counted action) retries errorMessage errorType
                            attempts remaining (c, w)))).
Proof.
  induction remaining as [|remaining IH]; intros attempts c w.
  - reflexivity.
  - cbn [retry_loop].
    destruct (attempts <? retries)%nat; [ | reflexivity].
    unfold try_catch, counted. cbn [fst snd].
    destruct (action w) as [[v | e] w1]; [reflexivity|].
    destruct (retries <=? S attempts)%nat; [reflexivity|].
    apply IH.
Qed.

End Retry.

Lemma handleError_message (e : JsError) (contextMessage errorType : string) :
  message (handleError (Err e) contextMessage errorType) = message e.
Proof.
  unfold handleError.
  destruct (errorType =? "RPC"); [reflexivity|].
  destruct (errorType =? "WALLET_API"); [reflexivity|].
  destruct (errorType =? "USER_API"); reflexivity.
Qed.

Lemma handleError_not_plain (error : Thrown)
    (contextMessage errorType : string) :
  name (handleError error contextMessage errorType) <> Error
  /\ name (handleError error contextMessage errorType) <> TypeError.
Proof.
  unfold handleError.
  destruct (errorType =? "RPC"); [split; discriminate|].
  destruct (errorType =? "WALLET_API"); [split; discriminate|].
  destruct (errorType =? "USER_API"); split; discriminate.
Qed.

(** C6: when the first [n] invocations of [action] all fail (as they do
    for an action that fails on all invocations), [retryApiRequest(action,
    n)] invokes [action] exactly [n] times, leaving the world as [n]
    invocations in a row leave it, and then fails; for [n >= 1] the failure
    is the one [handleError] makes of what invocation number [n] threw, so
    it carries the message of that last error; for [n = 0] it is
    "All retries failed". *)
Theorem C6_retry_exhausted {W A : Type} (action : Async W A) (n : nat)
    (errorMessage errorType : string) (w : W) :
  (forall i, i < n -> is_ok (outcome_of action w i) = false) ->
  exists surfaced : JsError,
    retryApiRequest (counted action) n errorMessage errorType (0, w)
    = (Throw (Err surfaced), (n, world_after action w n))
    /\ match n with
       | 0 =>
           surfaced = handleError (new_Error "All retries failed")
                                  errorMessage errorType
       | S m =>
           exists last : Thrown,
             outcome_of action w m = Throw last
             /\ surfaced = handleError last errorMessage errorType
             /\ (forall e, last = Err e -> message surfaced = message e)
       end.
Proof.
  intros Hfail. unfold retryApiRequest. rewrite Nat.sub_0_r.
  destruct n as [|m].
  - eexists. split; reflexivity.
  - destruct (retry_loop_exhausts action errorMessage errorType (S m)
                m 0 0 w eq_refl Hfail) as [last [Hlast Hrun]].
    exists (handleError last errorMessage errorType). split.
    + exact Hrun.
    + exists last. repeat split; [exact Hlast|].
      intros e ->. apply handleError_message.
Qed.

Lemma C6_retry_exhausted_witness :
  exists surfaced : JsError,
    retryApiRequest (counted (failingFirst 5 (JStr "0x10"))) 2
      "Failed to execute API request after retries" ErrorType.RPC (0, 0)
    = (Throw (Err surfaced), (2, 2))
    /\ exists last : Thrown,
         outcome_of (failingFirst 5 (JStr "0x10")) 0 1 = Throw last
         /\ surfaced = handleError last
                         "Failed to execute API request after retries"
                         ErrorType.RPC
         /\ (forall e, last = Err e -> message surfaced = message e).
Proof.
  apply (C6_retry_exhausted (failingFirst 5 (JStr "0x10")) 2).
  intros i Hi. destruct i as [|[|i]]; [reflexivity | reflexivity | lia].
Defined.

(** C7: when [action] fails on its first [k < n] invocations and succeeds
    on invocation [k + 1] with [v], [retryApiRequest(action, n)] returns
    [v] and has invoked [action] exactly [k + 1] times. *)
Theorem C7_retry_succeeds_after_k_failures {W A : Type}
    (action : Async W A) (n k : nat) (v : A)
    (errorMessage errorType : string) (w : W) :
  k < n ->
  (forall i, i < k -> is_ok (outcome_of action w i) = false) ->
  outcome_of action w k = Ok v ->
  retryApiRequest (counted action) n errorMessage errorType (0, w)
  = (Ok v, (S k, world_after action w (S k))).
Proof.
  intros Hk Hfail Hok. unfold retryApiRequest. rewrite Nat.sub_0_r.
  apply (retry_loop_succeeds action errorMessage errorType n k 0 n 0 w v);
    auto.
Qed.

Lemma C7_retry_succeeds_after_k_failures_witness :
  retryApiRequest (counted (failingFirst 2 (JStr "0x10"))) 3
    "Failed to execute API request after retries" ErrorType.RPC (0, 0)
  = (Ok (JStr "0x10"), (3, 3)).
Proof.
  apply (C7_retry_succeeds_after_k_failures
           (failingFirst 2 (JStr "0x10")) 3 2).
  - lia.
  - intros i Hi. destruct i as [|[|i]]; [reflexivity | reflexivity | lia].
  - reflexivity.
Defined.

(* ================================================================== *)
(** * Properties of apiRequestWithTimeout                               *)
(* ================================================================== *)

Section Timeout.

Context {W A : Type} `{Clock W}.
Variable action : Async W A.
Variable timeout : N.
Variables errorMessage errorType : string.

Lemma apiRequestWithTimeout_returns (w w' : W) (v : A) :
  action w = (Ok v, w') ->
  settlesFirst (clock w' - clock w)%N timeout = true ->
  apiRequestWithTimeout action timeout errorMessage errorType w = (Ok v, w').
Proof.
  intros Hrun Hfirst.
  unfold apiRequestWithTimeout, try_catch, race.
  rewrite Hrun, Hfirst. reflexivity.
Qed.

Lemma apiRequestWithTimeout_rethrows (w w' : W) (e : Thrown) :
  action w = (Throw e, w') ->
  settlesFirst (clock w' - clock w)%N timeout = true ->
  apiRequestWithTimeout action timeout errorMessage errorType w
  = (Throw (Err (handleError e errorMessage errorType)), w').
Proof.
  intros Hrun Hfirst.
  unfold apiRequestWithTimeout, try_catch, race.
  rewrite Hrun, Hfirst. reflexivity.
Qed.

Lemma apiRequestWithTimeout_times_out (w : W) :
  settlesFirst (clock (snd (action w)) - clock w)%N timeout = false ->
  apiRequestWithTimeout action timeout errorMessage errorType w
  = (Throw (Err (handleError (new_Error "API request timed out")
                             errorMessage errorType)),
     set_clock (clock w + timeout)%N (snd (action w))).
Proof.
  intros Hlate.
  unfold apiRequestWithTimeout, try_catch, race.
  destruct (action w) as [r w']; simpl in *.
  rewrite Hlate. reflexivity.
Qed.

End Timeout.

Lemma settlesFirst_before (elapsed timeout : N) :
  (elapsed < timeout)%N -> settlesFirst elapsed timeout = true.
Proof.
  intros Hlt. unfold settlesFirst.
  assert (Hle : (elapsed <=? timeout)%N = true) by (apply N.leb_le; lia).
  rewrite Hle. apply orb_true_r.
Qed.

(** C3, as the specification words it, fails: the error that leaves the
    timeout executor is a new object of the class chosen by [errorType],
    not the value the action threw; and of a thrown value that is not an
    [Error] not even the message is kept. *)
Lemma C3_error_is_rewrapped :
  (boom w0 = (Throw (new_Error "boom"), w0)
   /\ apiRequestWithTimeout boom 100 "Failed to execute API request"
        ErrorType.GENERIC_API w0
      = (Throw (Err (mkError GenericAPIError "boom")), w0)
   /\ Err (mkError GenericAPIError "boom") <> new_Error "boom")
  /\ apiRequestWithTimeout boomString 100 "Failed to execute API request"
       ErrorType.RPC w0
     = (Throw (Err (mkError RPCError "Unknown error")), w0).
Proof. repeat split. discriminate. Qed.

(** C3 (amended): for every action that fails before the timer elapses,
    the timeout executor fails with the error that [handleError] makes of
    what the action threw: a new error of the class named by [errorType]
    (never the plain class [Error] of the timer's own error), with the
    message of the action's error when that is an [Error], and in
    particular not re-labelled with the timeout message; the world is left
    as the action left it. *)
Theorem C3_timeout_rethrows_by_category {W A : Type} `{Clock W}
    (action : Async W A) (timeout : N)
    (errorMessage errorType : string) (w w' : W) (thrown : Thrown) :
  action w = (Throw thrown, w') ->
  (clock w' - clock w < timeout)%N ->
  apiRequestWithTimeout action timeout errorMessage errorType w
  = (Throw (Err (handleError thrown errorMessage errorType)), w')
  /\ (forall e, thrown = Err e ->
        message (handleError thrown errorMessage errorType) = message e)
  /\ name (handleError thrown errorMessage errorType) <> Error.
Proof.
  intros Hrun Hbefore. repeat split.
  - apply apiRequestWithTimeout_rethrows; [exact Hrun|].
    apply settlesFirst_before; exact Hbefore.
  - intros e ->. apply handleError_message.
  - apply handleError_not_plain.
Qed.

Lemma C3_timeout_rethrows_by_category_witness :
  apiRequestWithTimeout boom 100 "Failed to execute API request"
    ErrorType.RPC w0
  = (Throw (Err (handleError (new_Error "boom")
                   "Failed to execute API request" ErrorType.RPC)), w0)
  /\ (forall e, new_Error "boom" = Err e ->
        message (handleError (new_Error "boom")
                   "Failed to execute API request" ErrorType.RPC)
        = message e)
  /\ name (handleError (new_Error "boom")
             "Failed to execute API request" ErrorType.RPC) <> Error.
Proof.
  apply (C3_timeout_rethrows_by_category boom 100
           "Failed to execute API request" ErrorType.RPC w0 w0).
  - reflexivity.
  - reflexivity.
Defined.

(* ================================================================== *)
(** * Properties of RpcFactory                                          *)
(* ================================================================== *)

Section Transport.

Variable net : Network.
Variables (method : string) (params : list JsVal) (id : Z).
Variable nodeUrl : string.
Variable w : World.
Variables (latency : N) (reply : HttpReply).

Hypothesis Hreply :
  net (List.length (posted w)) nodeUrl (mkRequest "2.0" method params id)
  = (latency, reply).

(** The world once the request has been answered. *)
Let answered : World :=
  mkWorld (now w + latency)%N
          (posted w ++ [(nodeUrl, mkRequest "2.0" method params id)]).

Lemma createRequest_rpc_error (data : JsVal) :
  reply = HttpOk data ->
  truthy (getProp data "error") = true ->
  RpcFactory.createRequest net method params id nodeUrl w
  = (Throw (new_Error
       ("RPC Error: " ++ ToString (getProp (getProp data "error") "message"))),
     answered).
Proof.
  intros -> Herr.
  assert (Hdata : nullish data = false)
    by (destruct data; try reflexivity; discriminate).
  unfold RpcFactory.createRequest, try_catch, bind, axios_post, lift,
    getPropChecked.
  rewrite Hreply. cbn [getProp lookup String.eqb Ascii.eqb Bool.eqb].
  simpl. rewrite Hdata, Herr. reflexivity.
Qed.

Lemma createRequest_returns (data : JsVal) :
  reply = HttpOk data ->
  nullish data = false ->
  truthy (getProp data "error") = false ->
  RpcFactory.createRequest net method params id nodeUrl w
  = (Ok data, answered).
Proof.
  intros -> Hdata Herr.
  unfold RpcFactory.createRequest, try_catch, bind, axios_post, lift,
    getPropChecked.
  rewrite Hreply. simpl. rewrite Hdata, Herr. reflexivity.
Qed.

Lemma createRequest_http_failure (msg : string) :
  reply = HttpFail msg ->
  RpcFactory.createRequest net method params id nodeUrl w
  = (Throw (new_Error msg), answered).
Proof.
  intros ->.
  unfold RpcFactory.createRequest, try_catch, bind, axios_post.
  rewrite Hreply. reflexivity.
Qed.

End Transport.

Lemma callRpcMethod_returns (net : Network) (nodeUrl method : string)
    (params : list JsVal) (w : World) (latency : N) (data : JsVal) :
  net (List.length (posted w)) nodeUrl (mkRequest "2.0" method params 1)
  = (latency, HttpOk data) ->
  nullish data = false ->
  truthy (getProp data "error") = false ->
  RpcFactory.callRpcMethod net nodeUrl method params w
  = (Ok (getProp data "result"),
     mkWorld (now w + latency)%N
             (posted w ++ [(nodeUrl, mkRequest "2.0" method params 1)])).
Proof.
  intros Hreply Hdata Herr.
  unfold RpcFactory.callRpcMethod, bind.
  rewrite (createRequest_returns net method params 1 nodeUrl w latency
             (HttpOk data) Hreply data eq_refl Hdata Herr).
  reflexivity.
Qed.

(** C8: when the decoded body of the response carries a truthy [error]
    whose [message] is a string (or another [printable] value: absent,
    [null], a boolean, an integer up to 2^53), [createRequest] fails and
    the message of the failure is exactly "RPC Error: " followed by
    [error.message]; when the body (an object) carries no truthy [error],
    [createRequest] returns the decoded body, [result] included.  In both
    cases one request has been posted. *)
Theorem C8_createRequest_error_field (net : Network) (method : string)
    (params : list JsVal) (id : Z) (nodeUrl : string) (w : World)
    (latency : N) (data : JsVal) :
  net (List.length (posted w)) nodeUrl (mkRequest "2.0" method params id)
  = (latency, HttpOk data) ->
  let answered :=
    mkWorld (now w + latency)%N
            (posted w ++ [(nodeUrl, mkRequest "2.0" method params id)]) in
  (truthy (getProp data "error") = true ->
   printable (getProp (getProp data "error") "message") = true ->
   RpcFactory.createRequest net method params id nodeUrl w
   = (Throw (Err (mkError Error
        ("RPC Error: "
         ++ ToString (getProp (getProp data "error") "message")))),
      answered))
  /\ (nullish data = false ->
      truthy (getProp data "error") = false ->
      RpcFactory.createRequest net method params id nodeUrl w
      = (Ok data, answered)).
Proof.
  intros Hreply answered. split.
  - intros Herr _.
    exact (createRequest_rpc_error net method params id nodeUrl w latency
             (HttpOk data) Hreply data eq_refl Herr).
  - intros Hdata Herr.
    exact (createRequest_returns net method params id nodeUrl w latency
             (HttpOk data) Hreply data eq_refl Hdata Herr).
Qed.

Lemma C8_createRequest_error_field_witness :
  RpcFactory.createRequest (always 20 (errorBody (-32601) "Method not found"))
    "eth_blockNumber" [] 1 "http://node" w0
  = (Throw (Err (mkError Error "RPC Error: Method not found")),
     mkWorld 20 [("http://node", mkRequest "2.0" "eth_blockNumber" [] 1)])
  /\ RpcFactory.createRequest (always 20 (successBody (JStr "0x10")))
       "eth_blockNumber" [] 1 "http://node" w0
     = (Ok (successBody (JStr "0x10")),
        mkWorld 20 [("http://node", mkRequest "2.0" "eth_blockNumber" [] 1)]).
Proof.
  split.
  - exact (proj1 (C8_createRequest_error_field
                    (always 20 (errorBody (-32601) "Method not found"))
                    "eth_blockNumber" [] 1 "http://node" w0 20
                    (errorBody (-32601) "Method not found") eq_refl)
                 eq_refl eq_refl).
  - exact (proj2 (C8_createRequest_error_field
                    (always 20 (successBody (JStr "0x10")))
                    "eth_blockNumber" [] 1 "http://node" w0 20
                    (successBody (JStr "0x10")) eq_refl)
                 eq_refl eq_refl).
Defined.

(* ================================================================== *)
(** * Properties of RpcTestScenarioBuilder                              *)
(* ================================================================== *)

(** C9: on a builder whose block number has not been stored (it is still
    [null]), [fetchBlockDetails] fails with "Block number is not available",
    and on a builder whose transaction hash has not been stored,
    [fetchTransactionDetails] fails with "Transaction hash is not
    available"; in both cases the world is unchanged: no request has been
    posted and no time has passed. *)
Theorem C9_stage_preconditions (net : Network) (DEFAULT_TIMEOUT : N)
    (this : RpcTestScenarioBuilder.t) (w : World) :
  (RpcTestScenarioBuilder.blockNumber this = JNull ->
   RpcTestScenarioBuilder.fetchBlockDetails net DEFAULT_TIMEOUT this w
   = (Throw (Err (mkError Error "Block number is not available")), w))
  /\ (RpcTestScenarioBuilder.transactionHash this = JNull ->
      RpcTestScenarioBuilder.fetchTransactionDetails net DEFAULT_TIMEOUT
        this w
      = (Throw (Err (mkError Error "Transaction hash is not available")),
         w)).
Proof.
  split; intros Hnull.
  - unfold RpcTestScenarioBuilder.fetchBlockDetails.
    rewrite Hnull. reflexivity.
  - unfold RpcTestScenarioBuilder.fetchTransactionDetails.
    rewrite Hnull. reflexivity.
Qed.

Lemma C9_stage_preconditions_witness :
  RpcTestScenarioBuilder.fetchBlockDetails
    (always 20 (successBody fullBlock)) 30000
    (RpcTestScenarioBuilder.new "http://node") w0
  = (Throw (Err (mkError Error "Block number is not available")), w0)
  /\ RpcTestScenarioBuilder.fetchTransactionDetails
       (always 20 (successBody fullBlock)) 30000
       (RpcTestScenarioBuilder.new "http://node") w0
     = (Throw (Err (mkError Error "Transaction hash is not available")), w0).
Proof.
  split.
  - exact (proj1 (C9_stage_preconditions
                    (always 20 (successBody fullBlock)) 30000
                    (RpcTestScenarioBuilder.new "http://node") w0) eq_refl).
  - exact (proj2 (C9_stage_preconditions
                    (always 20 (successBody fullBlock)) 30000
                    (RpcTestScenarioBuilder.new "http://node") w0) eq_refl).
Defined.

(** Any falsy stored value is rejected in the same way. *)
Lemma fetchBlockDetails_requires_truthy_number (net : Network)
    (DEFAULT_TIMEOUT : N) (this : RpcTestScenarioBuilder.t) (w : World) :
  truthy (RpcTestScenarioBuilder.blockNumber this) = false ->
  RpcTestScenarioBuilder.fetchBlockDetails net DEFAULT_TIMEOUT this w
  = (Throw (new_Error "Block number is not available"), w).
Proof.
  intros Hfalsy. unfold RpcTestScenarioBuilder.fetchBlockDetails.
  rewrite Hfalsy. reflexivity.
Qed.

(** The recursion on the variant computes the polling loop of the source:
    with the variant at [MAX_RETRIES - retries], [poll_loop] satisfies the
    equation of [while (cond) { if (retries >= MAX_RETRIES) throw ...;
    await delay; retries++; }]. *)
Lemma poll_loop_equation (this : RpcTestScenarioBuilder.t) (retries : nat)
    (w : World) :
  RpcTestScenarioBuilder.poll_loop this retries
    (RpcTestScenarioBuilder.MAX_RETRIES - retries) w
  = (let* waiting := lift (RpcTestScenarioBuilder.stillWaiting this) in
     if (waiting : bool) then
       if (RpcTestScenarioBuilder.MAX_RETRIES <=? retries)%nat then
         throw (new_Error
           "Block details or transactions are not available after maximum retries")
       else
         let* _ := sleep RpcTestScenarioBuilder.RETRY_DELAY in
         RpcTestScenarioBuilder.poll_loop this (S retries)
           (RpcTestScenarioBuilder.MAX_RETRIES - S retries)
     else ret tt) w.
Proof.
  destruct (RpcTestScenarioBuilder.MAX_RETRIES - retries)
    as [|remaining'] eqn:Hvar.
  - assert (Hle : (RpcTestScenarioBuilder.MAX_RETRIES <=? retries)%nat = true)
      by (apply Nat.leb_le; lia).
    cbn [RpcTestScenarioBuilder.poll_loop]. unfold bind.
    destruct (lift (RpcTestScenarioBuilder.stillWaiting this) w)
      as [[[|] | e] w1]; rewrite ?Hle; reflexivity.
  - replace (RpcTestScenarioBuilder.MAX_RETRIES - S retries)
      with remaining' by lia.
    reflexivity.
Qed.

(** Once the loop is entered with the condition true, it stays true: the
    loop sleeps [MAX_RETRIES] times and gives up, whatever the endpoint
    would answer, and posts no request. *)
Lemma fetchTransactionHash_gives_up (DEFAULT_TIMEOUT : N)
    (this : RpcTestScenarioBuilder.t) (w : World) :
  RpcTestScenarioBuilder.stillWaiting this = Ok true ->
  RpcTestScenarioBuilder.fetchTransactionHash DEFAULT_TIMEOUT this w
  = (Throw (new_Error
       "Block details or transactions are not available after maximum retries"),
     mkWorld (now w + 3 * RpcTestScenarioBuilder.RETRY_DELAY)%N (posted w)).
Proof.
  intros Hwait.
  unfold RpcTestScenarioBuilder.fetchTransactionHash.
  unfold bind at 1.
  cbn [RpcTestScenarioBuilder.poll_loop RpcTestScenarioBuilder.MAX_RETRIES
       Nat.sub Nat.leb].
  unfold bind, lift, sleep, throw. rewrite Hwait.
  cbn [clock set_clock Clock_World now posted].
  f_equal. f_equal. lia.
Qed.

(** The scenario on a healthy endpoint: three requests, and the details of
    the first transaction of the block are returned. *)
Example scenario_on_healthy_node :
  scenario healthyNode 30000 "http://node" w0
  = (Ok txDetails,
     mkWorld 60
       [("http://node", mkRequest "2.0" "eth_blockNumber" [] 1);
        ("http://node",
         mkRequest "2.0" "eth_getBlockByNumber" [JStr "0x10"; JBool false] 1);
        ("http://node",
         mkRequest "2.0" "eth_getTransactionByHash" [JStr hash64] 1)]).
Proof. vm_compute. reflexivity. Qed.

(** C2, evaluated where the code departs from it.  The loop condition is
    read from the fields of the builder, which nothing in the loop assigns,
    and [fetchTransactionHash] posts no request: when the condition holds
    on entry, the call sleeps three times 2000 ms and gives up, whatever the
    endpoint would answer; otherwise it does not sleep at all.  So with the
    endpoint [transactionsArriveLate], which has no transactions for the
    block the first two times and has one the third time, the scenario
    fails at 6040 ms having asked for the block once, where the specification has
    it succeed after two delayed retries. *)
Theorem C2_polling_never_observes_fresh_data :
  (forall (DEFAULT_TIMEOUT : N) (this : RpcTestScenarioBuilder.t)
          (w : World),
      RpcTestScenarioBuilder.fetchTransactionHash DEFAULT_TIMEOUT this w
      = match RpcTestScenarioBuilder.stillWaiting this with
        | Ok true =>
            (Throw (Err (mkError Error
               "Block details or transactions are not available after maximum retries")),
             mkWorld (now w + 3 * RpcTestScenarioBuilder.RETRY_DELAY)%N
                     (posted w))
        | Ok false =>
            (let* result :=
               RpcAPIClient.fetchTransactionHash DEFAULT_TIMEOUT
                 (RpcTestScenarioBuilder.blockDetails this) in
             ret (RpcTestScenarioBuilder.mk
                    (RpcTestScenarioBuilder.apiClient this)
                    (RpcTestScenarioBuilder.blockNumber this)
                    (RpcTestScenarioBuilder.blockDetails this) result)) w
        | Throw e => (Throw e, w)
        end)
  /\ snd (transactionsArriveLate 3 "http://node"
            (mkRequest "2.0" "eth_getBlockByNumber"
                       [JStr "0x10"; JBool false] 1))
     = HttpOk (successBody fullBlock)
  /\ scenario transactionsArriveLate 30000 "http://node" w0
     = (Throw (Err (mkError Error
          "Block details or transactions are not available after maximum retries")),
        mkWorld 6040
          [("http://node", mkRequest "2.0" "eth_blockNumber" [] 1);
           ("http://node",
            mkRequest "2.0" "eth_getBlockByNumber"
                      [JStr "0x10"; JBool false] 1)]).
Proof.
  split; [ | split; vm_compute; reflexivity].
  intros T this w.
  destruct (RpcTestScenarioBuilder.stillWaiting this) as [[|] | e] eqn:Hwait.
  - apply fetchTransactionHash_gives_up. exact Hwait.
  - unfold RpcTestScenarioBuilder.fetchTransactionHash.
    unfold bind at 1.
    cbn [RpcTestScenarioBuilder.poll_loop RpcTestScenarioBuilder.MAX_RETRIES
         Nat.sub].
    unfold bind at 1. unfold lift at 1. rewrite Hwait. reflexivity.
  - unfold RpcTestScenarioBuilder.fetchTransactionHash.
    unfold bind at 1.
    cbn [RpcTestScenarioBuilder.poll_loop RpcTestScenarioBuilder.MAX_RETRIES
         Nat.sub].
    unfold bind at 1. unfold lift at 1. rewrite Hwait. reflexivity.
Qed.

(* ================================================================== *)
(** * Properties of RpcAPIClient                                        *)
(* ================================================================== *)

Lemma retryApiRequest_first_try {W A : Type} (action : Async W A)
    (retries : nat) (errorMessage errorType : string) (w w' : W) (v : A) :
  0 < retries ->
  action w = (Ok v, w') ->
  retryApiRequest action retries errorMessage errorType w = (Ok v, w').
Proof.
  intros Hpos Hrun. unfold retryApiRequest. rewrite Nat.sub_0_r.
  destruct retries as [|n]; [lia|].
  cbn [retry_loop]. change (0 <? S n)%nat with true. cbv iota.
  unfold try_catch. rewrite Hrun. reflexivity.
Qed.

Lemma elapsed_after_latency (t latency : N) :
  (t + latency - t)%N = latency.
Proof. lia. Qed.

(** The validation of a payload with a single truthy marker field. *)
Lemma validate_single_marker (v : JsVal) (errorMessage errorType : string) :
  truthy v = true ->
  validateApiResponse (JObj [("number", v)]) errorMessage errorType = Ok tt
  /\ validateApiResponse (JObj [("hash", v)]) errorMessage errorType = Ok tt.
Proof.
  intros Hv. unfold validateApiResponse; simpl. rewrite Hv. split; reflexivity.
Qed.

(** C10: for every truthy value [v], the validation of [{number: v}] and
    of [{hash: v}] succeeds, whatever the format of [v]; so
    [fetchBlockNumber] returns any truthy [result] that a success response
    brings within the timeout, and [fetchTransactionHash] returns any
    truthy first element of [transactions]. *)
Theorem C10_single_marker_skips_format_rules :
  (forall (v : JsVal) (errorMessage errorType : string),
      truthy v = true ->
      validateApiResponse (JObj [("number", v)]) errorMessage errorType
      = Ok tt
      /\ validateApiResponse (JObj [("hash", v)]) errorMessage errorType
         = Ok tt)
  /\ (forall (net : Network) (DEFAULT_TIMEOUT : N) (nodeUrl : string)
             (w : World) (latency : N) (data : JsVal),
      net (List.length (posted w)) nodeUrl
          (mkRequest "2.0" "eth_blockNumber" [] 1)
      = (latency, HttpOk data) ->
      nullish data = false ->
      truthy (getProp data "error") = false ->
      truthy (getProp data "result") = true ->
      settlesFirst latency DEFAULT_TIMEOUT = true ->
      RpcAPIClient.fetchBlockNumber net DEFAULT_TIMEOUT nodeUrl w
      = (Ok (getProp data "result"),
         mkWorld (now w + latency)%N
           (posted w
            ++ [(nodeUrl, mkRequest "2.0" "eth_blockNumber" [] 1)])))
  /\ (forall (DEFAULT_TIMEOUT : N) (blockDetails v : JsVal)
             (rest : list JsVal) (w : World),
      getProp blockDetails "transactions" = JArr (v :: rest) ->
      truthy v = true ->
      RpcAPIClient.fetchTransactionHash DEFAULT_TIMEOUT blockDetails w
      = (Ok v, w)).
Proof.
  split; [exact validate_single_marker|]. split.
  - intros net T nodeUrl w latency data Hreply Hdata Herr Hres Hfirst.
    unfold RpcAPIClient.fetchBlockNumber. unfold bind at 1.
    rewrite (retryApiRequest_first_try _ 2 _ _ w
               (mkWorld (now w + latency)%N
                  (posted w
                   ++ [(nodeUrl, mkRequest "2.0" "eth_blockNumber" [] 1)]))
               (getProp data "result")); [ | lia | ].
    + unfold bind, lift, ret.
      rewrite (proj1 (validate_single_marker _ _ _ Hres)). reflexivity.
    + apply apiRequestWithTimeout_returns.
      * apply callRpcMethod_returns; assumption.
      * cbn [clock Clock_World now]. rewrite elapsed_after_latency.
        exact Hfirst.
  - intros T blockDetails v rest w Htxs Hv.
    assert (Hbd : truthy blockDetails = true).
    { destruct blockDetails; simpl in Htxs; try discriminate; reflexivity. }
    unfold RpcAPIClient.fetchTransactionHash, RpcAPIClient.noTransactions.
    rewrite Htxs, Hbd. cbn [truthy negb orb getProp String.eqb Ascii.eqb
                            Bool.eqb List.length is_zero Z.of_nat getIndex nth].
    unfold bind at 1.
    rewrite (retryApiRequest_first_try _ 2 _ _ w w v); [ | lia | ].
    + unfold bind, lift, ret.
      rewrite (proj2 (validate_single_marker _ _ _ Hv)). reflexivity.
    + apply apiRequestWithTimeout_returns; [reflexivity|].
      rewrite N.sub_diag. reflexivity.
Qed.

Lemma C10_single_marker_skips_format_rules_witness :
  (validateApiResponse (JObj [("number", JStr "not hex")])
     "Failed to validate block number response" ErrorType.RPC = Ok tt
   /\ validateApiResponse (JObj [("hash", JStr "not hex")])
        "Failed to validate transaction hash" ErrorType.RPC = Ok tt)
  /\ RpcAPIClient.fetchBlockNumber (always 20 (successBody (JStr "not hex")))
       30000 "http://node" w0
     = (Ok (JStr "not hex"),
        mkWorld 20 [("http://node", mkRequest "2.0" "eth_blockNumber" [] 1)])
  /\ RpcAPIClient.fetchTransactionHash 30000
       (JObj [("transactions", JArr [JStr "not hex"])]) w0
     = (Ok (JStr "not hex"), w0).
Proof.
  split; [ | split].
  - split.
    + exact (proj1 (proj1 C10_single_marker_skips_format_rules
                      (JStr "not hex")
                      "Failed to validate block number response"
                      ErrorType.RPC eq_refl)).
    + exact (proj2 (proj1 C10_single_marker_skips_format_rules
                      (JStr "not hex")
                      "Failed to validate transaction hash"
                      ErrorType.RPC eq_refl)).
  - exact (proj1 (proj2 C10_single_marker_skips_format_rules)
             (always 20 (successBody (JStr "not hex"))) 30000%N "http://node"
             w0 20%N (successBody (JStr "not hex"))
             eq_refl eq_refl eq_refl eq_refl eq_refl).
  - exact (proj2 (proj2 C10_single_marker_skips_format_rules) 30000%N
             (JObj [("transactions", JArr [JStr "not hex"])])
             (JStr "not hex") [] w0 eq_refl eq_refl).
Defined.

(** C1, as the specification words it, fails: with a timeout of 100 ms and
    an endpoint that refuses the first request after 60 ms and answers the
    second after 60 ms more, [fetchBlockNumber] returns the block number at
    120 ms, whereas the timeout executor around the retry executor rejects
    at 100 ms; likewise, when the first reply takes 150 ms, the attempt
    times out at 100 ms and a second attempt, timed afresh, returns at
    110 ms.  No single budget of 100 ms bounds the loop. *)
Lemma C1_timeout_budget_is_per_attempt :
  (RpcAPIClient.fetchBlockNumber failsThenAnswers 100 "http://node" w0
   = (Ok (JStr "0x10"),
      mkWorld 120 [("http://node", mkRequest "2.0" "eth_blockNumber" [] 1);
                   ("http://node", mkRequest "2.0" "eth_blockNumber" [] 1)])
   /\ fst (spec_fetchBlockNumber failsThenAnswers 100 "http://node" w0)
      = Throw (Err (mkError RPCError "API request timed out"))
   /\ RpcAPIClient.fetchBlockNumber failsThenAnswers 100 "http://node" w0
      <> spec_fetchBlockNumber failsThenAnswers 100 "http://node" w0)
  /\ (RpcAPIClient.fetchBlockNumber slowThenFast 100 "http://node" w0
      = (Ok (JStr "0x10"),
         mkWorld 110
           [("http://node", mkRequest "2.0" "eth_blockNumber" [] 1);
            ("http://node", mkRequest "2.0" "eth_blockNumber" [] 1)])
      /\ fst (spec_fetchBlockNumber slowThenFast 100 "http://node" w0)
         = Throw (Err (mkError RPCError "API request timed out"))).
Proof.
  repeat split; try (vm_compute; reflexivity).
  vm_compute. discriminate.
Qed.

(** ** Time and requests spent by an operation *)

Lemma advances_refl (w : World) (requests : nat) : advances w w requests.
Proof.
  split; [lia|]. exists []. rewrite app_nil_r. split; [reflexivity|].
  simpl; lia.
Qed.

Lemma within_weaken (w w' : World) (budget budget' : N) (k k' : nat) :
  within w w' budget k -> (budget <= budget')%N -> k <= k' ->
  within w w' budget' k'.
Proof.
  intros [[Hnow [sent [Hsent Hlen]]] Hbound] Hb Hk.
  repeat split; [exact Hnow | | lia].
  exists sent. split; [exact Hsent | lia].
Qed.

Lemma within_trans (w w1 w2 : World) (b1 b2 : N) (k1 k2 : nat) :
  within w w1 b1 k1 -> within w1 w2 b2 k2 ->
  within w w2 (b1 + b2) (k1 + k2).
Proof.
  intros [[Hnow1 [sent1 [Hsent1 Hlen1]]] Hbound1]
         [[Hnow2 [sent2 [Hsent2 Hlen2]]] Hbound2].
  repeat split; [lia | | lia].
  exists (sent1 ++ sent2). split.
  - rewrite Hsent2, Hsent1, app_assoc. reflexivity.
  - rewrite length_app. lia.
Qed.

Lemma createRequest_world (net : Network) (method : string)
    (params : list JsVal) (id : Z) (nodeUrl : string) (w : World) :
  snd (RpcFactory.createRequest net method params id nodeUrl w)
  = mkWorld
      (now w + fst (net (List.length (posted w)) nodeUrl
                        (mkRequest "2.0" method params id)))%N
      (posted w ++ [(nodeUrl, mkRequest "2.0" method params id)]).
Proof.
  unfold RpcFactory.createRequest, try_catch, bind, axios_post, lift,
    getPropChecked, throw, ret.
  destruct (net (List.length (posted w)) nodeUrl
                (mkRequest "2.0" method params id)) as [latency [data | msg]];
    [ | reflexivity].
  cbn [getProp lookup String.eqb Ascii.eqb Bool.eqb fst].
  destruct (nullish data); [reflexivity|].
  destruct (truthy (getProp data "error")); reflexivity.
Qed.

Lemma callRpcMethod_advances (net : Network) (nodeUrl method : string)
    (params : list JsVal) (w : World) :
  advances w (snd (RpcFactory.callRpcMethod net nodeUrl method params w)) 1.
Proof.
  assert (Hworld :
    snd (RpcFactory.callRpcMethod net nodeUrl method params w)
    = snd (RpcFactory.createRequest net method params 1 nodeUrl w)).
  { unfold RpcFactory.callRpcMethod, bind.
    destruct (RpcFactory.createRequest net method params 1 nodeUrl w)
      as [[response | e] w1]; reflexivity. }
  rewrite Hworld, createRequest_world. split; simpl.
  - lia.
  - eexists. split; [reflexivity|]. simpl; lia.
Qed.

(** One race: whatever the action takes, the attempt is over within the
    timeout. *)
Lemma attempt_within_timeout {A : Type} (action : Async World A)
    (timeout : N) (errorMessage errorType : string) (w : World)
    (requests : nat) :
  advances w (snd (action w)) requests ->
  within w
    (snd (apiRequestWithTimeout action timeout errorMessage errorType w))
    timeout requests.
Proof.
  intros [Hnow [sent [Hsent Hlen]]].
  unfold apiRequestWithTimeout, try_catch, race, settlesFirst, throw.
  destruct (action w) as [r w1]. cbn [snd] in *.
  cbn [clock set_clock Clock_World].
  destruct (now w1 - now w =? 0)%N eqn:Hzero;
    [ | destruct (now w1 - now w <=? timeout)%N eqn:Hle ]; cbn [orb].
  - apply N.eqb_eq in Hzero.
    assert (within w w1 timeout requests).
    { repeat split; [exact Hnow | exists sent; auto | lia]. }
    destruct r; assumption.
  - apply N.leb_le in Hle.
    assert (within w w1 timeout requests).
    { repeat split; [exact Hnow | exists sent; auto | lia]. }
    destruct r; assumption.
  - repeat split; cbn [now posted snd]; [lia | exists sent; auto | lia].
Qed.

(** Two attempts at most, each within its own budget. *)
Lemma retry_twice_within {A : Type} (attempt : Async World A)
    (budget : N) (requests : nat) (errorMessage errorType : string) :
  (forall w, within w (snd (attempt w)) budget requests) ->
  forall w,
    within w (snd (retryApiRequest attempt 2 errorMessage errorType w))
           (budget + budget) (requests + requests).
Proof.
  intros Hattempt w.
  unfold retryApiRequest. cbn [Nat.sub retry_loop Nat.ltb Nat.leb].
  unfold try_catch, throw.
  pose proof (Hattempt w) as H1.
  destruct (attempt w) as [[v | e] w1]; cbn [snd] in *.
  - apply (within_weaken _ _ _ _ _ _ H1); lia.
  - pose proof (Hattempt w1) as H2.
    destruct (attempt w1) as [[v | e2] w2]; cbn [snd] in *;
      exact (within_trans _ _ _ _ _ _ _ H1 H2).
Qed.

Lemma thenValidate_world {A : Type} (m : Async World A)
    (payload : A -> JsVal) (errorMessage : string) (w : World) :
  snd (thenValidate m payload errorMessage w) = snd (m w).
Proof.
  unfold thenValidate, bind, lift, ret.
  destruct (m w) as [[r | e] w1]; [ | reflexivity].
  destruct (validateApiResponse (payload r) errorMessage ErrorType.RPC);
    reflexivity.
Qed.

Lemma retryAroundTimeout_within {A : Type} (action : Async World A)
    (timeout : N) (attemptMessage retryMessage : string) (requests : nat) :
  (forall w, advances w (snd (action w)) requests) ->
  forall w,
    within w
      (snd (retryAroundTimeout action timeout attemptMessage retryMessage w))
      (2 * timeout) (requests + requests).
Proof.
  intros Hadv w. unfold retryAroundTimeout.
  replace (2 * timeout)%N with (timeout + timeout)%N by lia.
  apply retry_twice_within. intros w1.
  apply attempt_within_timeout, Hadv.
Qed.

(** C1 (amended): each of the four operations of the client is the retry
    executor, with 2 attempts, applied around the timeout executor applied
    around the call (a transport call for three of them; for
    [fetchTransactionHash], behind its guard, the read of
    [transactions[0]]), followed by the validation of the response.  So the
    timeout bounds each attempt on its own, and an operation is over within
    two timeouts, having posted at most two requests. *)
Theorem C1_retry_around_timeout (net : Network) (DEFAULT_TIMEOUT : N)
    (nodeUrl : string) :
  (RpcAPIClient.fetchBlockNumber net DEFAULT_TIMEOUT nodeUrl
   = thenValidate
       (retryAroundTimeout
          (RpcFactory.callRpcMethod net nodeUrl "eth_blockNumber" [])
          DEFAULT_TIMEOUT
          ("Failed to fetch block number for - " ++ nodeUrl)
          "Failed to fetch block number after retries")
       (fun blockNumber => JObj [("number", blockNumber)])
       "Failed to validate block number response")
  /\ (forall blockNumber,
      RpcAPIClient.fetchBlockDetails net DEFAULT_TIMEOUT nodeUrl blockNumber
      = thenValidate
          (retryAroundTimeout
             (RpcFactory.callRpcMethod net nodeUrl "eth_getBlockByNumber"
                [blockNumber; JBool false])
             DEFAULT_TIMEOUT
             ("Failed to fetch block details for block number - "
              ++ ToString blockNumber)
             ("Failed to fetch block details for block number - "
              ++ ToString blockNumber ++ " after retries"))
          (fun blockDetails => blockDetails)
          "Failed to validate block details response")
  /\ (forall blockDetails,
      RpcAPIClient.noTransactions blockDetails = false ->
      RpcAPIClient.fetchTransactionHash DEFAULT_TIMEOUT blockDetails
      = thenValidate
          (retryAroundTimeout
             (ret (getIndex (getProp blockDetails "transactions") 0))
             DEFAULT_TIMEOUT
             "Failed to fetch transaction hash"
             "Failed to fetch transaction hash after retries")
          (fun transactionHash => JObj [("hash", transactionHash)])
          "Failed to validate transaction hash")
  /\ (forall transactionHash,
      RpcAPIClient.fetchTransactionDetails net DEFAULT_TIMEOUT nodeUrl
        transactionHash
      = thenValidate
          (retryAroundTimeout
             (RpcFactory.callRpcMethod net nodeUrl "eth_getTransactionByHash"
                [transactionHash])
             DEFAULT_TIMEOUT
             ("Failed to fetch transaction details for transaction hash - "
              ++ ToString transactionHash)
             ("Failed to fetch transaction details for transaction hash after retries "
              ++ ToString transactionHash))
          (fun transactionDetails => transactionDetails)
          "Failed to validate transaction details response")
  /\ (forall (method : string) (params : list JsVal)
             (errorMessage : string) (w : World),
      within w
        (snd (apiRequestWithTimeout
                (RpcFactory.callRpcMethod net nodeUrl method params)
                DEFAULT_TIMEOUT errorMessage ErrorType.RPC w))
        DEFAULT_TIMEOUT 1)
  /\ (forall w,
      within w (snd (RpcAPIClient.fetchBlockNumber net DEFAULT_TIMEOUT
                       nodeUrl w))
             (2 * DEFAULT_TIMEOUT) 2)
  /\ (forall blockNumber w,
      within w (snd (RpcAPIClient.fetchBlockDetails net DEFAULT_TIMEOUT
                       nodeUrl blockNumber w))
             (2 * DEFAULT_TIMEOUT) 2)
  /\ (forall blockDetails w,
      within w (snd (RpcAPIClient.fetchTransactionHash DEFAULT_TIMEOUT
                       blockDetails w))
             (2 * DEFAULT_TIMEOUT) 0)
  /\ (forall transactionHash w,
      within w (snd (RpcAPIClient.fetchTransactionDetails net
                       DEFAULT_TIMEOUT nodeUrl transactionHash w))
             (2 * DEFAULT_TIMEOUT) 2).
Proof.
  split; [reflexivity|].
  split; [reflexivity|].
  split.
  { intros blockDetails Hguard.
    unfold RpcAPIClient.fetchTransactionHash. rewrite Hguard. reflexivity. }
  split; [reflexivity|].
  split.
  { intros method params errorMessage w.
    apply attempt_within_timeout, callRpcMethod_advances. }
  split.
  { intros w.
    change (RpcAPIClient.fetchBlockNumber net DEFAULT_TIMEOUT nodeUrl)
      with (thenValidate
              (retryAroundTimeout
                 (RpcFactory.callRpcMethod net nodeUrl "eth_blockNumber" [])
                 DEFAULT_TIMEOUT
                 ("Failed to fetch block number for - " ++ nodeUrl)
                 "Failed to fetch block number after retries")
              (fun blockNumber => JObj [("number", blockNumber)])
              "Failed to validate block number response").
    rewrite thenValidate_world.
    apply (retryAroundTimeout_within _ _ _ _ 1).
    intros w1. apply callRpcMethod_advances. }
  split.
  { intros blockNumber w.
    change (RpcAPIClient.fetchBlockDetails net DEFAULT_TIMEOUT nodeUrl
              blockNumber)
      with (thenValidate
              (retryAroundTimeout
                 (RpcFactory.callRpcMethod net nodeUrl "eth_getBlockByNumber"
                    [blockNumber; JBool false])
                 DEFAULT_TIMEOUT
                 ("Failed to fetch block details for block number - "
                  ++ ToString blockNumber)
                 ("Failed to fetch block details for block number - "
                  ++ ToString blockNumber ++ " after retries"))
              (fun blockDetails => blockDetails)
              "Failed to validate block details response").
    rewrite thenValidate_world.
    apply (retryAroundTimeout_within _ _ _ _ 1).
    intros w1. apply callRpcMethod_advances. }
  split.
  { intros blockDetails w.
    unfold RpcAPIClient.fetchTransactionHash.
    destruct (RpcAPIClient.noTransactions blockDetails).
    - split; [apply advances_refl | cbn [throw snd]; lia].
    - change (within w
                (snd (thenValidate
                        (retryAroundTimeout
                           (ret (getIndex
                                   (getProp blockDetails "transactions") 0))
                           DEFAULT_TIMEOUT
                           "Failed to fetch transaction hash"
                           "Failed to fetch transaction hash after retries")
                        (fun transactionHash =>
                           JObj [("hash", transactionHash)])
                        "Failed to validate transaction hash" w))
                (2 * DEFAULT_TIMEOUT) 0).
      rewrite thenValidate_world.
      apply (retryAroundTimeout_within _ _ _ _ 0).
      intros w1. apply advances_refl. }
  intros transactionHash w.
  change (RpcAPIClient.fetchTransactionDetails net DEFAULT_TIMEOUT nodeUrl
            transactionHash)
    with (thenValidate
            (retryAroundTimeout
               (RpcFactory.callRpcMethod net nodeUrl
                  "eth_getTransactionByHash" [transactionHash])
               DEFAULT_TIMEOUT
               ("Failed to fetch transaction details for transaction hash - "
                ++ ToString transactionHash)
               ("Failed to fetch transaction details for transaction hash after retries "
                ++ ToString transactionHash))
            (fun transactionDetails => transactionDetails)
            "Failed to validate transaction details response").
  rewrite thenValidate_world.
  apply (retryAroundTimeout_within _ _ _ _ 1).
  intros w1. apply callRpcMethod_advances.
Qed.

Lemma C1_retry_around_timeout_witness :
  RpcAPIClient.fetchTransactionHash 100 fullBlock
  = thenValidate
      (retryAroundTimeout
         (ret (getIndex (getProp fullBlock "transactions") 0))
         100
         "Failed to fetch transaction hash"
         "Failed to fetch transaction hash after retries")
      (fun transactionHash => JObj [("hash", transactionHash)])
      "Failed to validate transaction hash".
Proof.
  apply (proj1 (proj2 (proj2
           (C1_retry_around_timeout failsThenAnswers 100 "http://node")))
           fullBlock).
  reflexivity.
Defined.

(* ================================================================== *)
(** * Further properties of validateApiResponse                         *)
(* ================================================================== *)

(** A value with a truthy property other than [length] is truthy itself
    (it is an object). *)
Lemma truthy_getProp_receiver (response : JsVal) (key : string) :
  (key =? "length") = false ->
  truthy (getProp response key) = true ->
  truthy response = true.
Proof.
  intros Hkey. destruct response; simpl; rewrite ?Hkey;
    try discriminate; reflexivity.
Qed.

(** X1: [validateApiResponse] accepts a response exactly when it is
    truthy, carries no truthy [error], passes the block rule and the
    transaction rule, and has one of the marker fields [number], [hash],
    [transactionIndex] truthy.  Nothing else is looked at: other fields may
    be missing or have any value. *)
Theorem validateApiResponse_accepts_iff (response : JsVal)
    (errorMessage errorType : string) :
  is_ok (validateApiResponse response errorMessage errorType)
  = truthy response
    && negb (truthy (getProp response "error"))
    && blockRulePasses response
    && txRulePasses response
    && hasMarker response.
Proof.
  unfold validateApiResponse, blockRulePasses, txRulePasses, hasMarker.
  destruct (truthy response); [ | reflexivity].
  destruct (truthy (getProp response "error")); [reflexivity|].
  destruct (truthy (getProp response "number"));
    destruct (truthy (getProp response "hash"));
    destruct (test matchesHex (getProp response "number"));
    destruct (test (matchesHexN 64) (getProp response "hash"));
    try reflexivity;
    destruct (truthy (getProp response "transactionIndex"));
    destruct (truthy (getProp response "from"));
    destruct (truthy (getProp response "to"));
    try reflexivity;
    destruct (test (matchesHexN 40) (getProp response "from"));
    destruct (is_null (getProp response "to"));
    destruct (test (matchesHexN 40) (getProp response "to"));
    destruct (test matchesHex (getProp response "transactionIndex"));
    reflexivity.
Qed.

Lemma validateApiResponse_thrown_is_wrapped (response : JsVal)
    (errorMessage errorType : string) (thrown : Thrown) :
  validateApiResponse response errorMessage errorType = Throw thrown ->
  exists msg : string,
    thrown = Err (handleError (new_Error msg) errorMessage errorType).
Proof.
  unfold validateApiResponse, raise.
  assert (Hcat : forall msg,
             exists msg0 : string,
               Err (handleError (new_Error msg) errorMessage errorType)
               = Err (handleError (new_Error msg0) errorMessage errorType)).
  { intros msg. exists msg. reflexivity. }
  destruct (truthy response); cbn [negb obind];
    [ | intros H; injection H as <-; apply Hcat].
  destruct (truthy (getProp response "error")); cbn [obind];
    [intros H; injection H as <-; apply Hcat|].
  destruct (truthy (getProp response "number")
            && truthy (getProp response "hash")); cbn [obind].
  - destruct (test matchesHex (getProp response "number")); cbn [negb obind];
      [ | intros H; injection H as <-; apply Hcat].
    destruct (test (matchesHexN 64) (getProp response "hash"));
      cbn [negb obind];
      [ | intros H; injection H as <-; apply Hcat].
    destruct (truthy (getProp response "transactionIndex")
              && truthy (getProp response "from")
              && truthy (getProp response "to")); cbn [obind].
    + destruct (test (matchesHexN 40) (getProp response "from"));
        cbn [negb obind];
        [ | intros H; injection H as <-; apply Hcat].
      destruct (negb (is_null (getProp response "to"))
                && negb (test (matchesHexN 40) (getProp response "to")));
        cbn [obind];
        [intros H; injection H as <-; apply Hcat|].
      destruct (test matchesHex (getProp response "transactionIndex"));
        cbn [negb obind];
        [ | intros H; injection H as <-; apply Hcat].
      destruct (negb (truthy (getProp response "number"))
                && negb (truthy (getProp response "hash"))
                && negb (truthy (getProp response "transactionIndex")));
        [intros H; injection H as <-; apply Hcat | discriminate].
    + destruct (negb (truthy (getProp response "number"))
                && negb (truthy (getProp response "hash"))
                && negb (truthy (getProp response "transactionIndex")));
        [intros H; injection H as <-; apply Hcat | discriminate].
  - destruct (truthy (getProp response "transactionIndex")
              && truthy (getProp response "from")
              && truthy (getProp response "to")); cbn [obind].
    + destruct (test (matchesHexN 40) (getProp response "from"));
        cbn [negb obind];
        [ | intros H; injection H as <-; apply Hcat].
      destruct (negb (is_null (getProp response "to"))
                && negb (test (matchesHexN 40) (getProp response "to")));
        cbn [obind];
        [intros H; injection H as <-; apply Hcat|].
      destruct (test matchesHex (getProp response "transactionIndex"));
        cbn [negb obind];
        [ | intros H; injection H as <-; apply Hcat].
      destruct (negb (truthy (getProp response "number"))
                && negb (truthy (getProp response "hash"))
                && negb (truthy (getProp response "transactionIndex")));
        [intros H; injection H as <-; apply Hcat | discriminate].
    + destruct (negb (truthy (getProp response "number"))
                && negb (truthy (getProp response "hash"))
                && negb (truthy (getProp response "transactionIndex")));
        [intros H; injection H as <-; apply Hcat | discriminate].
Qed.


(** X2: for a response whose converted fields (the message of its
    [error] and the fields tested against the patterns) are printable,
    [null] and [undefined] included, whatever [validateApiResponse] throws
    was made by [handleError] from a plain [Error]: it is an error of the
    class named by [errorType], never a [TypeError] or a plain [Error]. *)
Theorem validateApiResponse_fails_in_category (response : JsVal)
    (errorMessage errorType : string) (thrown : Thrown) :
  printableFields response = true ->
  validateApiResponse response errorMessage errorType = Throw thrown ->
  exists msg : string,
    thrown = Err (handleError (new_Error msg) errorMessage errorType)
    /\ name (handleError (new_Error msg) errorMessage errorType) <> Error
    /\ name (handleError (new_Error msg) errorMessage errorType)
       <> TypeError.
Proof.
  intros _ Hthrown.
  destruct (validateApiResponse_thrown_is_wrapped _ _ _ _ Hthrown)
    as [msg ->].
  exists msg. split; [reflexivity|]. apply handleError_not_plain.
Qed.

Lemma validateApiResponse_fails_in_category_witness :
  exists msg : string,
    Err (mkError RPCError "Response is null or undefined")
    = Err (handleError (new_Error msg) "Invalid API response" ErrorType.RPC)
    /\ name (handleError (new_Error msg) "Invalid API response"
               ErrorType.RPC) <> Error
    /\ name (handleError (new_Error msg) "Invalid API response"
               ErrorType.RPC) <> TypeError.
Proof.
  apply (validateApiResponse_fails_in_category JNull
           "Invalid API response" ErrorType.RPC); reflexivity.
Defined.

(** X3: a truthy [error] field whose [message] is printable decides the
    outcome before any format rule: the validation fails with
    "RPC Error: " followed by [error.message] as a string, whatever the
    other fields hold (for an [error] without a message,
    "RPC Error: undefined"). *)
Theorem validateApiResponse_error_field_first (response : JsVal)
    (errorMessage errorType : string) :
  truthy (getProp response "error") = true ->
  printable (getProp (getProp response "error") "message") = true ->
  validateApiResponse response errorMessage errorType
  = Throw (Err (handleError
      (new_Error ("RPC Error: "
                  ++ ToString (getProp (getProp response "error") "message")))
      errorMessage errorType)).
Proof.
  intros Herr _.
  pose proof (truthy_getProp_receiver response "error" eq_refl Herr)
    as Hresp.
  unfold validateApiResponse. rewrite Hresp, Herr. reflexivity.
Qed.

Lemma validateApiResponse_error_field_first_witness :
  validateApiResponse
    (JObj [("number", JStr "0x10"); ("hash", JStr hash64);
           ("error", JObj [("code", JNum (-32000))])])
    "Invalid API response" ErrorType.RPC
  = Throw (Err (mkError RPCError "RPC Error: undefined")).
Proof.
  apply (validateApiResponse_error_field_first
           (JObj [("number", JStr "0x10"); ("hash", JStr hash64);
                  ("error", JObj [("code", JNum (-32000))])])
           "Invalid API response" ErrorType.RPC); reflexivity.
Defined.

(* ================================================================== *)
(** * Further properties of handleError and the two executors           *)
(* ================================================================== *)

(** X4: wrapping twice is wrapping once with the outer category: the
    error made from an error that [handleError] made has the class of the
    outer [errorType] and the message of the original (or "Unknown error"
    when the original was not an [Error]).  This is what the nesting of the
    executors in the client relies on. *)
Theorem handleError_rewrap (thrown : Thrown)
    (innerMessage innerType outerMessage outerType : string) :
  handleError (Err (handleError thrown innerMessage innerType))
              outerMessage outerType
  = handleError thrown outerMessage outerType.
Proof.
  unfold handleError.
  destruct (innerType =? "RPC");
    [ | destruct (innerType =? "WALLET_API");
        [ | destruct (innerType =? "USER_API") ] ];
    reflexivity.
Qed.

(** X5: an action that settles strictly later than [timeout] ms after
    the call loses the race: [apiRequestWithTimeout] fails at the deadline,
    exactly [timeout] ms after it was called, with the message
    "API request timed out" in the class named by [errorType]; the action
    is not undone (the requests it posted stay posted) and its own outcome,
    value or error, is dropped. *)
Theorem apiRequestWithTimeout_deadline {A : Type} (action : Async World A)
    (timeout : N) (errorMessage errorType : string) (w : World) :
  (now w + timeout < now (snd (action w)))%N ->
  apiRequestWithTimeout action timeout errorMessage errorType w
  = (Throw (Err (handleError (new_Error "API request timed out")
                             errorMessage errorType)),
     mkWorld (now w + timeout) (posted (snd (action w))))
  /\ message (handleError (new_Error "API request timed out")
                          errorMessage errorType)
     = "API request timed out".
Proof.
  intros Hlate. split; [ | apply handleError_message].
  rewrite apiRequestWithTimeout_times_out; [reflexivity|].
  cbn [clock Clock_World]. unfold settlesFirst.
  apply orb_false_intro.
  - apply N.eqb_neq. lia.
  - apply N.leb_gt. lia.
Qed.

Lemma apiRequestWithTimeout_deadline_witness :
  apiRequestWithTimeout
    (RpcFactory.callRpcMethod slowThenFast "http://node" "eth_blockNumber" [])
    100 "Failed to fetch block number" ErrorType.RPC w0
  = (Throw (Err (handleError (new_Error "API request timed out")
                   "Failed to fetch block number" ErrorType.RPC)),
     mkWorld 100 [("http://node", mkRequest "2.0" "eth_blockNumber" [] 1)])
  /\ message (handleError (new_Error "API request timed out")
                "Failed to fetch block number" ErrorType.RPC)
     = "API request timed out".
Proof.
  apply (apiRequestWithTimeout_deadline
           (RpcFactory.callRpcMethod slowThenFast "http://node"
              "eth_blockNumber" [])
           100 "Failed to fetch block number" ErrorType.RPC w0).
  vm_compute. reflexivity.
Defined.

Section RetryMore.

Context {W A : Type}.
Variable action : Async W A.
Variables errorMessage errorType : string.

Lemma retry_loop_counter_bounds (retries : nat) :
  forall (remaining attempts c : nat) (w : W),
    attempts + remaining = retries ->
    fst (snd (retry_loop (counted action) retries errorMessage
                         errorType attempts remaining (c, w)))
    <= c + remaining
    /\ (1 <= remaining ->
        c + 1 <= fst (snd (retry_loop (counted action) retries errorMessage
                                      errorType attempts remaining (c, w)))).
Proof.
  induction remaining as [|remaining IH]; intros attempts c w Hvar.
  - cbn [retry_loop throw fst snd]. split; lia.
  - cbn [retry_loop].
    assert (Hlt : (attempts <? retries)%nat = true)
      by (apply Nat.ltb_lt; lia).
    assert (Hc : counted action (c, w)
                 = (fst (action w), (S c, snd (action w))))
      by (unfold counted; cbn [fst snd]; destruct (action w); reflexivity).
    rewrite Hlt. unfold try_catch. rewrite Hc.
    destruct (action w) as [[v | e] w1]; cbn [fst snd].
    + split; lia.
    + destruct (retries <=? S attempts)%nat; cbn [throw fst snd].
      * split; lia.
      * destruct (IH (S attempts) (S c) w1 ltac:(lia)) as [Hup Hlow].
        split; [lia|]. intros _.
        destruct remaining as [|remaining'].
        -- cbn [retry_loop throw fst snd]. lia.
        -- specialize (Hlow ltac:(lia)). lia.
Qed.

Lemma retry_loop_failure_is_wrapped (retries : nat) :
  forall (remaining attempts : nat) (w : W) (thrown : Thrown),
    fst (retry_loop action retries errorMessage errorType attempts
                    remaining w) = Throw thrown ->
    exists e : Thrown,
      thrown = Err (handleError e errorMessage errorType).
Proof.
  induction remaining as [|remaining IH]; intros attempts w thrown; simpl.
  - intros H. injection H as <-. eexists; reflexivity.
  - destruct (attempts <? retries)%nat;
      [ | intros H; injection H as <-; eexists; reflexivity].
    unfold try_catch. destruct (action w) as [[v | e] w1]; cbn [fst].
    + discriminate.
    + destruct (retries <=? S attempts)%nat.
      * intros H. injection H as <-. eexists; reflexivity.
      * apply IH.
Qed.

(** Either the first [n] invocations all fail, or there is a first one
    among them that succeeds. *)
Lemma first_success_or_all_fail (w : W) (n : nat) :
  (forall i, i < n -> is_ok (outcome_of action w i) = false)
  \/ exists (k : nat) (v : A),
       k < n /\ outcome_of action w k = Ok v
       /\ forall i, i < k -> is_ok (outcome_of action w i) = false.
Proof.
  induction n as [|n IH].
  - left. intros i Hi. lia.
  - destruct IH as [Hall | [k [v [Hk [Hok Hbefore]]]]].
    + destruct (outcome_of action w n) as [v | e] eqn:Hn.
      * right. exists n, v. repeat split; [lia | exact Hn | exact Hall].
      * left. intros i Hi.
        destruct (Nat.eq_dec i n) as [-> | Hne];
          [rewrite Hn; reflexivity | apply Hall; lia].
    + right. exists k, v. repeat split; [lia | exact Hok | exact Hbefore].
Qed.

End RetryMore.

(** X6: whatever the action does, [retryApiRequest(action, n)] invokes it
    at most [n] times, and at least once when [n >= 1]. *)
Theorem retryApiRequest_invocation_bounds {W A : Type} (action : Async W A)
    (n : nat) (errorMessage errorType : string) (w : W) :
  fst (snd (retryApiRequest (counted action) n errorMessage errorType
                            (0, w))) <= n
  /\ (1 <= n ->
      1 <= fst (snd (retryApiRequest (counted action) n errorMessage
                                     errorType (0, w)))).
Proof.
  unfold retryApiRequest. rewrite Nat.sub_0_r.
  destruct (retry_loop_counter_bounds action errorMessage errorType n n 0 0 w
              eq_refl) as [Hup Hlow].
  split; [exact Hup | intros Hn; apply Hlow; exact Hn].
Qed.

Lemma retryApiRequest_invocation_bounds_witness :
  fst (snd (retryApiRequest (counted (failingFirst 1 (JStr "0x10"))) 3
              "Failed to execute API request after retries"
              ErrorType.RPC (0, 0))) <= 3
  /\ (1 <= 3 ->
      1 <= fst (snd (retryApiRequest (counted (failingFirst 1 (JStr "0x10")))
                       3 "Failed to execute API request after retries"
                       ErrorType.RPC (0, 0)))).
Proof.
  exact (retryApiRequest_invocation_bounds (failingFirst 1 (JStr "0x10")) 3
           "Failed to execute API request after retries" ErrorType.RPC 0).
Defined.

(** X7: every failure of [retryApiRequest] was made by [handleError]: it
    is an error of the class named by [errorType], never the action's own
    error object and never a plain [Error]. *)
Theorem retryApiRequest_failure_is_wrapped {W A : Type}
    (action : Async W A) (n : nat) (errorMessage errorType : string)
    (w : W) (thrown : Thrown) :
  fst (retryApiRequest action n errorMessage errorType w) = Throw thrown ->
  exists e : Thrown,
    thrown = Err (handleError e errorMessage errorType)
    /\ name (handleError e errorMessage errorType) <> Error.
Proof.
  intros Hfail.
  destruct (retry_loop_failure_is_wrapped action errorMessage errorType n
              _ _ _ _ Hfail) as [e He].
  exists e. split; [exact He | apply handleError_not_plain].
Qed.

Lemma retryApiRequest_failure_is_wrapped_witness :
  exists e : Thrown,
    Err (mkError RPCError "boom")
    = Err (handleError e "Failed to execute API request after retries"
             ErrorType.RPC)
    /\ name (handleError e "Failed to execute API request after retries"
               ErrorType.RPC) <> Error.
Proof.
  apply (retryApiRequest_failure_is_wrapped boom 2
           "Failed to execute API request after retries" ErrorType.RPC w0).
  reflexivity.
Defined.

(** X8: when [retryApiRequest(action, n)] returns a value, that value was
    returned by an invocation of [action] among the first [n], every
    earlier invocation failed, and no later one was made. *)
Theorem retryApiRequest_success_origin {W A : Type} (action : Async W A)
    (n : nat) (errorMessage errorType : string) (w w' : W) (v : A)
    (c : nat) :
  retryApiRequest (counted action) n errorMessage errorType (0, w)
  = (Ok v, (c, w')) ->
  exists k : nat,
    c = S k /\ k < n
    /\ outcome_of action w k = Ok v
    /\ (forall i, i < k -> is_ok (outcome_of action w i) = false)
    /\ w' = world_after action w (S k).
Proof.
  intros Hrun.
  destruct (first_success_or_all_fail action w n)
    as [Hall | [k [v' [Hk [Hok Hbefore]]]]].
  - unfold retryApiRequest in Hrun. rewrite Nat.sub_0_r in Hrun.
    destruct n as [|m].
    + cbn [retry_loop throw] in Hrun. discriminate.
    + destruct (retry_loop_exhausts action errorMessage errorType (S m)
                  m 0 0 w eq_refl Hall) as [e [_ Hfail]].
      rewrite Hfail in Hrun. discriminate.
  - pose proof (retry_loop_succeeds action errorMessage errorType n k 0 n 0
                  w v' eq_refl Hk Hbefore Hok) as Hsucc.
    unfold retryApiRequest in Hrun. rewrite Nat.sub_0_r in Hrun.
    rewrite Hsucc in Hrun. injection Hrun as Hv Hc Hw. subst v c w'.
    exists k. repeat split; assumption.
Qed.

Lemma retryApiRequest_success_origin_witness :
  exists k : nat,
    3 = S k /\ k < 3
    /\ outcome_of (failingFirst 2 (JStr "0x10")) 0 k = Ok (JStr "0x10")
    /\ (forall i, i < k ->
          is_ok (outcome_of (failingFirst 2 (JStr "0x10")) 0 i) = false)
    /\ 3 = world_after (failingFirst 2 (JStr "0x10")) 0 (S k).
Proof.
  apply (retryApiRequest_success_origin (failingFirst 2 (JStr "0x10")) 3
           "Failed to execute API request after retries" ErrorType.RPC
           0 3 (JStr "0x10") 3).
  reflexivity.
Defined.

(* ================================================================== *)
(** * Further properties of RpcFactory                                  *)
(* ================================================================== *)

(** Whatever the endpoint replies (a success, an error response, a
    body that is not an object, a failure of the connection),
    [createRequest] posts exactly one request, to [nodeUrl], with
    [jsonrpc] "2.0" and the method, the parameters and the id it was given,
    and is over when the reply arrives; [callRpcMethod] does the same with
    id 1. *)
Lemma createRequest_posts_one_request (net : Network) (method : string)
    (params : list JsVal) (id : Z) (nodeUrl : string) (w : World) :
  snd (RpcFactory.createRequest net method params id nodeUrl w)
  = mkWorld
      (now w + fst (net (List.length (posted w)) nodeUrl
                        (mkRequest "2.0" method params id)))
      (posted w ++ [(nodeUrl, mkRequest "2.0" method params id)])
  /\ snd (RpcFactory.callRpcMethod net nodeUrl method params w)
     = mkWorld
         (now w + fst (net (List.length (posted w)) nodeUrl
                           (mkRequest "2.0" method params 1)))
         (posted w ++ [(nodeUrl, mkRequest "2.0" method params 1)]).
Proof.
  split; [apply createRequest_world|].
  rewrite <- createRequest_world.
  unfold RpcFactory.callRpcMethod, bind.
  destruct (RpcFactory.createRequest net method params 1 nodeUrl w)
    as [[response | e] w1]; reflexivity.
Qed.

(** X9: the failures of the transport other than an error response.  A
    rejection of [axios.post] leaves [createRequest] as the same plain
    [Error], not wrapped; and a body that is [null] or [undefined] makes
    it fail with the [TypeError] of reading [error] off it. *)
Theorem createRequest_http_failure_and_empty_body (net : Network)
    (method : string) (params : list JsVal) (id : Z) (nodeUrl : string)
    (w : World) (latency : N) :
  (forall msg,
      net (List.length (posted w)) nodeUrl (mkRequest "2.0" method params id)
      = (latency, HttpFail msg) ->
      fst (RpcFactory.createRequest net method params id nodeUrl w)
      = Throw (Err (mkError Error msg)))
  /\ (forall data,
      net (List.length (posted w)) nodeUrl (mkRequest "2.0" method params id)
      = (latency, HttpOk data) ->
      nullish data = true ->
      fst (RpcFactory.createRequest net method params id nodeUrl w)
      = Throw (Err (mkError TypeError
                      ("Cannot read properties of " ++ ToString data
                       ++ " (reading 'error')")))).
Proof.
  split.
  - intros msg Hreply.
    rewrite (createRequest_http_failure net method params id nodeUrl w
               latency (HttpFail msg) Hreply msg eq_refl).
    reflexivity.
  - intros data Hreply Hnull.
    unfold RpcFactory.createRequest, try_catch, bind, axios_post, lift,
      getPropChecked, throw.
    rewrite Hreply.
    cbn [getProp lookup String.eqb Ascii.eqb Bool.eqb fst].
    rewrite Hnull. reflexivity.
Qed.

Lemma createRequest_http_failure_and_empty_body_witness :
  fst (RpcFactory.createRequest failsThenAnswers "eth_blockNumber" [] 1
         "http://node" w0)
  = Throw (Err (mkError Error "connect ECONNREFUSED"))
  /\ fst (RpcFactory.createRequest (always 20 JNull) "eth_blockNumber" [] 1
            "http://node" w0)
     = Throw (Err (mkError TypeError
                     "Cannot read properties of null (reading 'error')")).
Proof.
  split.
  - exact (proj1 (createRequest_http_failure_and_empty_body failsThenAnswers
                    "eth_blockNumber" [] 1 "http://node" w0 60%N)
                 "connect ECONNREFUSED" eq_refl).
  - exact (proj2 (createRequest_http_failure_and_empty_body (always 20 JNull)
                    "eth_blockNumber" [] 1 "http://node" w0 20%N)
                 JNull eq_refl eq_refl).
Defined.

(* ================================================================== *)
(** * Further properties of RpcAPIClient                                *)
(* ================================================================== *)

Lemma callRpcMethod_world (net : Network) (nodeUrl method : string)
    (params : list JsVal) (w : World) :
  snd (RpcFactory.callRpcMethod net nodeUrl method params w)
  = mkWorld
      (now w + fst (net (List.length (posted w)) nodeUrl
                        (mkRequest "2.0" method params 1)))
      (posted w ++ [(nodeUrl, mkRequest "2.0" method params 1)]).
Proof.
  rewrite <- createRequest_world.
  unfold RpcFactory.callRpcMethod, bind.
  destruct (RpcFactory.createRequest net method params 1 nodeUrl w)
    as [[response | e] w1]; reflexivity.
Qed.

Lemma handleError_RPC (thrown : Thrown) (contextMessage : string) :
  exists msg : string,
    handleError thrown contextMessage ErrorType.RPC = mkError RPCError msg.
Proof. eexists. reflexivity. Qed.

Lemma retry_twice_both_fail {W A : Type} (attempt : Async W A)
    (errorMessage errorType : string) (w w1 w2 : W) (e1 e2 : Thrown) :
  attempt w = (Throw e1, w1) ->
  attempt w1 = (Throw e2, w2) ->
  retryApiRequest attempt 2 errorMessage errorType w
  = (Throw (Err (handleError e2 errorMessage errorType)), w2).
Proof.
  intros H1 H2. unfold retryApiRequest.
  cbn [Nat.sub retry_loop Nat.ltb Nat.leb]. unfold try_catch.
  rewrite H1, H2. reflexivity.
Qed.

Lemma retry_twice_second_returns {W A : Type} (attempt : Async W A)
    (errorMessage errorType : string) (w w1 w2 : W) (e1 : Thrown) (v : A) :
  attempt w = (Throw e1, w1) ->
  attempt w1 = (Ok v, w2) ->
  retryApiRequest attempt 2 errorMessage errorType w = (Ok v, w2).
Proof.
  intros H1 H2. unfold retryApiRequest.
  cbn [Nat.sub retry_loop Nat.ltb Nat.leb]. unfold try_catch.
  rewrite H1, H2. reflexivity.
Qed.

(** What can leave [thenValidate m]: a failure of [m], or a failure of the
    validation. *)
Lemma thenValidate_failure {A : Type} (m : Async World A)
    (payload : A -> JsVal) (errorMessage : string) (w : World)
    (thrown : Thrown) :
  fst (thenValidate m payload errorMessage w) = Throw thrown ->
  fst (m w) = Throw thrown
  \/ exists r, validateApiResponse (payload r) errorMessage ErrorType.RPC
               = Throw thrown.
Proof.
  unfold thenValidate, bind, lift, ret.
  destruct (m w) as [[r | e] w1]; cbn [fst]; [ | intros H; left; exact H].
  destruct (validateApiResponse (payload r) errorMessage ErrorType.RPC)
    as [[] | e] eqn:Hval; cbn [fst]; [discriminate|].
  intros H. injection H as <-. right. exists r. exact Hval.
Qed.

Lemma thenValidate_retry_fails_with_RPCError {A : Type}
    (action : Async World A) (timeout : N)
    (attemptMessage retryMessage : string) (payload : A -> JsVal)
    (errorMessage : string) (w : World) (thrown : Thrown) :
  fst (thenValidate
         (retryAroundTimeout action timeout attemptMessage retryMessage)
         payload errorMessage w) = Throw thrown ->
  exists msg : string, thrown = Err (mkError RPCError msg).
Proof.
  intros Hfail.
  destruct (thenValidate_failure _ _ _ _ _ Hfail) as [Hretry | [r Hval]].
  - unfold retryAroundTimeout in Hretry.
    destruct (retry_loop_failure_is_wrapped _ _ _ _ _ _ _ _ Hretry)
      as [e ->].
    destruct (handleError_RPC e retryMessage) as [msg ->].
    exists msg. reflexivity.
  - destruct (validateApiResponse_thrown_is_wrapped _ _ _ _ Hval)
      as [msg ->].
    destruct (handleError_RPC (new_Error msg) errorMessage) as [msg' ->].
    exists msg'. reflexivity.
Qed.

(** X10: every failure of [fetchBlockNumber] is an [RPCError], whatever
    the endpoint does: failures of the connection, error responses,
    timeouts and rejected payloads all reach the caller in that one class.
    So is every failure of [fetchBlockDetails] and of
    [fetchTransactionDetails], when the block number or the transaction
    hash they are given is a printable value (a string, as their
    signatures say) and the results that the endpoint returns have
    printable fields where the validation converts them.  A failure of
    [fetchTransactionHash] is an [RPCError] too, unless it is the plain
    [Error] of its guard. *)
Theorem client_failures_are_RPCError (net : Network) (DEFAULT_TIMEOUT : N)
    (nodeUrl : string) (w : World) (thrown : Thrown) :
  (fst (RpcAPIClient.fetchBlockNumber net DEFAULT_TIMEOUT nodeUrl w)
   = Throw thrown ->
   exists msg, thrown = Err (mkError RPCError msg))
  /\ (forall blockNumber,
      printable blockNumber = true ->
      printableReplies net nodeUrl ->
      fst (RpcAPIClient.fetchBlockDetails net DEFAULT_TIMEOUT nodeUrl
             blockNumber w) = Throw thrown ->
      exists msg, thrown = Err (mkError RPCError msg))
  /\ (forall transactionHash,
      printable transactionHash = true ->
      printableReplies net nodeUrl ->
      fst (RpcAPIClient.fetchTransactionDetails net DEFAULT_TIMEOUT nodeUrl
             transactionHash w) = Throw thrown ->
      exists msg, thrown = Err (mkError RPCError msg))
  /\ (forall blockDetails,
      fst (RpcAPIClient.fetchTransactionHash DEFAULT_TIMEOUT blockDetails w)
      = Throw thrown ->
      thrown = Err (mkError Error
                      "Block details or transactions are not available")
      \/ exists msg, thrown = Err (mkError RPCError msg)).
Proof.
  split; [ | split; [ | split]].
  - apply thenValidate_retry_fails_with_RPCError.
  - intros blockNumber _ _. apply thenValidate_retry_fails_with_RPCError.
  - intros transactionHash _ _.
    apply thenValidate_retry_fails_with_RPCError.
  - intros blockDetails. unfold RpcAPIClient.fetchTransactionHash.
    destruct (RpcAPIClient.noTransactions blockDetails).
    + cbn [throw fst]. intros H. injection H as <-. left. reflexivity.
    + intros H. right.
      exact (thenValidate_retry_fails_with_RPCError _ _ _ _ _ _ _ _ H).
Qed.

Lemma client_failures_are_RPCError_witness :
  (exists msg,
     Err (mkError RPCError "RPC Error: Method not found")
     = Err (mkError RPCError msg))
  /\ (exists msg,
       Err (mkError RPCError "Invalid block hash format")
       = Err (mkError RPCError msg)).
Proof.
  split.
  - apply (proj1 (client_failures_are_RPCError
                    (always 20 (errorBody (-32601) "Method not found"))
                    30000 "http://node" w0
                    (Err (mkError RPCError "RPC Error: Method not found")))).
    vm_compute. reflexivity.
  - apply (proj1 (proj2 (client_failures_are_RPCError
                    (always 20
                       (successBody (blockPayload (JStr "0x10")
                                                  (JStr "0xabc"))))
                    30000 "http://node" w0
                    (Err (mkError RPCError "Invalid block hash format"))))
                 (JStr "0x10")).
    + reflexivity.
    + intros k request latency data Hreply.
      injection Hreply as _ <-. reflexivity.
    + vm_compute. reflexivity.
Defined.

(** X11: the validation is outside the retry loop.  When the first reply
    is a success response, received in time, whose [result] is falsy
    (missing, [null], the empty string), [fetchBlockNumber] fails with the
    [RPCError] "Block or transaction response are invalid" and no second
    request is posted. *)
Theorem fetchBlockNumber_validation_not_retried (net : Network)
    (DEFAULT_TIMEOUT : N) (nodeUrl : string) (w : World) (latency : N)
    (data : JsVal) :
  net (List.length (posted w)) nodeUrl
      (mkRequest "2.0" "eth_blockNumber" [] 1)
  = (latency, HttpOk data) ->
  nullish data = false ->
  truthy (getProp data "error") = false ->
  truthy (getProp data "result") = false ->
  settlesFirst latency DEFAULT_TIMEOUT = true ->
  RpcAPIClient.fetchBlockNumber net DEFAULT_TIMEOUT nodeUrl w
  = (Throw (Err (mkError RPCError
                   "Block or transaction response are invalid")),
     mkWorld (now w + latency)
       (posted w ++ [(nodeUrl, mkRequest "2.0" "eth_blockNumber" [] 1)])).
Proof.
  intros Hreply Hdata Herr Hres Hfirst.
  unfold RpcAPIClient.fetchBlockNumber. unfold bind at 1.
  rewrite (retryApiRequest_first_try _ 2 _ _ w
             (mkWorld (now w + latency)%N
                (posted w
                 ++ [(nodeUrl, mkRequest "2.0" "eth_blockNumber" [] 1)]))
             (getProp data "result")); [ | lia | ].
  - unfold bind, lift. unfold validateApiResponse.
    cbn [truthy negb getProp lookup String.eqb Ascii.eqb Bool.eqb obind].
    rewrite Hres. reflexivity.
  - apply apiRequestWithTimeout_returns.
    + apply callRpcMethod_returns; assumption.
    + cbn [clock Clock_World now]. rewrite elapsed_after_latency.
      exact Hfirst.
Qed.

Lemma fetchBlockNumber_validation_not_retried_witness :
  RpcAPIClient.fetchBlockNumber (always 20 (successBody JNull)) 30000
    "http://node" w0
  = (Throw (Err (mkError RPCError
                   "Block or transaction response are invalid")),
     mkWorld 20 [("http://node", mkRequest "2.0" "eth_blockNumber" [] 1)]).
Proof.
  apply (fetchBlockNumber_validation_not_retried
           (always 20 (successBody JNull)) 30000 "http://node" w0 20
           (successBody JNull)); reflexivity.
Defined.

Section TwoAttempts.

Variable net : Network.
Variable timeout : N.
Variables nodeUrl method : string.
Variable params : list JsVal.
Variables attemptMessage retryMessage : string.
Variable w : World.

(** The request of the call, and the replies to the next two requests. *)
Let request : RpcRequest := mkRequest "2.0" method params 1.
Let first : N * HttpReply := net (List.length (posted w)) nodeUrl request.
Let second : N * HttpReply :=
  net (S (List.length (posted w))) nodeUrl request.

Lemma late_attempt (w1 : World) (latency : N) :
  fst (net (List.length (posted w1)) nodeUrl request) = latency ->
  (timeout < latency)%N ->
  apiRequestWithTimeout
    (RpcFactory.callRpcMethod net nodeUrl method params)
    timeout attemptMessage ErrorType.RPC w1
  = (Throw (Err (mkError RPCError "API request timed out")),
     mkWorld (now w1 + timeout) (posted w1 ++ [(nodeUrl, request)])).
Proof.
  intros Hlat Hlate.
  rewrite apiRequestWithTimeout_times_out.
  - rewrite callRpcMethod_world. reflexivity.
  - rewrite callRpcMethod_world. cbn [clock Clock_World now].
    fold request. rewrite Hlat, elapsed_after_latency.
    unfold settlesFirst. apply orb_false_intro.
    + apply N.eqb_neq. lia.
    + apply N.leb_gt. lia.
Qed.

Lemma both_attempts_late :
  (timeout < fst first)%N -> (timeout < fst second)%N ->
  retryAroundTimeout (RpcFactory.callRpcMethod net nodeUrl method params)
    timeout attemptMessage retryMessage w
  = (Throw (Err (mkError RPCError "API request timed out")),
     mkWorld (now w + timeout + timeout)
             (posted w ++ [(nodeUrl, request); (nodeUrl, request)])).
Proof.
  intros Hlate1 Hlate2. unfold retryAroundTimeout.
  rewrite (retry_twice_both_fail _ _ _ w
             (mkWorld (now w + timeout) (posted w ++ [(nodeUrl, request)]))
             (mkWorld (now w + timeout + timeout)
                (posted w ++ [(nodeUrl, request); (nodeUrl, request)]))
             (Err (mkError RPCError "API request timed out"))
             (Err (mkError RPCError "API request timed out"))).
  - reflexivity.
  - apply (late_attempt w (fst first)); [reflexivity | assumption..].
  - rewrite (late_attempt _ (fst second)); try assumption.
    + cbn [now posted]. rewrite <- app_assoc. reflexivity.
    + cbn [posted]. rewrite length_app, Nat.add_comm. reflexivity.
Qed.

End TwoAttempts.

(** X12: when the replies to both requests of an operation arrive
    strictly after their deadlines, the operation fails exactly two
    timeouts after it was called, having posted two requests, and the error
    is an [RPCError] whose message is still "API request timed out" after
    both layers have wrapped it.  The block number and the transaction
    hash, which the operations write into their messages, are printable
    values (strings, as the signatures say). *)
Theorem client_both_attempts_time_out (net : Network) (DEFAULT_TIMEOUT : N)
    (nodeUrl : string) (w : World) :
  let late (k : nat) (request : RpcRequest) : Prop :=
    (DEFAULT_TIMEOUT < fst (net k nodeUrl request))%N in
  let twice (request : RpcRequest) : Outcome JsVal * World :=
    (Throw (Err (mkError RPCError "API request timed out")),
     mkWorld (now w + DEFAULT_TIMEOUT + DEFAULT_TIMEOUT)
             (posted w ++ [(nodeUrl, request); (nodeUrl, request)])) in
  (late (List.length (posted w)) (mkRequest "2.0" "eth_blockNumber" [] 1) ->
   late (S (List.length (posted w)))
        (mkRequest "2.0" "eth_blockNumber" [] 1) ->
   RpcAPIClient.fetchBlockNumber net DEFAULT_TIMEOUT nodeUrl w
   = twice (mkRequest "2.0" "eth_blockNumber" [] 1))
  /\ (forall blockNumber,
      printable blockNumber = true ->
      late (List.length (posted w))
           (mkRequest "2.0" "eth_getBlockByNumber"
                      [blockNumber; JBool false] 1) ->
      late (S (List.length (posted w)))
           (mkRequest "2.0" "eth_getBlockByNumber"
                      [blockNumber; JBool false] 1) ->
      RpcAPIClient.fetchBlockDetails net DEFAULT_TIMEOUT nodeUrl
        blockNumber w
      = twice (mkRequest "2.0" "eth_getBlockByNumber"
                         [blockNumber; JBool false] 1))
  /\ (forall transactionHash,
      printable transactionHash = true ->
      late (List.length (posted w))
           (mkRequest "2.0" "eth_getTransactionByHash"
                      [transactionHash] 1) ->
      late (S (List.length (posted w)))
           (mkRequest "2.0" "eth_getTransactionByHash"
                      [transactionHash] 1) ->
      RpcAPIClient.fetchTransactionDetails net DEFAULT_TIMEOUT nodeUrl
        transactionHash w
      = twice (mkRequest "2.0" "eth_getTransactionByHash"
                         [transactionHash] 1)).
Proof.
  intros late twice. unfold late, twice. split; [ | split].
  - intros Hl1 Hl2.
    unfold RpcAPIClient.fetchBlockNumber. unfold bind at 1.
    change (retryApiRequest _ 2 _ _ w)
      with (retryAroundTimeout
              (RpcFactory.callRpcMethod net nodeUrl "eth_blockNumber" [])
              DEFAULT_TIMEOUT
              ("Failed to fetch block number for - " ++ nodeUrl)
              "Failed to fetch block number after retries" w).
    rewrite both_attempts_late by assumption. reflexivity.
  - intros blockNumber _ Hl1 Hl2.
    unfold RpcAPIClient.fetchBlockDetails. unfold bind at 1.
    change (retryApiRequest _ 2 _ _ w)
      with (retryAroundTimeout
              (RpcFactory.callRpcMethod net nodeUrl "eth_getBlockByNumber"
                 [blockNumber; JBool false])
              DEFAULT_TIMEOUT
              ("Failed to fetch block details for block number - "
               ++ ToString blockNumber)
              ("Failed to fetch block details for block number - "
               ++ ToString blockNumber ++ " after retries") w).
    rewrite both_attempts_late by assumption. reflexivity.
  - intros transactionHash _ Hl1 Hl2.
    unfold RpcAPIClient.fetchTransactionDetails. unfold bind at 1.
    change (retryApiRequest _ 2 _ _ w)
      with (retryAroundTimeout
              (RpcFactory.callRpcMethod net nodeUrl
                 "eth_getTransactionByHash" [transactionHash])
              DEFAULT_TIMEOUT
              ("Failed to fetch transaction details for transaction hash - "
               ++ ToString transactionHash)
              ("Failed to fetch transaction details for transaction hash after retries "
               ++ ToString transactionHash) w).
    rewrite both_attempts_late by assumption. reflexivity.
Qed.

Lemma client_both_attempts_time_out_witness :
  RpcAPIClient.fetchBlockNumber stalledNode 100 "http://node" w0
  = (Throw (Err (mkError RPCError "API request timed out")),
     mkWorld 200 [("http://node", mkRequest "2.0" "eth_blockNumber" [] 1);
                  ("http://node", mkRequest "2.0" "eth_blockNumber" [] 1)]).
Proof.
  apply (proj1 (client_both_attempts_time_out stalledNode 100 "http://node"
                  w0)); vm_compute; reflexivity.
Defined.

(** X13: one failure is absorbed.  When the first request is refused (a
    failure of the connection, known before the deadline) and the second
    brings, in time, a success response with a truthy [result],
    [fetchBlockNumber] returns that result; the two requests have been
    posted one after the other, the second as soon as the first had
    failed. *)
Theorem fetchBlockNumber_recovers_from_one_failure (net : Network)
    (DEFAULT_TIMEOUT : N) (nodeUrl : string) (w : World)
    (latency1 latency2 : N) (failure : string) (data : JsVal) :
  let request := mkRequest "2.0" "eth_blockNumber" [] 1 in
  net (List.length (posted w)) nodeUrl request
  = (latency1, HttpFail failure) ->
  settlesFirst latency1 DEFAULT_TIMEOUT = true ->
  net (S (List.length (posted w))) nodeUrl request
  = (latency2, HttpOk data) ->
  settlesFirst latency2 DEFAULT_TIMEOUT = true ->
  nullish data = false ->
  truthy (getProp data "error") = false ->
  truthy (getProp data "result") = true ->
  RpcAPIClient.fetchBlockNumber net DEFAULT_TIMEOUT nodeUrl w
  = (Ok (getProp data "result"),
     mkWorld (now w + latency1 + latency2)
             (posted w ++ [(nodeUrl, request); (nodeUrl, request)])).
Proof.
  intros request Hreply1 Hfirst1 Hreply2 Hfirst2 Hdata Herr Hres.
  unfold RpcAPIClient.fetchBlockNumber. unfold bind at 1.
  rewrite (retry_twice_second_returns _ _ _ w
             (mkWorld (now w + latency1) (posted w ++ [(nodeUrl, request)]))
             (mkWorld (now w + latency1 + latency2)
                (posted w ++ [(nodeUrl, request); (nodeUrl, request)]))
             (Err (handleError (new_Error failure)
                     ("Failed to fetch block number for - " ++ nodeUrl)
                     ErrorType.RPC))
             (getProp data "result")).
  - unfold bind, lift, ret.
    rewrite (proj1 (validate_single_marker _ _ _ Hres)). reflexivity.
  - apply apiRequestWithTimeout_rethrows.
    + unfold RpcFactory.callRpcMethod, bind.
      rewrite (createRequest_http_failure net "eth_blockNumber" [] 1 nodeUrl
                 w latency1 (HttpFail failure) Hreply1 failure eq_refl).
      reflexivity.
    + cbn [clock Clock_World now]. rewrite elapsed_after_latency.
      exact Hfirst1.
  - assert (Hworld :
      mkWorld (now w + latency1 + latency2)
              (posted w ++ [(nodeUrl, request); (nodeUrl, request)])
      = mkWorld
          (now (mkWorld (now w + latency1)
                        (posted w ++ [(nodeUrl, request)])) + latency2)
          (posted (mkWorld (now w + latency1)
                           (posted w ++ [(nodeUrl, request)]))
           ++ [(nodeUrl, request)])).
    { cbn [now posted]. rewrite <- app_assoc. reflexivity. }
    rewrite Hworld.
    apply apiRequestWithTimeout_returns.
    + apply callRpcMethod_returns; try assumption.
      cbn [posted]. rewrite length_app, Nat.add_comm. exact Hreply2.
    + cbn [clock Clock_World now]. rewrite elapsed_after_latency.
      exact Hfirst2.
Qed.

Lemma fetchBlockNumber_recovers_from_one_failure_witness :
  RpcAPIClient.fetchBlockNumber failsThenAnswers 30000 "http://node" w0
  = (Ok (JStr "0x10"),
     mkWorld 120 [("http://node", mkRequest "2.0" "eth_blockNumber" [] 1);
                  ("http://node", mkRequest "2.0" "eth_blockNumber" [] 1)]).
Proof.
  apply (fetchBlockNumber_recovers_from_one_failure failsThenAnswers 30000
           "http://node" w0 60 60 "connect ECONNREFUSED"
           (successBody (JStr "0x10"))); reflexivity.
Defined.

(** The cases of [fetchTransactionHash] of the client. *)
Lemma client_fetchTransactionHash_cases (DEFAULT_TIMEOUT : N)
    (blockDetails : JsVal) (w : World) :
  RpcAPIClient.fetchTransactionHash DEFAULT_TIMEOUT blockDetails w
  = (if RpcAPIClient.noTransactions blockDetails then
       Throw (Err (mkError Error
                     "Block details or transactions are not available"))
     else if truthy (getIndex (getProp blockDetails "transactions") 0) then
       Ok (getIndex (getProp blockDetails "transactions") 0)
     else
       Throw (Err (mkError RPCError
                     "Block or transaction response are invalid")),
     w).
Proof.
  unfold RpcAPIClient.fetchTransactionHash.
  destruct (RpcAPIClient.noTransactions blockDetails); [reflexivity|].
  unfold bind at 1.
  rewrite (retryApiRequest_first_try _ 2 _ _ w w
             (getIndex (getProp blockDetails "transactions") 0));
    [ | lia | ].
  - unfold bind, lift, ret.
    destruct (truthy (getIndex (getProp blockDetails "transactions") 0))
      eqn:Hv.
    + rewrite (proj2 (validate_single_marker _ _ _ Hv)). reflexivity.
    + unfold validateApiResponse.
      cbn [truthy negb getProp lookup String.eqb Ascii.eqb Bool.eqb obind].
      rewrite Hv. reflexivity.
  - apply apiRequestWithTimeout_returns; [reflexivity|].
    rewrite N.sub_diag. reflexivity.
Qed.

(** X14: [fetchTransactionHash] of the client is a function of
    [blockDetails] alone: it posts nothing and takes no time.  Behind its
    guard it returns [transactions[0]] when that is truthy, whatever it is
    (a hash, a malformed string, a whole transaction object), and
    otherwise fails with the [RPCError] "Block or transaction response are
    invalid". *)
Theorem fetchTransactionHash_is_local (DEFAULT_TIMEOUT : N)
    (blockDetails : JsVal) (w : World) :
  RpcAPIClient.fetchTransactionHash DEFAULT_TIMEOUT blockDetails w
  = (if RpcAPIClient.noTransactions blockDetails then
       Throw (Err (mkError Error
                     "Block details or transactions are not available"))
     else if truthy (getIndex (getProp blockDetails "transactions") 0) then
       Ok (getIndex (getProp blockDetails "transactions") 0)
     else
       Throw (Err (mkError RPCError
                     "Block or transaction response are invalid")),
     w).
Proof. apply client_fetchTransactionHash_cases. Qed.

(* ================================================================== *)
(** * Further properties of RpcTestScenarioBuilder                      *)
(* ================================================================== *)

(** What [thenValidate m] returns was returned by [m] and has passed the
    validation. *)
Lemma thenValidate_success {A : Type} (m : Async World A)
    (payload : A -> JsVal) (errorMessage : string) (w w' : World) (r : A) :
  thenValidate m payload errorMessage w = (Ok r, w') ->
  m w = (Ok r, w')
  /\ validateApiResponse (payload r) errorMessage ErrorType.RPC = Ok tt.
Proof.
  unfold thenValidate, bind, lift, ret.
  destruct (m w) as [[r0 | e] w1]; [ | discriminate].
  destruct (validateApiResponse (payload r0) errorMessage ErrorType.RPC)
    as [[] | e] eqn:Hval; [ | discriminate].
  intros H. injection H as <- <-. split; [reflexivity | exact Hval].
Qed.

Lemma validated_marker_is_truthy (key : string) (v : JsVal)
    (errorMessage errorType : string) :
  key = "number" \/ key = "hash" ->
  validateApiResponse (JObj [(key, v)]) errorMessage errorType = Ok tt ->
  truthy v = true.
Proof.
  intros Hkey Hval. destruct (truthy v) eqn:Hv; [reflexivity|].
  exfalso. destruct Hkey as [-> | ->];
    unfold validateApiResponse in Hval;
    cbn [truthy negb getProp lookup String.eqb Ascii.eqb Bool.eqb obind]
      in Hval;
    rewrite Hv in Hval; discriminate.
Qed.

(** The cases of [fetchTransactionHash] of the builder, by the loop
    condition on entry. *)
Lemma builder_fetchTransactionHash_cases (DEFAULT_TIMEOUT : N)
    (this : RpcTestScenarioBuilder.t) (w : World) :
  RpcTestScenarioBuilder.fetchTransactionHash DEFAULT_TIMEOUT this w
  = match RpcTestScenarioBuilder.stillWaiting this with
    | Ok true =>
        (Throw (new_Error
           "Block details or transactions are not available after maximum retries"),
         mkWorld (now w + 3 * RpcTestScenarioBuilder.RETRY_DELAY)
                 (posted w))
    | Ok false =>
        (let* result :=
           RpcAPIClient.fetchTransactionHash DEFAULT_TIMEOUT
             (RpcTestScenarioBuilder.blockDetails this) in
         ret (RpcTestScenarioBuilder.mk
                (RpcTestScenarioBuilder.apiClient this)
                (RpcTestScenarioBuilder.blockNumber this)
                (RpcTestScenarioBuilder.blockDetails this) result)) w
    | Throw e => (Throw e, w)
    end.
Proof.
  destruct (RpcTestScenarioBuilder.stillWaiting this) as [[|] | e] eqn:Hwait.
  - apply fetchTransactionHash_gives_up. exact Hwait.
  - unfold RpcTestScenarioBuilder.fetchTransactionHash.
    unfold bind at 1.
    cbn [RpcTestScenarioBuilder.poll_loop RpcTestScenarioBuilder.MAX_RETRIES
         Nat.sub].
    unfold bind at 1. unfold lift at 1. rewrite Hwait. reflexivity.
  - unfold RpcTestScenarioBuilder.fetchTransactionHash.
    unfold bind at 1.
    cbn [RpcTestScenarioBuilder.poll_loop RpcTestScenarioBuilder.MAX_RETRIES
         Nat.sub].
    unfold bind at 1. unfold lift at 1. rewrite Hwait. reflexivity.
Qed.

(** X15: a successful [fetchBlockNumber] of the builder stores a truthy
    block number (a falsy result never gets stored, since the client
    rejects it) and leaves the other fields as they were; so the guard of
    [fetchBlockDetails] cannot fail after it. *)
Theorem builder_fetchBlockNumber_stores_truthy (net : Network)
    (DEFAULT_TIMEOUT : N) (this this' : RpcTestScenarioBuilder.t)
    (w w' : World) :
  RpcTestScenarioBuilder.fetchBlockNumber net DEFAULT_TIMEOUT this w
  = (Ok this', w') ->
  truthy (RpcTestScenarioBuilder.blockNumber this') = true
  /\ RpcTestScenarioBuilder.apiClient this'
     = RpcTestScenarioBuilder.apiClient this
  /\ RpcTestScenarioBuilder.blockDetails this'
     = RpcTestScenarioBuilder.blockDetails this
  /\ RpcTestScenarioBuilder.transactionHash this'
     = RpcTestScenarioBuilder.transactionHash this.
Proof.
  unfold RpcTestScenarioBuilder.fetchBlockNumber, bind, ret.
  destruct (RpcAPIClient.fetchBlockNumber net DEFAULT_TIMEOUT
              (RpcTestScenarioBuilder.apiClient this) w)
    as [[result | e] w1] eqn:Hclient; [ | discriminate].
  intros H. injection H as <- <-. cbn. repeat split.
  change (RpcAPIClient.fetchBlockNumber net DEFAULT_TIMEOUT
            (RpcTestScenarioBuilder.apiClient this))
    with (thenValidate
            (retryAroundTimeout
               (RpcFactory.callRpcMethod net
                  (RpcTestScenarioBuilder.apiClient this)
                  "eth_blockNumber" [])
               DEFAULT_TIMEOUT
               ("Failed to fetch block number for - "
                ++ RpcTestScenarioBuilder.apiClient this)
               "Failed to fetch block number after retries")
            (fun blockNumber => JObj [("number", blockNumber)])
            "Failed to validate block number response") in Hclient.
  apply thenValidate_success in Hclient. destruct Hclient as [_ Hval].
  exact (validated_marker_is_truthy "number" result _ _
           (or_introl eq_refl) Hval).
Qed.

Lemma builder_fetchBlockNumber_stores_truthy_witness :
  truthy (RpcTestScenarioBuilder.blockNumber
            (RpcTestScenarioBuilder.mk "http://node" (JStr "0x10")
               JNull JNull)) = true
  /\ RpcTestScenarioBuilder.apiClient
       (RpcTestScenarioBuilder.mk "http://node" (JStr "0x10") JNull JNull)
     = RpcTestScenarioBuilder.apiClient
         (RpcTestScenarioBuilder.new "http://node")
  /\ RpcTestScenarioBuilder.blockDetails
       (RpcTestScenarioBuilder.mk "http://node" (JStr "0x10") JNull JNull)
     = RpcTestScenarioBuilder.blockDetails
         (RpcTestScenarioBuilder.new "http://node")
  /\ RpcTestScenarioBuilder.transactionHash
       (RpcTestScenarioBuilder.mk "http://node" (JStr "0x10") JNull JNull)
     = RpcTestScenarioBuilder.transactionHash
         (RpcTestScenarioBuilder.new "http://node").
Proof.
  apply (builder_fetchBlockNumber_stores_truthy healthyNode 30000
           (RpcTestScenarioBuilder.new "http://node")
           (RpcTestScenarioBuilder.mk "http://node" (JStr "0x10")
              JNull JNull)
           w0
           (mkWorld 20
              [("http://node", mkRequest "2.0" "eth_blockNumber" [] 1)])).
  vm_compute. reflexivity.
Defined.

(** X16: a successful [fetchBlockDetails] of the builder stores a block
    that has passed the validation (it is truthy, carries no truthy
    [error], has a marker field, and its [number] and [hash], when both
    present, are well formed), fetched for the stored block number, which
    is kept.  Nothing is required of [transactions]. *)
Theorem builder_fetchBlockDetails_stores_validated (net : Network)
    (DEFAULT_TIMEOUT : N) (this this' : RpcTestScenarioBuilder.t)
    (w w' : World) :
  RpcTestScenarioBuilder.fetchBlockDetails net DEFAULT_TIMEOUT this w
  = (Ok this', w') ->
  validateApiResponse (RpcTestScenarioBuilder.blockDetails this')
    "Failed to validate block details response" ErrorType.RPC = Ok tt
  /\ truthy (RpcTestScenarioBuilder.blockNumber this) = true
  /\ RpcTestScenarioBuilder.blockNumber this'
     = RpcTestScenarioBuilder.blockNumber this
  /\ RpcTestScenarioBuilder.transactionHash this'
     = RpcTestScenarioBuilder.transactionHash this
  /\ RpcAPIClient.fetchBlockDetails net DEFAULT_TIMEOUT
       (RpcTestScenarioBuilder.apiClient this)
       (RpcTestScenarioBuilder.blockNumber this) w
     = (Ok (RpcTestScenarioBuilder.blockDetails this'), w').
Proof.
  unfold RpcTestScenarioBuilder.fetchBlockDetails.
  destruct (truthy (RpcTestScenarioBuilder.blockNumber this)) eqn:Hnum;
    cbn [negb]; [ | discriminate].
  unfold bind, ret.
  destruct (RpcAPIClient.fetchBlockDetails net DEFAULT_TIMEOUT
              (RpcTestScenarioBuilder.apiClient this)
              (RpcTestScenarioBuilder.blockNumber this) w)
    as [[result | e] w1] eqn:Hclient; [ | discriminate].
  intros H. injection H as <- <-. cbn. repeat split.
  change (RpcAPIClient.fetchBlockDetails net DEFAULT_TIMEOUT
            (RpcTestScenarioBuilder.apiClient this)
            (RpcTestScenarioBuilder.blockNumber this))
    with (thenValidate
            (retryAroundTimeout
               (RpcFactory.callRpcMethod net
                  (RpcTestScenarioBuilder.apiClient this)
                  "eth_getBlockByNumber"
                  [RpcTestScenarioBuilder.blockNumber this; JBool false])
               DEFAULT_TIMEOUT
               ("Failed to fetch block details for block number - "
                ++ ToString (RpcTestScenarioBuilder.blockNumber this))
               ("Failed to fetch block details for block number - "
                ++ ToString (RpcTestScenarioBuilder.blockNumber this)
                ++ " after retries"))
            (fun blockDetails => blockDetails)
            "Failed to validate block details response") in Hclient.
  apply thenValidate_success in Hclient. destruct Hclient as [_ Hval].
  exact Hval.
Qed.

Lemma builder_fetchBlockDetails_stores_validated_witness :
  validateApiResponse (RpcTestScenarioBuilder.blockDetails readyBuilder)
    "Failed to validate block details response" ErrorType.RPC = Ok tt
  /\ truthy (RpcTestScenarioBuilder.blockNumber
               (RpcTestScenarioBuilder.mk "http://node" (JStr "0x10")
                  JNull JNull)) = true
  /\ RpcTestScenarioBuilder.blockNumber readyBuilder
     = RpcTestScenarioBuilder.blockNumber
         (RpcTestScenarioBuilder.mk "http://node" (JStr "0x10") JNull JNull)
  /\ RpcTestScenarioBuilder.transactionHash readyBuilder
     = RpcTestScenarioBuilder.transactionHash
         (RpcTestScenarioBuilder.mk "http://node" (JStr "0x10") JNull JNull)
  /\ RpcAPIClient.fetchBlockDetails healthyNode 30000
       (RpcTestScenarioBuilder.apiClient
          (RpcTestScenarioBuilder.mk "http://node" (JStr "0x10")
             JNull JNull))
       (RpcTestScenarioBuilder.blockNumber
          (RpcTestScenarioBuilder.mk "http://node" (JStr "0x10")
             JNull JNull)) w0
     = (Ok (RpcTestScenarioBuilder.blockDetails readyBuilder),
        mkWorld 20
          [("http://node",
            mkRequest "2.0" "eth_getBlockByNumber"
                      [JStr "0x10"; JBool false] 1)]).
Proof.
  apply (builder_fetchBlockDetails_stores_validated healthyNode 30000
           (RpcTestScenarioBuilder.mk "http://node" (JStr "0x10")
              JNull JNull)
           readyBuilder w0).
  vm_compute. reflexivity.
Defined.

(** X17: a successful [fetchTransactionHash] of the builder has not
    waited and has posted nothing: the world is unchanged.  It stores
    [transactions[0]] of the stored block, which is truthy, and keeps the
    other fields.  (Success is only possible when the transactions are
    there on entry.) *)
Theorem builder_fetchTransactionHash_success (DEFAULT_TIMEOUT : N)
    (this this' : RpcTestScenarioBuilder.t) (w w' : World) :
  RpcTestScenarioBuilder.fetchTransactionHash DEFAULT_TIMEOUT this w
  = (Ok this', w') ->
  w' = w
  /\ RpcTestScenarioBuilder.stillWaiting this = Ok false
  /\ RpcTestScenarioBuilder.transactionHash this'
     = getIndex (getProp (RpcTestScenarioBuilder.blockDetails this)
                         "transactions") 0
  /\ truthy (RpcTestScenarioBuilder.transactionHash this') = true
  /\ RpcTestScenarioBuilder.blockNumber this'
     = RpcTestScenarioBuilder.blockNumber this
  /\ RpcTestScenarioBuilder.blockDetails this'
     = RpcTestScenarioBuilder.blockDetails this.
Proof.
  rewrite builder_fetchTransactionHash_cases.
  destruct (RpcTestScenarioBuilder.stillWaiting this) as [[|] | e];
    try discriminate.
  unfold bind, ret.
  destruct (RpcAPIClient.fetchTransactionHash DEFAULT_TIMEOUT
              (RpcTestScenarioBuilder.blockDetails this) w)
    as [[result | e] w1] eqn:Hclient; [ | discriminate].
  intros H. injection H as <- <-. cbn.
  unfold RpcAPIClient.fetchTransactionHash in Hclient.
  destruct (RpcAPIClient.noTransactions
              (RpcTestScenarioBuilder.blockDetails this));
    [discriminate|].
  change (thenValidate
            (retryAroundTimeout
               (ret (getIndex
                       (getProp (RpcTestScenarioBuilder.blockDetails this)
                                "transactions") 0))
               DEFAULT_TIMEOUT
               "Failed to fetch transaction hash"
               "Failed to fetch transaction hash after retries")
            (fun transactionHash => JObj [("hash", transactionHash)])
            "Failed to validate transaction hash" w
          = (Ok result, w1)) in Hclient.
  apply thenValidate_success in Hclient. destruct Hclient as [Hrun Hval].
  unfold retryAroundTimeout in Hrun.
  rewrite (retryApiRequest_first_try _ 2 _ _ w w
             (getIndex (getProp (RpcTestScenarioBuilder.blockDetails this)
                                "transactions") 0)) in Hrun;
    [ | lia
      | apply apiRequestWithTimeout_returns;
        [reflexivity | rewrite N.sub_diag; reflexivity] ].
  injection Hrun as <- <-.
  repeat split.
  exact (validated_marker_is_truthy "hash" _ _ _ (or_intror eq_refl) Hval).
Qed.

Lemma builder_fetchTransactionHash_success_witness :
  w0 = w0
  /\ RpcTestScenarioBuilder.stillWaiting readyBuilder = Ok false
  /\ RpcTestScenarioBuilder.transactionHash
       (RpcTestScenarioBuilder.mk "http://node" (JStr "0x10") fullBlock
          (JStr hash64))
     = getIndex (getProp (RpcTestScenarioBuilder.blockDetails readyBuilder)
                         "transactions") 0
  /\ truthy (RpcTestScenarioBuilder.transactionHash
               (RpcTestScenarioBuilder.mk "http://node" (JStr "0x10")
                  fullBlock (JStr hash64))) = true
  /\ RpcTestScenarioBuilder.blockNumber
       (RpcTestScenarioBuilder.mk "http://node" (JStr "0x10") fullBlock
          (JStr hash64))
     = RpcTestScenarioBuilder.blockNumber readyBuilder
  /\ RpcTestScenarioBuilder.blockDetails
       (RpcTestScenarioBuilder.mk "http://node" (JStr "0x10") fullBlock
          (JStr hash64))
     = RpcTestScenarioBuilder.blockDetails readyBuilder.
Proof.
  apply (builder_fetchTransactionHash_success 30000 readyBuilder
           (RpcTestScenarioBuilder.mk "http://node" (JStr "0x10") fullBlock
              (JStr hash64))
           w0 w0).
  vm_compute. reflexivity.
Defined.

(** X18: validation asks nothing of [transactions], so a block without
    that field can be stored; on such a builder [fetchTransactionHash]
    fails at once with the [TypeError] of reading [length] off
    [undefined], not with the message of the polling loop, and without
    waiting. *)
Theorem builder_fetchTransactionHash_without_transactions
    (DEFAULT_TIMEOUT : N) (this : RpcTestScenarioBuilder.t) (w : World) :
  truthy (RpcTestScenarioBuilder.blockDetails this) = true ->
  nullish (getProp (RpcTestScenarioBuilder.blockDetails this)
                   "transactions") = true ->
  RpcTestScenarioBuilder.fetchTransactionHash DEFAULT_TIMEOUT this w
  = (Throw (Err (mkError TypeError
       ("Cannot read properties of "
        ++ ToString (getProp (RpcTestScenarioBuilder.blockDetails this)
                             "transactions")
        ++ " (reading 'length')"))),
     w).
Proof.
  intros Hbd Htxs.
  rewrite builder_fetchTransactionHash_cases.
  unfold RpcTestScenarioBuilder.stillWaiting, getPropChecked.
  rewrite Hbd, Htxs. reflexivity.
Qed.

Lemma builder_fetchTransactionHash_without_transactions_witness :
  validateApiResponse bareBlock "Failed to validate block details response"
    ErrorType.RPC = Ok tt
  /\ RpcTestScenarioBuilder.fetchTransactionHash 30000 bareBuilder w0
     = (Throw (Err (mkError TypeError
          "Cannot read properties of undefined (reading 'length')")),
        w0).
Proof.
  split; [reflexivity|].
  apply (builder_fetchTransactionHash_without_transactions 30000 bareBuilder
           w0); reflexivity.
Defined.

(* ================================================================== *)
(** * Properties of the whole scenario                                  *)
(* ================================================================== *)

Lemma bind_within {A B : Type} (m : Async World A) (k : A -> Async World B)
    (b1 b2 : N) (k1 k2 : nat) :
  (forall w, within w (snd (m w)) b1 k1) ->
  (forall a w, within w (snd (k a w)) b2 k2) ->
  forall w, within w (snd (bind m k w)) (b1 + b2) (k1 + k2).
Proof.
  intros Hm Hk w. unfold bind.
  pose proof (Hm w) as H1.
  destruct (m w) as [[a | e] w1]; cbn [snd] in *.
  - exact (within_trans _ _ _ _ _ _ _ H1 (Hk a w1)).
  - apply (within_weaken _ _ _ _ _ _ H1); lia.
Qed.

Lemma within_refl (w : World) (budget : N) (requests : nat) :
  within w w budget requests.
Proof. split; [apply advances_refl | lia]. Qed.

Lemma client_call_within (net : Network) (timeout : N)
    (nodeUrl method : string) (params : list JsVal)
    (attemptMessage retryMessage : string) (payload : JsVal -> JsVal)
    (errorMessage : string) (w : World) :
  within w
    (snd (thenValidate
            (retryAroundTimeout
               (RpcFactory.callRpcMethod net nodeUrl method params)
               timeout attemptMessage retryMessage)
            payload errorMessage w))
    (2 * timeout) 2.
Proof.
  rewrite thenValidate_world.
  apply (retryAroundTimeout_within _ _ _ _ 1).
  intros w1. apply callRpcMethod_advances.
Qed.

Lemma builder_fetchTransactionHash_within (DEFAULT_TIMEOUT : N)
    (this : RpcTestScenarioBuilder.t) (w : World) :
  within w
    (snd (RpcTestScenarioBuilder.fetchTransactionHash DEFAULT_TIMEOUT this w))
    (3 * RpcTestScenarioBuilder.RETRY_DELAY) 0.
Proof.
  rewrite builder_fetchTransactionHash_cases.
  destruct (RpcTestScenarioBuilder.stillWaiting this) as [[|] | e].
  - cbn [snd]. repeat split; cbn [now posted]; [lia | | lia].
    exists []. rewrite app_nil_r. split; [reflexivity | simpl; lia].
  - unfold bind. rewrite client_fetchTransactionHash_cases.
    destruct (RpcAPIClient.noTransactions
                (RpcTestScenarioBuilder.blockDetails this));
      [apply within_refl|].
    destruct (truthy (getIndex
                        (getProp (RpcTestScenarioBuilder.blockDetails this)
                                 "transactions") 0));
      apply within_refl.
  - apply within_refl.
Qed.

(** X19: whatever the endpoint does, the scenario of the end-to-end test
    (block number, block, transaction hash, transaction) posts at most 6
    requests and is over within 6 timeouts plus the 6000 ms of the polling
    loop. *)
Theorem scenario_is_bounded (net : Network) (DEFAULT_TIMEOUT : N)
    (nodeUrl : string) (w : World) :
  within w (snd (scenario net DEFAULT_TIMEOUT nodeUrl w))
         (6 * DEFAULT_TIMEOUT + 6000) 6.
Proof.
  unfold scenario.
  apply (within_weaken w _
           (2 * DEFAULT_TIMEOUT
            + (2 * DEFAULT_TIMEOUT
               + (3 * RpcTestScenarioBuilder.RETRY_DELAY
                  + 2 * DEFAULT_TIMEOUT)))
           _ (2 + (2 + (0 + 2))));
    [ | unfold RpcTestScenarioBuilder.RETRY_DELAY; lia | lia].
  apply bind_within.
  - intros w1. unfold RpcTestScenarioBuilder.fetchBlockNumber.
    replace (2 * DEFAULT_TIMEOUT)%N with (2 * DEFAULT_TIMEOUT + 0)%N by lia.
    apply (bind_within _ _ _ _ 2 0).
    + intros w2. apply client_call_within.
    + intros a w2. apply within_refl.
  - intros b1 w1. apply bind_within.
    + intros w2. unfold RpcTestScenarioBuilder.fetchBlockDetails.
      destruct (negb (truthy (RpcTestScenarioBuilder.blockNumber b1)));
        [apply within_refl|].
      replace (2 * DEFAULT_TIMEOUT)%N with (2 * DEFAULT_TIMEOUT + 0)%N
        by lia.
      apply (bind_within _ _ _ _ 2 0).
      * intros w3. apply client_call_within.
      * intros a w3. apply within_refl.
    + intros b2 w2. apply bind_within.
      * intros w3. apply builder_fetchTransactionHash_within.
      * intros b3 w3. unfold RpcTestScenarioBuilder.fetchTransactionDetails.
        destruct (negb (truthy (RpcTestScenarioBuilder.transactionHash b3)));
          [apply within_refl|].
        apply client_call_within.
Qed.

Lemma client_call_returns (net : Network) (timeout : N)
    (nodeUrl method : string) (params : list JsVal)
    (attemptMessage retryMessage : string) (payload : JsVal -> JsVal)
    (errorMessage : string) (w : World) (latency : N) (data : JsVal) :
  net (List.length (posted w)) nodeUrl (mkRequest "2.0" method params 1)
  = (latency, HttpOk data) ->
  nullish data = false ->
  truthy (getProp data "error") = false ->
  settlesFirst latency timeout = true ->
  validateApiResponse (payload (getProp data "result")) errorMessage
    ErrorType.RPC = Ok tt ->
  thenValidate
    (retryAroundTimeout (RpcFactory.callRpcMethod net nodeUrl method params)
       timeout attemptMessage retryMessage)
    payload errorMessage w
  = (Ok (getProp data "result"),
     mkWorld (now w + latency)
             (posted w ++ [(nodeUrl, mkRequest "2.0" method params 1)])).
Proof.
  intros Hreply Hdata Herr Hfirst Hval.
  unfold thenValidate, retryAroundTimeout. unfold bind at 1.
  rewrite (retryApiRequest_first_try _ 2 _ _ w
             (mkWorld (now w + latency)%N
                (posted w ++ [(nodeUrl, mkRequest "2.0" method params 1)]))
             (getProp data "result")); [ | lia | ].
  - unfold bind, lift, ret. rewrite Hval. reflexivity.
  - apply apiRequestWithTimeout_returns.
    + apply callRpcMethod_returns; assumption.
    + cbn [clock Clock_World now]. rewrite elapsed_after_latency.
      exact Hfirst.
Qed.

(** X20: the scenario succeeds on every endpoint that answers its three
    requests in time with success responses carrying a truthy block number,
    a block that passes the validation and has a truthy first transaction,
    and a transaction that passes the validation, the block number and the
    first transaction being printable values (strings, as the signatures
    of the client say): it returns that transaction, having posted exactly
    the three requests [eth_blockNumber],
    [eth_getBlockByNumber(number, false)] and
    [eth_getTransactionByHash(transactions[0])], with no waiting between
    them. *)
Theorem scenario_succeeds_on_answering_node (net : Network)
    (DEFAULT_TIMEOUT : N) (nodeUrl : string) (w : World)
    (latency0 latency1 latency2 : N) (data0 data1 data2 : JsVal)
    (first : JsVal) (rest : list JsVal) :
  let blockNumber := getProp data0 "result" in
  let blockDetails := getProp data1 "result" in
  let transaction := getProp data2 "result" in
  let request0 := mkRequest "2.0" "eth_blockNumber" [] 1 in
  let request1 :=
    mkRequest "2.0" "eth_getBlockByNumber" [blockNumber; JBool false] 1 in
  let request2 := mkRequest "2.0" "eth_getTransactionByHash" [first] 1 in
  net (List.length (posted w)) nodeUrl request0 = (latency0, HttpOk data0) ->
  net (S (List.length (posted w))) nodeUrl request1
  = (latency1, HttpOk data1) ->
  net (S (S (List.length (posted w)))) nodeUrl request2
  = (latency2, HttpOk data2) ->
  settlesFirst latency0 DEFAULT_TIMEOUT = true ->
  settlesFirst latency1 DEFAULT_TIMEOUT = true ->
  settlesFirst latency2 DEFAULT_TIMEOUT = true ->
  nullish data0 = false -> truthy (getProp data0 "error") = false ->
  nullish data1 = false -> truthy (getProp data1 "error") = false ->
  nullish data2 = false -> truthy (getProp data2 "error") = false ->
  truthy blockNumber = true ->
  printable blockNumber = true ->
  validateApiResponse blockDetails
    "Failed to validate block details response" ErrorType.RPC = Ok tt ->
  getProp blockDetails "transactions" = JArr (first :: rest) ->
  truthy first = true ->
  printable first = true ->
  validateApiResponse transaction
    "Failed to validate transaction details response" ErrorType.RPC
  = Ok tt ->
  scenario net DEFAULT_TIMEOUT nodeUrl w
  = (Ok transaction,
     mkWorld (now w + latency0 + latency1 + latency2)
       (posted w
        ++ [(nodeUrl, request0); (nodeUrl, request1); (nodeUrl, request2)])).
Proof.
  intros blockNumber blockDetails transaction request0 request1 request2
         Hreply0 Hreply1 Hreply2 Hfirst0 Hfirst1 Hfirst2
         Hdata0 Herr0 Hdata1 Herr1 Hdata2 Herr2
         Hnumber _ Hblock Htxs Hhash _ Htx.
  set (w1 := mkWorld (now w + latency0) (posted w ++ [(nodeUrl, request0)])).
  set (w2 := mkWorld (now w1 + latency1)
                     (posted w1 ++ [(nodeUrl, request1)])).
  assert (Hlen1 : List.length (posted w1) = S (List.length (posted w)))
    by (unfold w1; cbn [posted]; rewrite length_app, Nat.add_comm;
        reflexivity).
  assert (Hlen2 : List.length (posted w2) = S (S (List.length (posted w))))
    by (unfold w2; cbn [posted]; rewrite length_app, Nat.add_comm, Hlen1;
        reflexivity).
  assert (Hbd : truthy blockDetails = true)
    by (exact (truthy_getProp_receiver blockDetails "transactions" eq_refl
                 ltac:(rewrite Htxs; reflexivity))).
  unfold scenario.
  (* fetchBlockNumber *)
  unfold bind at 1.
  unfold RpcTestScenarioBuilder.fetchBlockNumber at 1. unfold bind at 1.
  change (RpcAPIClient.fetchBlockNumber net DEFAULT_TIMEOUT
            (RpcTestScenarioBuilder.apiClient
               (RpcTestScenarioBuilder.new nodeUrl)) w)
    with (thenValidate
            (retryAroundTimeout
               (RpcFactory.callRpcMethod net nodeUrl "eth_blockNumber" [])
               DEFAULT_TIMEOUT
               ("Failed to fetch block number for - " ++ nodeUrl)
               "Failed to fetch block number after retries")
            (fun number => JObj [("number", number)])
            "Failed to validate block number response" w).
  rewrite (client_call_returns net DEFAULT_TIMEOUT nodeUrl "eth_blockNumber"
             [] _ _ _ _ w latency0 data0 Hreply0 Hdata0 Herr0 Hfirst0
             (proj1 (validate_single_marker _ _ _ Hnumber))).
  fold blockNumber. fold request0. fold w1. cbn [ret].
  (* fetchBlockDetails *)
  unfold bind at 1.
  unfold RpcTestScenarioBuilder.fetchBlockDetails at 1.
  cbn [RpcTestScenarioBuilder.blockNumber RpcTestScenarioBuilder.apiClient
       RpcTestScenarioBuilder.new RpcTestScenarioBuilder.blockDetails
       RpcTestScenarioBuilder.transactionHash].
  rewrite Hnumber. cbn [negb]. unfold bind at 1.
  change (RpcAPIClient.fetchBlockDetails net DEFAULT_TIMEOUT nodeUrl
            blockNumber w1)
    with (thenValidate
            (retryAroundTimeout
               (RpcFactory.callRpcMethod net nodeUrl "eth_getBlockByNumber"
                  [blockNumber; JBool false])
               DEFAULT_TIMEOUT
               ("Failed to fetch block details for block number - "
                ++ ToString blockNumber)
               ("Failed to fetch block details for block number - "
                ++ ToString blockNumber ++ " after retries"))
            (fun details => details)
            "Failed to validate block details response" w1).
  rewrite (client_call_returns net DEFAULT_TIMEOUT nodeUrl
             "eth_getBlockByNumber" [blockNumber; JBool false] _ _ _ _ w1
             latency1 data1
             ltac:(rewrite Hlen1; exact Hreply1) Hdata1 Herr1 Hfirst1 Hblock).
  fold blockDetails. fold request1. fold w2. cbn [ret].
  (* fetchTransactionHash *)
  unfold bind at 1.
  rewrite builder_fetchTransactionHash_cases.
  unfold RpcTestScenarioBuilder.stillWaiting, getPropChecked.
  cbn [RpcTestScenarioBuilder.blockNumber RpcTestScenarioBuilder.apiClient
       RpcTestScenarioBuilder.blockDetails
       RpcTestScenarioBuilder.transactionHash].
  rewrite Hbd, Htxs.
  cbn [negb nullish obind getProp String.eqb Ascii.eqb Bool.eqb
       List.length Z.of_nat truthy Z.eqb].
  unfold bind at 1. rewrite client_fetchTransactionHash_cases.
  unfold RpcAPIClient.noTransactions. rewrite Hbd, Htxs.
  cbn [negb orb truthy getProp String.eqb Ascii.eqb Bool.eqb List.length
       Z.of_nat is_zero getIndex nth].
  rewrite Hhash. cbn [ret].
  (* fetchTransactionDetails *)
  unfold RpcTestScenarioBuilder.fetchTransactionDetails.
  cbn [RpcTestScenarioBuilder.blockNumber RpcTestScenarioBuilder.apiClient
       RpcTestScenarioBuilder.blockDetails
       RpcTestScenarioBuilder.transactionHash].
  rewrite Hhash. cbn [negb].
  change (RpcAPIClient.fetchTransactionDetails net DEFAULT_TIMEOUT nodeUrl
            first w2)
    with (thenValidate
            (retryAroundTimeout
               (RpcFactory.callRpcMethod net nodeUrl
                  "eth_getTransactionByHash" [first])
               DEFAULT_TIMEOUT
               ("Failed to fetch transaction details for transaction hash - "
                ++ ToString first)
               ("Failed to fetch transaction details for transaction hash after retries "
                ++ ToString first))
            (fun details => details)
            "Failed to validate transaction details response" w2).
  rewrite (client_call_returns net DEFAULT_TIMEOUT nodeUrl
             "eth_getTransactionByHash" [first] _ _ _ _ w2
             latency2 data2
             ltac:(rewrite Hlen2; exact Hreply2) Hdata2 Herr2 Hfirst2 Htx).
  fold transaction. unfold w2, w1. cbn [now posted].
  rewrite <- !app_assoc. reflexivity.
Qed.

Lemma scenario_succeeds_on_answering_node_witness :
  scenario healthyNode 30000 "http://node" w0
  = (Ok txDetails,
     mkWorld 60
       [("http://node", mkRequest "2.0" "eth_blockNumber" [] 1);
        ("http://node",
         mkRequest "2.0" "eth_getBlockByNumber" [JStr "0x10"; JBool false] 1);
        ("http://node",
         mkRequest "2.0" "eth_getTransactionByHash" [JStr hash64] 1)]).
Proof.
  apply (scenario_succeeds_on_answering_node healthyNode 30000 "http://node"
           w0 20 20 20 (successBody (JStr "0x10")) (successBody fullBlock)
           (successBody txDetails) (JStr hash64) []); reflexivity.
Defined.

(* ================================================================== *)
(** * Properties of the browser side                                    *)
(* ================================================================== *)

Module UiFacts.
Import Ui.
Local Open Scope ui_scope.

Lemma ui_handleError_message (e : JsError) (contextMessage errorType : string) :
  message (handleError (Err e) contextMessage errorType) = message e.
Proof.
  unfold handleError.
  destruct (errorType =? "LOGIN"); [reflexivity|].
  destruct (errorType =? "MENU"); [reflexivity|].
  destruct (errorType =? "NODE"); reflexivity.
Qed.

(** What leaves [try { ... } catch (error) { handleError(...) }]. *)
Lemma wrapped_failure {W A : Type} (m : Async W A)
    (contextMessage errorType : string) (w : W) (thrown : Thrown) :
  fst (try_catch m (rethrowAs contextMessage errorType) w) = Throw thrown ->
  exists e : Thrown,
    fst (m w) = Throw e
    /\ thrown = Err (handleError e contextMessage errorType).
Proof.
  unfold try_catch, rethrowAs, throw.
  destruct (m w) as [[a | e] w1]; cbn [fst]; [discriminate|].
  intros H. injection H as <-. exists e. split; reflexivity.
Qed.

Lemma wrapped_failure_class {W A : Type} (m : Async W A)
    (contextMessage errorType : string) (cls : ErrorClass) (w : W)
    (thrown : Thrown) :
  (forall e c, name (handleError e c errorType) = cls) ->
  fst (try_catch m (rethrowAs contextMessage errorType) w) = Throw thrown ->
  exists msg : string, thrown = Err (mkError cls msg).
Proof.
  intros Hcls Hfail.
  destruct (wrapped_failure _ _ _ _ _ Hfail) as [e [_ ->]].
  exists (message (handleError e contextMessage errorType)).
  rewrite <- (Hcls e contextMessage).
  destruct (handleError e contextMessage errorType); reflexivity.
Qed.

Lemma class_LOGIN (e : Thrown) (c : string) :
  name (handleError e c ErrorType.LOGIN) = LoginError.
Proof. reflexivity. Qed.

Lemma class_MENU (e : Thrown) (c : string) :
  name (handleError e c ErrorType.MENU) = MenuError.
Proof. reflexivity. Qed.

Lemma class_NODE (e : Thrown) (c : string) :
  name (handleError e c ErrorType.NODE) = NodeError.
Proof. reflexivity. Qed.

Section Utils.

Context {W : Type} `{Browser W}.

(** X21: [checkVisibilityAndEnabled] returns [true] only when, after the
    wait if one was asked for, the element was reported visible and then
    reported enabled; it does not ask whether an element that is not
    visible is enabled; and whatever it throws was made by [handleError] in
    the class named by [errorType], with the message of the failed
    operation of Playwright. *)
Theorem checkVisibilityAndEnabled_sound (l : Locator) (wait : bool)
    (timeout : N) (errorType : string) (w : W) :
  let waited : Outcome unit * W :=
    if wait then waitFor l visible timeout w else (Ok tt, w) in
  (forall w', checkVisibilityAndEnabled l wait timeout errorType w
              = (Ok true, w') ->
     fst waited = Ok tt
     /\ exists w2,
          isVisible l (snd waited) = (Ok true, w2)
          /\ isEnabled l w2 = (Ok true, w'))
  /\ (fst waited = Ok tt ->
      forall w2, isVisible l (snd waited) = (Ok false, w2) ->
      checkVisibilityAndEnabled l wait timeout errorType w = (Ok false, w2))
  /\ (forall thrown,
      fst (checkVisibilityAndEnabled l wait timeout errorType w)
      = Throw thrown ->
      exists e : Thrown,
        thrown
        = Err (handleError e
                 "Failed to check or wait for the element to become visible and enabled"
                 errorType)).
Proof.
  intros waited. split; [ | split].
  - intros w'. unfold checkVisibilityAndEnabled, try_catch, bind, ret.
    assert (Hwaited : (if wait then waitFor l visible timeout
                       else fun w0 => (Ok tt, w0)) w = waited)
      by (unfold waited; destruct wait; reflexivity).
    rewrite Hwaited.
    destruct waited as [[[] | e] w1]; cbn [fst snd];
      [ | unfold rethrowAs, throw; discriminate].
    destruct (isVisible l w1) as [[[|] | e] w2]; cbn [negb];
      [ | discriminate | unfold rethrowAs, throw; discriminate].
    destruct (isEnabled l w2) as [[[|] | e] w3] eqn:Hen; cbn [negb andb];
      [ | discriminate | unfold rethrowAs, throw; discriminate].
    intros H1. injection H1 as <-. split; [reflexivity|].
    exists w2. split; [reflexivity | exact Hen].
  - intros Hok w2 Hvis.
    unfold checkVisibilityAndEnabled, try_catch, bind, ret.
    assert (Hwaited : (if wait then waitFor l visible timeout
                       else fun w0 => (Ok tt, w0)) w = waited)
      by (unfold waited; destruct wait; reflexivity).
    rewrite Hwaited.
    destruct waited as [[[] | e] w1]; cbn [fst snd] in *; [ | discriminate].
    rewrite Hvis. reflexivity.
  - intros thrown Hfail.
    destruct (wrapped_failure _ _ _ _ _ Hfail) as [e [_ ->]].
    exists e. reflexivity.
Qed.

End Utils.

Lemma checkVisibilityAndEnabled_sound_witness :
  checkVisibilityAndEnabled (H := staticBrowser loggedOutPage)
    MainMenu.homeButtonLocator false 30000 ErrorType.LOGIN tt
  = (Ok false, tt).
Proof.
  apply (proj1 (proj2 (checkVisibilityAndEnabled_sound
                         (H := staticBrowser loggedOutPage)
                         MainMenu.homeButtonLocator false 30000
                         ErrorType.LOGIN tt)));
    reflexivity.
Defined.

Section Pages.

Context {W : Type} `{Browser W}.
Variable LOGIN_URL : string.
Variable DEFAULT_TIMEOUT : N.

Lemma isLoggedIn_never_throws_aux (wait : bool) (w : W) :
  exists b : bool, fst (LoginPage.isLoggedIn DEFAULT_TIMEOUT wait w) = Ok b.
Proof.
  unfold LoginPage.isLoggedIn, try_catch, ret.
  destruct (checkVisibilityAndEnabled MainMenu.homeButtonLocator wait
              DEFAULT_TIMEOUT ErrorType.LOGIN w) as [[b | e] w1].
  - exists b. reflexivity.
  - exists false. reflexivity.
Qed.

(** X22: [isLoggedIn] of the login page never throws: a failed wait or a
    failed query of the Home button is answered with [false]. *)
Theorem isLoggedIn_never_throws (wait : bool) (w : W) :
  exists b : bool, fst (LoginPage.isLoggedIn DEFAULT_TIMEOUT wait w) = Ok b.
Proof.
  unfold LoginPage.isLoggedIn, try_catch, ret.
  destruct (checkVisibilityAndEnabled MainMenu.homeButtonLocator wait
              DEFAULT_TIMEOUT ErrorType.LOGIN w) as [[b | e] w1].
  - exists b. reflexivity.
  - exists false. reflexivity.
Qed.

(** X23: the methods of the page objects that catch and call
    [handleError] fail in one class each, whatever the browser does: those
    of the login page with a [LoginError], those of the main menu with a
    [MenuError], those of the node page with a [NodeError]. *)
Theorem page_objects_fail_in_their_class (w : W) (thrown : Thrown) :
  (fst (LoginPage.navigate LOGIN_URL DEFAULT_TIMEOUT w) = Throw thrown
   \/ fst (LoginPage.acceptCookies DEFAULT_TIMEOUT w) = Throw thrown
   \/ (exists email,
         fst (LoginPage.fillEmail DEFAULT_TIMEOUT email w) = Throw thrown)
   \/ (exists password,
         fst (LoginPage.fillPassword DEFAULT_TIMEOUT password w)
         = Throw thrown)
   \/ fst (LoginPage.clickSubmitButton DEFAULT_TIMEOUT w) = Throw thrown
   \/ fst (LoginPage.pauseForCaptcha w) = Throw thrown
   \/ fst (LoginPage.isCaptchaPresent w) = Throw thrown ->
   exists msg, thrown = Err (mkError LoginError msg))
  /\ (fst (MainMenu.goToHome DEFAULT_TIMEOUT w) = Throw thrown
      \/ fst (MainMenu.goToNodes DEFAULT_TIMEOUT w) = Throw thrown ->
      exists msg, thrown = Err (mkError MenuError msg))
  /\ ((exists protocol index,
         fst (NodePage.openAccordion protocol index w) = Throw thrown)
      \/ (exists protocol,
            fst (NodePage.isAccordionOpen protocol w) = Throw thrown)
      \/ (exists protocol index,
            fst (NodePage.clickDeleteNodeButton DEFAULT_TIMEOUT protocol
                   index w) = Throw thrown)
      \/ (exists protocol index,
            fst (NodePage.confirmDeleteNodeOperationButton DEFAULT_TIMEOUT
                   protocol index w) = Throw thrown)
      \/ fst (NodePage.clickCreateNewNodeButton DEFAULT_TIMEOUT w)
         = Throw thrown
      \/ (exists protocol,
            fst (NodePage.selectProtocol DEFAULT_TIMEOUT protocol w)
            = Throw thrown)
      \/ (exists network,
            fst (NodePage.selectNetwork DEFAULT_TIMEOUT network w)
            = Throw thrown)
      \/ fst (NodePage.clickFinalSubmitButton DEFAULT_TIMEOUT w)
         = Throw thrown
      \/ fst (NodePage.anyNodeAvailable DEFAULT_TIMEOUT w) = Throw thrown ->
      exists msg, thrown = Err (mkError NodeError msg)).
Proof.
  split; [ | split].
  - intros [Hf | [Hf | [[email Hf] | [[password Hf] | [Hf | [Hf | Hf]]]]]];
      exact (wrapped_failure_class _ _ _ LoginError _ _ class_LOGIN Hf).
  - intros [Hf | Hf];
      exact (wrapped_failure_class _ _ _ MenuError _ _ class_MENU Hf).
  - intros [[p [i Hf]] | [[p Hf] | [[p [i Hf]] | [[p [i Hf]]
           | [Hf | [[p Hf] | [[n Hf] | [Hf | Hf]]]]]]]];
      exact (wrapped_failure_class _ _ _ NodeError _ _ class_NODE Hf).
Qed.

End Pages.

Lemma page_objects_fail_in_their_class_witness :
  exists msg,
    Err (mkError MenuError "Timeout exceeded.") = Err (mkError MenuError msg).
Proof.
  apply (proj1 (proj2 (page_objects_fail_in_their_class
                         (H := staticBrowser unresponsivePage)
                         "https://login.example" 30000 tt
                         (Err (mkError MenuError "Timeout exceeded."))))).
  right. reflexivity.
Defined.

Section StaticPage.

Variable dom : Dom.
Variable DEFAULT_TIMEOUT : N.
Hypothesis resolves : forall l, broken dom l = false.

Lemma check_on_static_page (l : Locator) (wait : bool)
    (errorType : string) :
  checkVisibilityAndEnabled (H := staticBrowser dom) l wait DEFAULT_TIMEOUT
    errorType tt
  = (Ok (shown dom l && enabledAt dom l), tt).
Proof.
  unfold checkVisibilityAndEnabled, try_catch, bind, ret.
  cbn [waitFor isVisible isEnabled staticBrowser]. unfold onLocator.
  rewrite resolves. unfold ret.
  destruct wait; destruct (shown dom l); destruct (enabledAt dom l);
    reflexivity.
Qed.

(** Whether the accordion number [i] is shown and enabled. *)
Let available (i : Z) : bool :=
  shown dom (nth NodePage.generalAccordionButtonLocator i)
  && enabledAt dom (nth NodePage.generalAccordionButtonLocator i).

Lemma availability_loop_on_static_page (accordionCount : Z) :
  forall (remaining : nat) (i : Z),
    (i + Z.of_nat remaining <= accordionCount)%Z ->
    NodePage.availability_loop (H := staticBrowser dom) DEFAULT_TIMEOUT
      accordionCount i remaining tt
    = (Ok (existsb available
             (map (fun k => (i + Z.of_nat k)%Z) (seq 0 remaining))),
       tt).
Proof.
  induction remaining as [|remaining IH]; intros i Hle.
  - reflexivity.
  - cbn [NodePage.availability_loop].
    assert (Hlt : (i <? accordionCount)%Z = true)
      by (apply Z.ltb_lt; lia).
    rewrite Hlt. unfold bind at 1. rewrite check_on_static_page.
    fold (available i).
    cbn [seq map existsb]. rewrite Z.add_0_r.
    destruct (available i); [reflexivity|]. cbn [orb].
    rewrite IH by lia.
    rewrite <- seq_shift, map_map.
    rewrite (map_ext (fun k => (i + 1 + Z.of_nat k)%Z)
                     (fun x => (i + Z.of_nat (S x))%Z)) by (intros; lia).
    reflexivity.
Qed.

(** X24: on a page that does not change and whose locators resolve,
    [anyNodeAvailable] returns [true] exactly when one of the accordion
    buttons number 0 to [count - 1] is shown and enabled; with no accordion
    button it returns [false]. *)
Theorem anyNodeAvailable_on_static_page :
  NodePage.anyNodeAvailable (H := staticBrowser dom) DEFAULT_TIMEOUT tt
  = (Ok (existsb available
           (map Z.of_nat
              (seq 0 (Z.to_nat
                        (matches dom NodePage.generalAccordionButtonLocator))))),
     tt).
Proof.
  unfold NodePage.anyNodeAvailable, try_catch. unfold bind at 1.
  cbn [count staticBrowser]. unfold onLocator at 1. rewrite resolves.
  unfold ret at 1.
  destruct (matches dom NodePage.generalAccordionButtonLocator =? 0)%Z
    eqn:Hzero.
  - apply Z.eqb_eq in Hzero. rewrite Hzero. reflexivity.
  - rewrite Z.sub_0_r.
    destruct (Z.le_gt_cases 0
                (matches dom NodePage.generalAccordionButtonLocator))
      as [Hnonneg | Hneg].
    + rewrite availability_loop_on_static_page by lia. reflexivity.
    + replace (Z.to_nat (matches dom NodePage.generalAccordionButtonLocator))
        with 0 by lia.
      reflexivity.
Qed.

End StaticPage.

Lemma anyNodeAvailable_on_static_page_witness :
  NodePage.anyNodeAvailable (H := staticBrowser thirdNodeShown) 30000 tt
  = (Ok true, tt).
Proof.
  exact (anyNodeAvailable_on_static_page thirdNodeShown 30000
           (fun _ => eq_refl)).
Defined.

(** Case analysis on the next awaited call of a flow. *)
Ltac next_call :=
  unfold bind at 1;
  match goal with
  | |- context [match ?m ?w with _ => _ end] =>
      let E := fresh "Hcall" in
      destruct (m w) as [[? | ?] ?] eqn:E; cbn [fst snd]
  end.

Section Login.

Context {W : Type}.
Variable loginPage : ILoginPage W.

(** X25: without an email or without a password [performLogin] fails with
    "Email or password is empty" before the login page is touched. *)
Theorem performLogin_rejects_empty_credentials (email password : string)
    (w : W) :
  email = EmptyString \/ password = EmptyString ->
  LoginFlow.performLogin loginPage email password w
  = (Throw (Err (mkError Error "Email or password is empty")), w).
Proof.
  intros Hempty. unfold LoginFlow.performLogin.
  assert (Hguard : (email =? EmptyString) || (password =? EmptyString)
                   = true).
  { destruct Hempty as [-> | ->]; [reflexivity|].
    rewrite String.eqb_refl. apply orb_true_r. }
  rewrite Hguard. reflexivity.
Qed.

(** Where a failure of [performLogin] comes from: it is one of the three
    errors of the flow, or it was thrown by a method of the login page. *)
Lemma performLogin_failure_origin (email password : string) (w : W)
    (thrown : Thrown) :
  fst (LoginFlow.performLogin loginPage email password w) = Throw thrown ->
  thrown = new_Error "Email or password is empty"
  \/ thrown = new_Error "Login failed after CAPTCHA resolution and retry."
  \/ thrown
     = new_Error
         "Login failed after CAPTCHA. Browser will remain open for debugging."
  \/ exists w',
       fst (navigate loginPage w') = Throw thrown
       \/ fst (acceptCookies loginPage w') = Throw thrown
       \/ fst (fillEmail loginPage email w') = Throw thrown
       \/ fst (fillPassword loginPage password w') = Throw thrown
       \/ fst (clickSubmitButton loginPage w') = Throw thrown
       \/ fst (isCaptchaPresent loginPage w') = Throw thrown
       \/ fst (pauseForCaptcha loginPage w') = Throw thrown
       \/ exists wait, fst (isLoggedIn loginPage wait w') = Throw thrown.
Proof.
  unfold LoginFlow.performLogin.
  destruct ((email =? EmptyString) || (password =? EmptyString));
    [cbn [throw fst]; intros H; injection H as <-; left; reflexivity|].
  assert (Hpage : forall (A : Type) (m : Async W A) (w' : W) (a : Thrown)
                         (w'' : W),
             m w' = (Throw a, w'') -> fst (m w') = Throw a)
    by (intros A m w' a w'' E; rewrite E; reflexivity).
  next_call;
    [ | intros H; injection H as <-; do 3 right; eexists; left;
        eapply Hpage; eassumption ].
  next_call;
    [ | intros H; injection H as <-; do 3 right; eexists; right; left;
        eapply Hpage; eassumption ].
  next_call;
    [ | intros H; injection H as <-; do 3 right; eexists; do 2 right; left;
        eapply Hpage; eassumption ].
  next_call;
    [ | intros H; injection H as <-; do 3 right; eexists; do 3 right; left;
        eapply Hpage; eassumption ].
  next_call;
    [ | intros H; injection H as <-; do 3 right; eexists; do 4 right; left;
        eapply Hpage; eassumption ].
  next_call;
    [ | intros H; injection H as <-; do 3 right; eexists; do 7 right;
        eexists; eapply Hpage; eassumption ].
  match goal with b : bool |- _ => destruct b end; cbn [negb].
  { unfold bind, ret. cbn [fst]. discriminate. }
  unfold bind at 1. next_call;
    [ | intros H; injection H as <-; do 3 right; eexists; do 5 right; left;
        eapply Hpage; eassumption ].
  match goal with b : bool |- _ => destruct b end.
  2:{ unfold ret, throw. cbn [fst]. intros H. injection H as <-.
      do 2 right. left. reflexivity. }
  next_call;
    [ | intros H; injection H as <-; do 3 right; eexists; do 6 right; left;
        eapply Hpage; eassumption ].
  next_call;
    [ | intros H; injection H as <-; do 3 right; eexists; do 7 right;
        eexists; eapply Hpage; eassumption ].
  match goal with b : bool |- _ => destruct b end; cbn [negb].
  { unfold ret. cbn [fst]. discriminate. }
  next_call;
    [ | intros H; injection H as <-; do 3 right; eexists; do 4 right; left;
        eapply Hpage; eassumption ].
  next_call;
    [ | intros H; injection H as <-; do 3 right; eexists; do 7 right;
        eexists; eapply Hpage; eassumption ].
  match goal with b : bool |- _ => destruct b end; cbn [negb].
  { unfold ret. cbn [fst]. discriminate. }
  unfold throw. cbn [fst]. intros H. injection H as <-.
  right. left. reflexivity.
Qed.

End Login.

Lemma performLogin_rejects_empty_credentials_witness :
  LoginFlow.performLogin
    (LoginPage.implementation (H := staticBrowser loggedOutPage)
       "https://login.example" 30000)
    "user@example.com" EmptyString tt
  = (Throw (Err (mkError Error "Email or password is empty")), tt).
Proof.
  apply (performLogin_rejects_empty_credentials
           (LoginPage.implementation (H := staticBrowser loggedOutPage)
              "https://login.example" 30000)
           "user@example.com" EmptyString tt).
  right. reflexivity.
Defined.

(** X26: [performLogin] cannot succeed on a page that never reports the
    user as logged in: if no call of [isLoggedIn] returns [true], the flow
    fails, whatever the other methods of the page do. *)
Theorem performLogin_needs_login {W : Type} (loginPage : ILoginPage W)
    (email password : string) (w : W) :
  (forall wait w', fst (isLoggedIn loginPage wait w') <> Ok true) ->
  exists thrown : Thrown,
    fst (LoginFlow.performLogin loginPage email password w) = Throw thrown.
Proof.
  intros Hnever. unfold LoginFlow.performLogin.
  assert (Hout : forall (wait : bool) (w' w'' : W),
             isLoggedIn loginPage wait w' = (Ok true, w'') -> False).
  { intros wait w' w'' E. apply (Hnever wait w'). rewrite E. reflexivity. }
  destruct ((email =? EmptyString) || (password =? EmptyString));
    [eexists; reflexivity|].
  do 5 (next_call; [ | eexists; reflexivity ]).
  next_call; [ | eexists; reflexivity ].
  match goal with b : bool |- _ => destruct b end;
    [exfalso; eapply Hout; eassumption|].
  cbn [negb]. unfold bind at 1.
  next_call; [ | eexists; reflexivity ].
  match goal with b : bool |- _ => destruct b end.
  2:{ unfold ret, throw. cbn [fst]. eexists; reflexivity. }
  next_call; [ | eexists; reflexivity ].
  next_call; [ | eexists; reflexivity ].
  match goal with b : bool |- _ => destruct b end;
    [exfalso; eapply Hout; eassumption|].
  cbn [negb].
  next_call; [ | eexists; reflexivity ].
  next_call; [ | eexists; reflexivity ].
  match goal with b : bool |- _ => destruct b end;
    [exfalso; eapply Hout; eassumption|].
  cbn [negb]. unfold throw. cbn [fst]. eexists; reflexivity.
Qed.

Lemma performLogin_needs_login_witness :
  exists thrown : Thrown,
    fst (LoginFlow.performLogin
           (LoginPage.implementation (H := staticBrowser loggedOutPage)
              "https://login.example" 30000)
           "user@example.com" "secret" tt) = Throw thrown.
Proof.
  apply (performLogin_needs_login
           (LoginPage.implementation (H := staticBrowser loggedOutPage)
              "https://login.example" 30000)
           "user@example.com" "secret" tt).
  intros wait []. destruct wait; vm_compute; discriminate.
Defined.

(** X27: with the login page of the sources, on any browser, a failure of
    [performLogin] is one of the three plain errors of the flow or a
    [LoginError]: nothing that Playwright throws reaches the caller
    unwrapped. *)
Theorem performLogin_failure_classes {W : Type} `{Browser W}
    (LOGIN_URL : string) (DEFAULT_TIMEOUT : N) (email password : string)
    (w : W) (thrown : Thrown) :
  fst (LoginFlow.performLogin
         (LoginPage.implementation LOGIN_URL DEFAULT_TIMEOUT)
         email password w) = Throw thrown ->
  thrown = Err (mkError Error "Email or password is empty")
  \/ thrown
     = Err (mkError Error "Login failed after CAPTCHA resolution and retry.")
  \/ thrown
     = Err (mkError Error
         "Login failed after CAPTCHA. Browser will remain open for debugging.")
  \/ exists msg, thrown = Err (mkError LoginError msg).
Proof.
  intros Hfail.
  destruct (performLogin_failure_origin _ _ _ _ _ Hfail)
    as [-> | [-> | [-> | [w' Hpage]]]];
    [left; reflexivity | right; left; reflexivity
     | do 2 right; left; reflexivity | do 3 right].
  cbn [LoginPage.implementation navigate acceptCookies fillEmail
       fillPassword clickSubmitButton isCaptchaPresent pauseForCaptcha
       isLoggedIn] in Hpage.
  destruct Hpage as [Hf | [Hf | [Hf | [Hf | [Hf | [Hf | [Hf | [wait Hf]]]]]]]];
    try exact (wrapped_failure_class _ _ _ LoginError _ _ class_LOGIN Hf).
  destruct (isLoggedIn_never_throws_aux DEFAULT_TIMEOUT wait w') as [b Hb].
  rewrite Hb in Hf. discriminate.
Qed.

Lemma performLogin_failure_classes_witness :
  Err (mkError Error
         "Login failed after CAPTCHA. Browser will remain open for debugging.")
  = Err (mkError Error "Email or password is empty")
  \/ Err (mkError Error
            "Login failed after CAPTCHA. Browser will remain open for debugging.")
     = Err (mkError Error "Login failed after CAPTCHA resolution and retry.")
  \/ Err (mkError Error
            "Login failed after CAPTCHA. Browser will remain open for debugging.")
     = Err (mkError Error
         "Login failed after CAPTCHA. Browser will remain open for debugging.")
  \/ exists msg,
       Err (mkError Error
              "Login failed after CAPTCHA. Browser will remain open for debugging.")
       = Err (mkError LoginError msg).
Proof.
  apply (performLogin_failure_classes (H := staticBrowser loggedOutPage)
           "https://login.example" 30000 "user@example.com" "secret" tt).
  vm_compute. reflexivity.
Defined.

Section Nodes.

Context {W : Type} `{Browser W}.
Variable nodePage : INodePage W.

(** X28: once [copyNodeUrls] has returned with a non-empty first URL,
    every later call on the same flow returns that first URL for both
    sites, for whatever protocol it is asked, and does not touch the page:
    the second URL and the protocol play no part any more. *)
Theorem copyNodeUrls_is_cached (this this' : NodeFlow.t)
    (protocol : string) (w w' : W) (urls : NodeUrls) :
  NodeFlow.copyNodeUrls nodePage this protocol w = (Ok (urls, this'), w') ->
  site1 urls <> EmptyString ->
  forall (protocol' : string) (w'' : W),
    NodeFlow.copyNodeUrls nodePage this' protocol' w''
    = (Ok (mkUrls (site1 urls) (site1 urls), this'), w'').
Proof.
  intros Hfirst Hurl protocol' w''.
  assert (Hcached : NodeFlow.nodeUrl this' = Some (site1 urls)).
  { unfold NodeFlow.copyNodeUrls, try_catch in Hfirst.
    destruct (truthyString (NodeFlow.nodeUrl this)) eqn:Htruthy.
    - cbn [ret] in Hfirst. injection Hfirst as <- <- _.
      destruct (NodeFlow.nodeUrl this) as [u|]; [reflexivity | discriminate].
    - revert Hfirst.
      next_call; [ | unfold throw; discriminate].
      next_call; [ | unfold throw; discriminate].
      do 3 (next_call; [ | unfold throw; discriminate]).
      next_call; [ | unfold throw; discriminate].
      next_call; [ | unfold throw; discriminate].
      next_call; [ | unfold throw; discriminate].
      unfold ret. intros Hfirst. injection Hfirst as <- <- _. reflexivity. }
  unfold NodeFlow.copyNodeUrls, try_catch.
  rewrite Hcached. cbn [truthyString].
  apply String.eqb_neq in Hurl. rewrite Hurl. reflexivity.
Qed.

End Nodes.

Lemma copyNodeUrls_is_cached_witness :
  NodeFlow.copyNodeUrls
    (NodePage.implementation (H := staticBrowser (pageWithNodes 1)) 30000)
    (NodeFlow.mk (Some "https://site1.example/abc")) "Polygon" tt
  = (Ok (mkUrls
           (site1 (mkUrls "https://site1.example/abc"
                          "https://site2.example/abc"))
           (site1 (mkUrls "https://site1.example/abc"
                          "https://site2.example/abc")),
         NodeFlow.mk (Some "https://site1.example/abc")), tt).
Proof.
  apply (copyNodeUrls_is_cached
           (NodePage.implementation (H := staticBrowser (pageWithNodes 1))
              30000)
           NodeFlow.new (NodeFlow.mk (Some "https://site1.example/abc"))
           "Ethereum" tt tt
           (mkUrls "https://site1.example/abc" "https://site2.example/abc")).
  - vm_compute. reflexivity.
  - discriminate.
Defined.

Section DeleteAll.

Context {W : Type} `{Browser W}.
Variable nodePage : INodePage W.

(** One pass of the loop: the accordion number [i] is opened, and the pass
    ends normally whether or not a step of the deletion has failed. *)
Lemma delete_pass (i : Z) (log : list (option string * option Z)) (w : W) :
  exists w' : W,
    try_catch
      (openAccordion (recordingOpens nodePage) None (Some i) ;;
       clickDeleteNodeButton (recordingOpens nodePage) None (Some i) ;;
       confirmDeleteNodeOperationButton (recordingOpens nodePage) None
         (Some i))
      (fun _ => ret tt) (log, w)
    = (Ok tt, (log ++ [(None, Some i)], w')).
Proof.
  unfold try_catch, bind.
  cbn [openAccordion clickDeleteNodeButton confirmDeleteNodeOperationButton
       recordingOpens fst snd].
  destruct (openAccordion nodePage None (Some i) w) as [[[] | e] wa];
    [ | eexists; reflexivity].
  unfold beside at 1. cbn [fst snd].
  destruct (clickDeleteNodeButton nodePage None (Some i) wa)
    as [[[] | e] wb]; [ | eexists; reflexivity].
  unfold beside. cbn [fst snd].
  destruct (confirmDeleteNodeOperationButton nodePage None (Some i) wb)
    as [[[] | e] wc]; eexists; reflexivity.
Qed.

Lemma delete_loop_log :
  forall (remaining : nat) (log : list (option string * option Z)) (w : W),
    exists w' : W,
      NodeFlow.delete_loop (recordingOpens nodePage)
        (Z.of_nat remaining - 1) remaining (log, w)
      = (Ok tt,
         (log ++ map (fun i => (None, Some i))
                     (descending (Z.of_nat remaining)),
          w')).
Proof.
  induction remaining as [|remaining IH]; intros log w.
  - exists w. cbn. rewrite app_nil_r. reflexivity.
  - cbn [NodeFlow.delete_loop].
    assert (Hle : (0 <=? Z.of_nat (S remaining) - 1)%Z = true)
      by (apply Z.leb_le; lia).
    rewrite Hle. unfold bind at 1.
    destruct (delete_pass (Z.of_nat (S remaining) - 1) log w) as [w1 ->].
    replace (Z.of_nat (S remaining) - 1 - 1)%Z
      with (Z.of_nat remaining - 1)%Z by lia.
    destruct (IH (log ++ [(None, Some (Z.of_nat (S remaining) - 1)%Z)]) w1)
      as [w2 ->].
    exists w2. f_equal. f_equal.
    rewrite <- app_assoc. f_equal.
    unfold descending. rewrite !Nat2Z.id.
    cbn [seq map]. rewrite <- seq_shift, !map_map. cbn [app].
    f_equal; [do 2 f_equal; lia|].
    apply map_ext. intros k. do 2 f_equal. lia.
Qed.

(** X29: [ifNodesDetectedDeleteAllNodes] on a page with [n] accordion
    buttons opens the accordions number [n - 1] down to [0], each once and
    in that order, and ends normally even when steps of a deletion fail:
    only a failure of [anyNodeAvailable] or of the count can make it fail.
    When no node is available it calls nothing else. *)
Theorem deleteAll_visits_every_index (w w1 : W) :
  (anyNodeAvailable nodePage w = (Ok false, w1) ->
   NodeFlow.ifNodesDetectedDeleteAllNodes (recordingOpens nodePage)
     ([], w)
   = (Ok tt, ([], w1)))
  /\ (forall (n : Z) (w2 : W),
      anyNodeAvailable nodePage w = (Ok true, w1) ->
      count (getGeneralAccordionButtonLocator nodePage) w1 = (Ok n, w2) ->
      fst (NodeFlow.ifNodesDetectedDeleteAllNodes (recordingOpens nodePage)
             ([], w)) = Ok tt
      /\ fst (snd (NodeFlow.ifNodesDetectedDeleteAllNodes
                     (recordingOpens nodePage) ([], w)))
         = map (fun i => (None, Some i)) (descending n)).
Proof.
  split.
  - intros Hnone.
    unfold NodeFlow.ifNodesDetectedDeleteAllNodes, try_catch, bind.
    cbn [anyNodeAvailable recordingOpens]. unfold beside. cbn [fst snd].
    rewrite Hnone. reflexivity.
  - intros n w2 Hsome Hcount.
    assert (Hrun : exists w3 : W,
               NodeFlow.ifNodesDetectedDeleteAllNodes
                 (recordingOpens nodePage) ([], w)
               = (Ok tt,
                  (map (fun i => (None, Some i)) (descending n), w3))).
    { unfold NodeFlow.ifNodesDetectedDeleteAllNodes, try_catch.
      unfold bind at 1.
      cbn [anyNodeAvailable recordingOpens getGeneralAccordionButtonLocator].
      unfold beside at 1. cbn [fst snd]. rewrite Hsome. cbn [negb].
      unfold bind at 1. cbn [count browserBeside]. unfold beside at 1.
      cbn [fst snd]. rewrite Hcount.
      replace (n - 1 + 1)%Z with n by lia.
      destruct (Z.le_gt_cases 0 n) as [Hnonneg | Hneg].
      - set (k := Z.to_nat n).
        assert (Hn : n = Z.of_nat k) by lia.
        rewrite Hn.
        destruct (delete_loop_log k [] w2) as [w3 ->].
        exists w3. reflexivity.
      - unfold descending. replace (Z.to_nat n) with 0 by lia.
        exists w2. reflexivity. }
    destruct Hrun as [w3 ->]. split; reflexivity.
Qed.

End DeleteAll.

Lemma deleteAll_visits_every_index_witness :
  fst (NodeFlow.ifNodesDetectedDeleteAllNodes
         (H := browserBeside (H := staticBrowser (pageWithNodes 3)))
         (recordingOpens
            (NodePage.implementation
               (H := staticBrowser (pageWithNodes 3)) 30000))
         ([], tt)) = Ok tt
  /\ fst (snd (NodeFlow.ifNodesDetectedDeleteAllNodes
                 (H := browserBeside (H := staticBrowser (pageWithNodes 3)))
                 (recordingOpens
                    (NodePage.implementation
                       (H := staticBrowser (pageWithNodes 3)) 30000))
                 ([], tt)))
     = map (fun i => (None, Some i)) (descending 3).
Proof.
  apply (proj2 (deleteAll_visits_every_index
                  (H := staticBrowser (pageWithNodes 3))
                  (NodePage.implementation
                     (H := staticBrowser (pageWithNodes 3)) 30000)
                  tt tt) 3%Z tt); vm_compute; reflexivity.
Defined.

Section System.

Context {W : Type} `{Browser W}.
Variable loginPage : ILoginPage W.
Variable nodePage : INodePage W.
Variable mainMenu : IMainMenu W.

(** X30: the system flow has no [finally].  When the login fails,
    [loginAndCreateNode] fails with the same error and neither the menu nor
    the node page is touched; and when the deletion of the node fails,
    [cleanupNodeAndSession] fails with the same error and neither clears
    the cookies nor closes the page. *)
Theorem systemFlow_stops_at_first_failure (nodeFlow : NodeFlow.t)
    (protocol network email password : string) (w : W) (thrown : Thrown) :
  (fst (LoginFlow.performLogin loginPage email password w) = Throw thrown ->
   SystemFlow.loginAndCreateNode loginPage nodePage mainMenu nodeFlow
     protocol network email password w
   = (Throw thrown,
      snd (LoginFlow.performLogin loginPage email password w)))
  /\ (fst (NodeFlow.deleteNode nodePage protocol w) = Throw thrown ->
      SystemFlow.cleanupNodeAndSession nodePage protocol network true w
      = (Throw thrown, snd (NodeFlow.deleteNode nodePage protocol w))).
Proof.
  split; intros Hfail.
  - unfold SystemFlow.loginAndCreateNode. unfold bind at 1.
    destruct (LoginFlow.performLogin loginPage email password w)
      as [[[] | e] w1]; cbn [fst snd] in *; [discriminate|].
    injection Hfail as ->. reflexivity.
  - unfold SystemFlow.cleanupNodeAndSession. unfold bind at 1.
    destruct (NodeFlow.deleteNode nodePage protocol w)
      as [[[] | e] w1]; cbn [fst snd] in *; [discriminate|].
    injection Hfail as ->. reflexivity.
Qed.

End System.

Lemma systemFlow_stops_at_first_failure_witness :
  SystemFlow.loginAndCreateNode
    (LoginPage.implementation (H := staticBrowser (pageWithNodes 1))
       "https://login.example" 30000)
    (NodePage.implementation (H := staticBrowser (pageWithNodes 1)) 30000)
    (MainMenu.implementation (H := staticBrowser (pageWithNodes 1)) 30000)
    NodeFlow.new "Ethereum" "Mainnet" EmptyString "secret" tt
  = (Throw (Err (mkError Error "Email or password is empty")), tt).
Proof.
  apply (proj1 (systemFlow_stops_at_first_failure
                  (H := staticBrowser (pageWithNodes 1))
                  (LoginPage.implementation
                     (H := staticBrowser (pageWithNodes 1))
                     "https://login.example" 30000)
                  (NodePage.implementation
                     (H := staticBrowser (pageWithNodes 1)) 30000)
                  (MainMenu.implementation
                     (H := staticBrowser (pageWithNodes 1)) 30000)
                  NodeFlow.new "Ethereum" "Mainnet" EmptyString "secret" tt
                  (Err (mkError Error "Email or password is empty")))).
  reflexivity.
Defined.

End UiFacts.
